(** * Moltbook tools: credential store and API client core

    A shallow embedding of [src/tools/moltbook.py]: the credential store
    ([load_credentials], [save_credentials], [get_auth_headers]), the
    request wrapper [api_request] and the tools built on it (all of them
    but [upload_avatar]), together with the parts of Python's [json] module
    the store and the tools go through ([json.dumps] with [indent=2] and
    [json.loads]). *)

From Stdlib Require Import String Ascii DecimalString DecimalPos.
From Stdlib Require Import List NArith ZArith Bool Lia.
Import ListNotations.

Local Open Scope N_scope.

(** ** Python strings

    A Python [str] is a sequence of code points; a code point is a number
    below [0x110000].  Surrogate code points (0xD800..0xDFFF) are legal
    elements of a [str]. *)

Definition pystr : Type := list N.

Definition py (s : string) : pystr := map N_of_ascii (list_ascii_of_string s).

Definition valid_code_point (c : N) : Prop := c < 1114112.

Definition valid_str (s : pystr) : Prop := Forall valid_code_point s.

Fixpoint str_eqb (a b : pystr) : bool :=
  match a, b with
  | [], [] => true
  | x :: a', y :: b' => (x =? y) && str_eqb a' b'
  | _, _ => false
  end.

Fixpoint startswith (s prefix : pystr) {struct prefix} : bool :=
  match prefix, s with
  | [], _ => true
  | p :: prefix', c :: s' => (c =? p) && startswith s' prefix'
  | _ :: _, [] => false
  end.

(** [sub in s] on strings. *)
Fixpoint contains (s sub : pystr) : bool :=
  startswith s sub ||
  match s with
  | [] => false
  | _ :: s' => contains s' sub
  end.

(** [str(n)] for an [int]. *)
Definition str_of_int (z : Z) : pystr := py (NilZero.string_of_int (Z.to_int z)).

(** ** String escapes of the [json] module *)

Definition QUOTE : N := 34.
Definition BACKSLASH : N := 92.
Definition LOWER_U : N := 117.

Definition is_high_surrogate (c : N) : bool := (55296 <=? c) && (c <=? 56319).
Definition is_low_surrogate (c : N) : bool := (56320 <=? c) && (c <=? 57343).

Definition hexdigit (k : N) : N := if k <? 10 then 48 + k else 87 + k.

(** ['{0:04x}'.format(n)] for [n < 0x10000]. *)
Definition hex4 (n : N) : pystr :=
  [hexdigit (n / 4096 mod 16); hexdigit (n / 256 mod 16);
   hexdigit (n / 16 mod 16); hexdigit (n mod 16)].

Definition unicode_escape (n : N) : pystr := BACKSLASH :: LOWER_U :: hex4 n.

(** The replacement function of [encode_basestring_ascii]: [ESCAPE_DCT]
    first, then a literal for the printable ASCII range, then [\uXXXX], with
    a surrogate pair above the basic plane. *)
Definition escape_char (c : N) : pystr :=
  if c =? 92 then [92; 92]
  else if c =? 34 then [92; 34]
  else if c =? 8 then [92; 98]
  else if c =? 12 then [92; 102]
  else if c =? 10 then [92; 110]
  else if c =? 13 then [92; 114]
  else if c =? 9 then [92; 116]
  else if (32 <=? c) && (c <=? 126) then [c]
  else if c <? 65536 then unicode_escape c
  else
    let n := c - 65536 in
    let s1 := N.lor 55296 (N.land (N.shiftr n 10) 1023) in
    let s2 := N.lor 56320 (N.land n 1023) in
    unicode_escape s1 ++ unicode_escape s2.

Definition encode_basestring_ascii (s : pystr) : pystr :=
  QUOTE :: flat_map escape_char s ++ [QUOTE].

Definition hexval (c : N) : option N :=
  if (48 <=? c) && (c <=? 57) then Some (c - 48)
  else if (97 <=? c) && (c <=? 102) then Some (c - 87)
  else if (65 <=? c) && (c <=? 70) then Some (c - 55)
  else None.

(** [_decode_uXXXX]: four hexadecimal digits, either case. *)
Definition decode_uXXXX (a b c d : N) : option N :=
  match hexval a, hexval b, hexval c, hexval d with
  | Some x, Some y, Some z, Some w => Some (((x * 16 + y) * 16 + z) * 16 + w)
  | _, _, _, _ => None
  end.

(** The [BACKSLASH] table of the decoder. *)
Definition unescape (esc : N) : option N :=
  if esc =? 34 then Some 34
  else if esc =? 92 then Some 92
  else if esc =? 47 then Some 47
  else if esc =? 98 then Some 8
  else if esc =? 102 then Some 12
  else if esc =? 110 then Some 10
  else if esc =? 114 then Some 13
  else if esc =? 116 then Some 9
  else None.

Definition prepend (c : N) (r : option (pystr * pystr)) : option (pystr * pystr) :=
  match r with
  | Some (str, tl) => Some (c :: str, tl)
  | None => None
  end.

(** [scanstring] in strict mode, called just after the opening quote;
    returns the decoded string and the text after the closing quote, or
    [None] where the decoder raises [JSONDecodeError]. *)
Fixpoint scanstring (s : pystr) : option (pystr * pystr) :=
  match s with
  | [] => None
  | c :: rest =>
    if c =? QUOTE then Some ([], rest)
    else if c =? BACKSLASH then
      match rest with
      | [] => None
      | esc :: rest1 =>
        if esc =? LOWER_U then
          match rest1 with
          | a :: b :: c' :: d :: rest2 =>
            match decode_uXXXX a b c' d with
            | None => None
            | Some uni =>
              if is_high_surrogate uni && startswith rest2 [BACKSLASH; LOWER_U] then
                match rest2 with
                | _ :: _ :: e :: f :: g :: h :: rest3 =>
                  match decode_uXXXX e f g h with
                  | None => None
                  | Some uni2 =>
                    if is_low_surrogate uni2 then
                      prepend (65536 + N.lor (N.shiftl (uni - 55296) 10) (uni2 - 56320))
                              (scanstring rest3)
                    else prepend uni (scanstring rest2)
                  end
                | _ => None
                end
              else prepend uni (scanstring rest2)
            end
          | _ => None
          end
        else
          match unescape esc with
          | Some ch => prepend ch (scanstring rest1)
          | None => None
          end
      end
    else if c <? 32 then None
    else prepend c (scanstring rest)
  end.

(** A high surrogate immediately followed by a low surrogate. *)
Fixpoint has_surrogate_pair (s : pystr) : bool :=
  match s with
  | c :: tl =>
    match tl with
    | d :: _ => (is_high_surrogate c && is_low_surrogate d) || has_surrogate_pair tl
    | [] => false
    end
  | [] => false
  end.

Definition no_low_escape (t : pystr) : Prop :=
  startswith t [BACKSLASH; LOWER_U] = true ->
  exists e f g h rest u,
    t = BACKSLASH :: LOWER_U :: e :: f :: g :: h :: rest /\
    decode_uXXXX e f g h = Some u /\ is_low_surrogate u = false.

(** Text that [json.dumps] followed by [json.loads] gives back unchanged:
    valid code points, and no high surrogate directly before a low one (the
    decoder reads the two escapes of such a pair as one code point). *)
Definition plain_text (s : pystr) : Prop :=
  valid_str s /\ has_surrogate_pair s = false.

(** ** Lexical helpers of the decoder *)

Definition is_ws (c : N) : bool := (c =? 32) || (c =? 9) || (c =? 10) || (c =? 13).

Fixpoint skip_ws (s : pystr) : pystr :=
  match s with
  | c :: s' => if is_ws c then skip_ws s' else s
  | [] => []
  end.

Definition is_digit (c : N) : bool := (48 <=? c) && (c <=? 57).

Fixpoint span_digits (s : pystr) : pystr * pystr :=
  match s with
  | c :: s' =>
    if is_digit c then let (ds, r) := span_digits s' in (c :: ds, r) else ([], s)
  | [] => ([], [])
  end.

(** [NUMBER_RE]: an optional minus sign and either a single zero or a
    non-zero digit followed by digits (the integer group), then optionally a
    dot and one or more digits (the fraction group), then optionally [e] or
    [E], an optional sign and one or more digits (the exponent group).
    Each piece returns what it matched and the text after it. *)
Definition match_sign (s : pystr) : pystr * pystr :=
  match s with
  | c :: s' => if c =? 45 then ([45], s') else ([], s)
  | [] => ([], s)
  end.

Definition match_integer (s : pystr) : option (pystr * pystr) :=
  match s with
  | c :: s' =>
    if c =? 48 then Some ([48], s')
    else if is_digit c then Some (span_digits s)
    else None
  | [] => None
  end.

Definition match_fraction (s : pystr) : pystr * pystr :=
  match s with
  | c :: s' =>
    if c =? 46 then
      match span_digits s' with
      | ([], _) => ([], s)
      | (fs, r) => (46 :: fs, r)
      end
    else ([], s)
  | [] => ([], s)
  end.

Definition match_exponent (s : pystr) : pystr * pystr :=
  match s with
  | c :: s' =>
    if (c =? 101) || (c =? 69) then
      let (esign, s'') :=
        match s' with
        | x :: t => if (x =? 45) || (x =? 43) then ([x], t) else ([], s')
        | [] => ([], s')
        end in
      match span_digits s'' with
      | ([], _) => ([], s)
      | (es, r) => (c :: esign ++ es, r)
      end
    else ([], s)
  | [] => ([], s)
  end.

(** The three groups of [NUMBER_RE] and the text after the match. *)
Definition match_number (s : pystr) : option (pystr * pystr * pystr * pystr) :=
  let (sign, s1) := match_sign s in
  match match_integer s1 with
  | None => None
  | Some (ds, s2) =>
    let (frac, s3) := match_fraction s2 in
    let (exp, s4) := match_exponent s3 in
    Some (sign ++ ds, frac, exp, s4)
  end.

(** [int(text)] on the integer group of [NUMBER_RE]. *)
Definition int_of_digits (ds : pystr) : Z :=
  fold_left (fun acc c => (acc * 10 + Z.of_N (c - 48))%Z) ds 0%Z.

Definition parse_int (s : pystr) : Z :=
  match s with
  | c :: ds => if c =? 45 then (- int_of_digits ds)%Z else int_of_digits s
  | [] => 0%Z
  end.

(** The number a decimal numeral denotes, its digits read from the left
    onto [acc]. *)
Fixpoint uint_value (d : Decimal.uint) (acc : Z) : Z :=
  match d with
  | Decimal.Nil => acc
  | Decimal.D0 d => uint_value d (acc * 10)
  | Decimal.D1 d => uint_value d (acc * 10 + 1)
  | Decimal.D2 d => uint_value d (acc * 10 + 2)
  | Decimal.D3 d => uint_value d (acc * 10 + 3)
  | Decimal.D4 d => uint_value d (acc * 10 + 4)
  | Decimal.D5 d => uint_value d (acc * 10 + 5)
  | Decimal.D6 d => uint_value d (acc * 10 + 6)
  | Decimal.D7 d => uint_value d (acc * 10 + 7)
  | Decimal.D8 d => uint_value d (acc * 10 + 8)
  | Decimal.D9 d => uint_value d (acc * 10 + 9)
  end%Z.

Fixpoint join (sep : pystr) (l : list pystr) : pystr :=
  match l with
  | [] => []
  | x :: l' =>
    match l' with
    | [] => x
    | _ :: _ => x ++ sep ++ join sep l'
    end
  end.

(** ** Exceptions and outcomes *)

(** The exceptions that escape the modelled functions. *)
Inductive exn : Type :=
| JSONDecodeError
| AttributeError.

Inductive outcome (A : Type) : Type :=
| Return (a : A)
| Raise (e : exn).

Arguments Return {A} a.
Arguments Raise {A} e.

(** A reference instance of the floating-point parameters below: a float
    kept as the literal it was read from, used where a development needs a
    closed term. *)
Definition literal_float : Type := pystr.
Definition literal_float_of_literal (s : pystr) : literal_float := s.
Definition literal_floatstr (f : literal_float) : pystr := f.
Definition literal_float_bool (f : literal_float) : bool := true.
Definition literal_str_repr (s : pystr) : pystr := 39 :: s ++ [39].
Definition literal_home : pystr := py "/home/agent".

Section Moltbook.

(** ** Parameters of the Python runtime and of [httpx]

    Floating-point numbers are kept abstract: their type, the conversion
    from a JSON literal, the text [json.dumps] prints for them, their
    [repr] and their truth value.  So are [repr] on a [str] (its quoting
    follows the Unicode tables) and the home directory. *)

Variable float : Type.
Variable float_of_literal : pystr -> float.
Variable floatstr : float -> pystr.
Variable float_repr : float -> pystr.
Variable float_bool : float -> bool.
Variable str_repr : pystr -> pystr.
Variable home : pystr.

(** ** Python values reachable from JSON *)

#[warnings="-register-all"]
Inductive value : Type :=
| VNone
| VBool (b : bool)
| VInt (z : Z)
| VFloat (f : float)
| VStr (s : pystr)
| VList (l : list value)
| VDict (d : list (pystr * value)).

(** A [dict] with [str] keys, in insertion order. *)
Definition dict : Type := list (pystr * value).

Fixpoint dict_get (d : dict) (k : pystr) : option value :=
  match d with
  | [] => None
  | (k', v) :: d' => if str_eqb k' k then Some v else dict_get d' k
  end.

(** [d[k] = v]: an existing key keeps its place. *)
Fixpoint dict_set (d : dict) (k : pystr) (v : value) : dict :=
  match d with
  | [] => [(k, v)]
  | (k', v') :: d' =>
    if str_eqb k' k then (k', v) :: d' else (k', v') :: dict_set d' k v
  end.

(** [dict(pairs)], also [d.update(pairs)] from [d]. *)
Definition dict_update (d : dict) (pairs : list (pystr * value)) : dict :=
  fold_left (fun acc kv => dict_set acc (fst kv) (snd kv)) pairs d.

Definition dict_of_pairs (pairs : list (pystr * value)) : dict := dict_update [] pairs.

(** [bool(v)]. *)
Definition truthy (v : value) : bool :=
  match v with
  | VNone => false
  | VBool b => b
  | VInt z => negb (z =? 0)%Z
  | VFloat f => float_bool f
  | VStr s => match s with [] => false | _ :: _ => true end
  | VList l => match l with [] => false | _ :: _ => true end
  | VDict d => match d with [] => false | _ :: _ => true end
  end.

(** [v.get(k, default)]: only a [dict] has the method. *)
Definition get (v : value) (k : pystr) (default : value) : outcome value :=
  match v with
  | VDict d =>
    Return (match dict_get d k with Some x => x | None => default end)
  | _ => Raise AttributeError
  end.

(** [repr(v)] and [str(v)], the latter being what an f-string inserts. *)
Fixpoint repr (v : value) : pystr :=
  match v with
  | VNone => py "None"
  | VBool true => py "True"
  | VBool false => py "False"
  | VInt z => str_of_int z
  | VFloat f => float_repr f
  | VStr s => str_repr s
  | VList l => py "[" ++ join (py ", ") (map repr l) ++ py "]"
  | VDict d =>
    py "{" ++
    join (py ", ") (map (fun kv : pystr * value => let (k, x) := kv in str_repr k ++ py ": " ++ repr x) d) ++
    py "}"
  end.

Definition str (v : value) : pystr :=
  match v with
  | VStr s => s
  | _ => repr v
  end.

(** ** [json.dumps(v, indent=2)] *)

Definition newline_indent (level : nat) : pystr :=
  10 :: concat (repeat (py "  ") level).

Fixpoint encode (level : nat) (v : value) : pystr :=
  match v with
  | VNone => py "null"
  | VBool true => py "true"
  | VBool false => py "false"
  | VInt z => str_of_int z
  | VFloat f => floatstr f
  | VStr s => encode_basestring_ascii s
  | VList l =>
    match l with
    | [] => py "[]"
    | _ :: _ =>
      py "[" ++ newline_indent (S level) ++
      join (44 :: newline_indent (S level)) (map (encode (S level)) l) ++
      newline_indent level ++ py "]"
    end
  | VDict d =>
    match d with
    | [] => py "{}"
    | _ :: _ =>
      py "{" ++ newline_indent (S level) ++
      join (44 :: newline_indent (S level))
           (map (fun kv : pystr * value => let (k, x) := kv in
                           encode_basestring_ascii k ++ py ": " ++ encode (S level) x) d) ++
      newline_indent level ++ py "}"
    end
  end.

Definition dumps (v : value) : pystr := encode 0 v.

(** ** [json.loads] *)

Definition scan_result : Type := option (value * pystr).

(** The loop of [JSONArray], entered at the first element. *)
Fixpoint array_loop (scan : pystr -> scan_result) (n : nat) (s : pystr)
  : option (list value * pystr) :=
  match n with
  | O => None
  | S n' =>
    match scan s with
    | None => None
    | Some (v, s1) =>
      match skip_ws s1 with
      | c :: r =>
        if c =? 93 then Some ([v], r)
        else if c =? 44 then
          match array_loop scan n' (skip_ws r) with
          | Some (vs, r') => Some (v :: vs, r')
          | None => None
          end
        else None
      | [] => None
      end
    end
  end.

(** The loop of [JSONObject], entered at the quote that opens a key. *)
Fixpoint object_loop (scan : pystr -> scan_result) (n : nat) (s : pystr)
  : option (list (pystr * value) * pystr) :=
  match n with
  | O => None
  | S n' =>
    match s with
    | q :: s0 =>
      if q =? QUOTE then
        match scanstring s0 with
        | None => None
        | Some (key, s1) =>
          match skip_ws s1 with
          | colon :: s2 =>
            if colon =? 58 then
              match scan (skip_ws s2) with
              | None => None
              | Some (v, s3) =>
                match skip_ws s3 with
                | c :: r =>
                  if c =? 125 then Some ([(key, v)], r)
                  else if c =? 44 then
                    match object_loop scan n' (skip_ws r) with
                    | Some (kvs, r') => Some ((key, v) :: kvs, r')
                    | None => None
                    end
                  else None
                | [] => None
                end
              end
            else None
          | [] => None
          end
        end
      else None
    | [] => None
    end
  end.

(** The body of [_scan_once]; [scan] is the scanner handed to [JSONObject]
    and [JSONArray] for the nested values, [n] bounds the number of items
    of one container. *)
Definition scan_step (scan : pystr -> scan_result) (n : nat) (s : pystr) : scan_result :=
  match s with
  | [] => None
  | c :: rest =>
    if c =? QUOTE then
      match scanstring rest with
      | Some (x, r) => Some (VStr x, r)
      | None => None
      end
    else if c =? 123 then
      match skip_ws rest with
      | c' :: r =>
        if c' =? 125 then Some (VDict [], r)
        else
          match object_loop scan n (c' :: r) with
          | Some (kvs, r') => Some (VDict (dict_of_pairs kvs), r')
          | None => None
          end
      | [] => None
      end
    else if c =? 91 then
      match skip_ws rest with
      | c' :: r =>
        if c' =? 93 then Some (VList [], r)
        else
          match array_loop scan n (c' :: r) with
          | Some (vs, r') => Some (VList vs, r')
          | None => None
          end
      | [] => None
      end
    else if startswith s (py "null") then Some (VNone, skipn 4 s)
    else if startswith s (py "true") then Some (VBool true, skipn 4 s)
    else if startswith s (py "false") then Some (VBool false, skipn 5 s)
    else
      match match_number s with
      | Some (integer, frac, exp, r) =>
        match frac, exp with
        | [], [] => Some (VInt (parse_int integer), r)
        | _, _ => Some (VFloat (float_of_literal (integer ++ frac ++ exp)), r)
        end
      | None =>
        if startswith s (py "NaN") then
          Some (VFloat (float_of_literal (py "NaN")), skipn 3 s)
        else if startswith s (py "Infinity") then
          Some (VFloat (float_of_literal (py "Infinity")), skipn 8 s)
        else if startswith s (py "-Infinity") then
          Some (VFloat (float_of_literal (py "-Infinity")), skipn 9 s)
        else None
      end
  end.

(** [scan_once]; [fuel] bounds the nesting depth and the number of items of
    one container.  Fuel [length s] is enough for a text [s]
    ([scan_once_adequate] below), so [loads] never fails for lack of it. *)
Fixpoint scan_once (fuel : nat) (s : pystr) : scan_result :=
  match fuel with
  | O => None
  | S fuel' => scan_step (scan_once fuel') fuel' s
  end.

(** [json.loads(s)] on a [str]: one value between optional whitespace;
    [None] where Python raises [JSONDecodeError].  The limits of the
    interpreter are outside this model: CPython refuses an integer literal
    of more than 4300 digits with a [ValueError] and a nesting deeper than
    its recursion limit with a [RecursionError], where [loads] returns the
    value the grammar gives. *)
Definition loads (s : pystr) : option value :=
  match scan_once (S (length s)) (skip_ws s) with
  | Some (v, rest) =>
    match skip_ws rest with
    | [] => Some v
    | _ :: _ => None
    end
  | None => None
  end.

(** ** The world outside the process

    The credential file (its text, when it exists), the remote service as
    [httpx.request] sees it, and the requests issued so far. *)

Record Request : Type := mkRequest {
  method : pystr;
  url : pystr;
  json_data : option value;
  params : option dict;
  headers : dict;
  timeout : Z
}.

(** What [response.json()] does.  httpx parses the bytes of the body, not
    [response.text]: it returns the decoded value, or raises an exception
    [e] with [str(e) = m] (a [JSONDecodeError], or a [UnicodeDecodeError]
    for bytes that are not valid UTF-8). *)
Inductive json_outcome : Type :=
| Decoded (v : value)
| Undecodable (m : pystr).

(** A response as the client reads it: [response.status_code],
    [response.text] (the body decoded leniently), [response.json()], and
    [str(e)] of the [HTTPStatusError] that [response.raise_for_status()]
    builds when the status is not 2xx.  The two views of the body are
    independent fields, since [text] replaces bytes it cannot decode and
    keeps a byte order mark that [json] rejects or skips. *)
Record Response : Type := mkResponse {
  status_code : Z;
  text : pystr;
  json : json_outcome;
  status_error : pystr
}.

(** A response whose body is the ASCII text [body]: there both views read
    the same characters, so [json] is [loads body], raising with message
    [json_error] when that fails. *)
Definition text_response (status : Z) (body json_error status_error : pystr)
  : Response :=
  {| status_code := status; text := body;
     json := match loads body with
             | Some v => Decoded v
             | None => Undecodable json_error
             end;
     status_error := status_error |}.

(** [httpx.request] returns a response or raises; [Fails m] is an exception
    [e] with [str(e) = m]. *)
Inductive reply : Type :=
| Responds (r : Response)
| Fails (m : pystr).

Record World : Type := mkWorld {
  cred_file : option pystr;
  remote : Request -> reply;
  calls : list Request
}.

Definition is_success (r : Response) : bool :=
  (200 <=? status_code r)%Z && (status_code r <=? 299)%Z.

(** A world with a given credential file whose service gives one fixed
    reply and has not been called yet. *)
Definition fixed_world (file : option pystr) (answer : reply) : World :=
  {| cred_file := file; remote := fun _ => answer; calls := [] |}.

(** State and exceptions. *)
Definition M (A : Type) : Type := World -> outcome A * World.

Definition ret {A : Type} (a : A) : M A := fun w => (Return a, w).

Definition bind {A B : Type} (m : M A) (k : A -> M B) : M B :=
  fun w =>
    match m w with
    | (Return a, w') => k a w'
    | (Raise e, w') => (Raise e, w')
    end.

Definition lift {A : Type} (o : outcome A) : M A := fun w => (o, w).

Notation "x <- m ;; k" := (bind m (fun x => k))
  (at level 61, m at next level, right associativity).

(** The world once [req] has gone out. *)
Definition issued (w : World) (req : Request) : World :=
  {| cred_file := cred_file w; remote := remote w; calls := calls w ++ [req] |}.

Definition httpx_request (req : Request) : M reply :=
  fun w => (Return (remote w req), issued w req).

(** ** The credential store *)

Definition CREDENTIALS_FILE : pystr := home ++ py "/.config/moltbook/credentials.json".
Definition MOLTBOOK_API_BASE : pystr := py "https://www.moltbook.com/api/v1".

Definition load_credentials : M value :=
  fun w =>
    match cred_file w with
    | Some content =>
      match loads content with
      | Some v => (Return v, w)
      | None => (Raise JSONDecodeError, w)
      end
    | None => (Return VNone, w)
    end.

Definition save_credentials (credentials : value) : M unit :=
  fun w => (Return tt,
            {| cred_file := Some (dumps credentials); remote := remote w; calls := calls w |}).

Definition get_auth_headers : M dict :=
  credentials <- load_credentials ;;
  if negb (truthy credentials) then ret []
  else
    api_key <- lift (get credentials (py "api_key") VNone) ;;
    if negb (truthy api_key) then ret []
    else ret [(py "Authorization", VStr (py "Bearer " ++ str api_key))].

(** The credential record of the data model and the [dict] that holds it. *)
Record Credentials : Type := mkCredentials {
  api_key : pystr;
  agent_name : pystr;
  claim_url : pystr;
  verification_code : pystr
}.

Definition credentials_dict (r : Credentials) : value :=
  VDict [(py "api_key", VStr (api_key r));
         (py "agent_name", VStr (agent_name r));
         (py "claim_url", VStr (claim_url r));
         (py "verification_code", VStr (verification_code r))].

(** A [dict] whose values are all strings. *)
Definition string_dict (pairs : list (pystr * pystr)) : dict :=
  map (fun kv => (fst kv, VStr (snd kv))) pairs.

(** ** The API client core *)

Definition failure (error : value) : value :=
  VDict [(py "success", VBool false); (py "error", error)].

Definition not_registered : value :=
  failure (VStr (py "Not registered on Moltbook. Use register_on_moltbook first.")).

(** The arguments [api_request] hands to [httpx.request]. *)
Definition build_request (method endpoint : pystr) (json_data : option value)
           (params : option dict) (headers : dict) : Request :=
  {| method := method; url := MOLTBOOK_API_BASE ++ endpoint;
     json_data := json_data; params := params;
     headers := headers; timeout := 30 |}.

(** The [try] block of [api_request] with its handlers.  A reply that is
    not 2xx makes [raise_for_status] raise; its handler falls back to the
    status and the text of the body when [e.response.json()] raises, and
    also when it returns something without a [get] method, since the
    [AttributeError] is caught by the same inner handler. *)
Definition send (method endpoint : pystr) (json_data : option value)
           (params : option dict) (headers : dict) : M value :=
  let req := build_request method endpoint json_data params headers in
  response <- httpx_request req ;;
  match response with
  | Fails m => ret (failure (VStr m))
  | Responds r =>
    if is_success r then
      match json r with
      | Decoded v => ret v
      | Undecodable m => ret (failure (VStr m))
      end
    else
      match json r with
      | Decoded (VDict error_data) =>
        ret (VDict [(py "success", VBool false);
                    (py "error", match dict_get error_data (py "error") with
                                 | Some e => e
                                 | None => VStr (status_error r)
                                 end);
                    (py "hint", match dict_get error_data (py "hint") with
                                | Some h => h
                                | None => VNone
                                end)])
      | _ =>
        ret (failure (VStr (str_of_int (status_code r) ++ py " - " ++ text r)))
      end
  end.

Definition api_request (method endpoint : pystr) (json_data : option value)
           (params : option dict) (require_auth : bool) : M value :=
  let headers := [(py "Content-Type", VStr (py "application/json"))] in
  if require_auth then
    auth_headers <- get_auth_headers ;;
    if negb (truthy (VDict auth_headers)) then ret not_registered
    else send method endpoint json_data params (dict_update headers auth_headers)
  else send method endpoint json_data params headers.

(** ** Tools *)

Definition register_on_moltbook (name description : pystr) : M pystr :=
  existing <- load_credentials ;;
  registered <- (if truthy existing
                 then k <- lift (get existing (py "api_key") VNone) ;; ret (truthy k)
                 else ret false) ;;
  if registered : bool then
    agent_name <- lift (get existing (py "agent_name") VNone) ;;
    ret (py "Already registered as " ++ str agent_name ++ py ". API key exists.")
  else
    result <- api_request (py "POST") (py "/agents/register")
                (Some (VDict [(py "name", VStr name); (py "description", VStr description)]))
                None false ;;
    agent_data <- lift (get result (py "agent") VNone) ;;
    if truthy agent_data then
      api_key <- lift (get agent_data (py "api_key") VNone) ;;
      claim_url <- lift (get agent_data (py "claim_url") VNone) ;;
      verification_code <- lift (get agent_data (py "verification_code") VNone) ;;
      _ <- save_credentials (VDict [(py "api_key", api_key);
                                    (py "agent_name", VStr name);
                                    (py "claim_url", claim_url);
                                    (py "verification_code", verification_code)]) ;;
      ret (py "Successfully registered on Moltbook!" ++ [10; 10] ++
           py "Agent Name: " ++ name ++ [10] ++
           py "Claim URL: " ++ str claim_url ++ [10] ++
           py "Verification Code: " ++ str verification_code ++ [10; 10] ++
           py "IMPORTANT: Send the claim URL to your human owner. " ++
           py "They need to verify ownership via Twitter/X to activate the account." ++
           [10; 10] ++
           py "Credentials saved to: " ++ CREDENTIALS_FILE)
    else ret (py "Registration failed: " ++ str result).

Definition get_feed (sort : pystr) (limit : Z) : M pystr :=
  result <- api_request (py "GET") (py "/posts") None
              (Some [(py "sort", VStr sort); (py "limit", VInt limit)]) true ;;
  success <- lift (get result (py "success") VNone) ;;
  match success with
  | VBool false =>
    error <- lift (get result (py "error") VNone) ;;
    ret (py "Failed to get feed: " ++ str error)
  | _ => ret (dumps result)
  end.

(** ** The other tools

    Two idioms recur after the call to [api_request].  Reading tools test
    [result.get("success") is False] and otherwise print the result with
    [json.dumps(result, indent=2)]; tools that confirm an action test the
    truth value of [result.get("success")]. *)

(** [if result.get("success") is False: return f"{prefix}: {result.get('error')}"]
    then [return json.dumps(result, indent=2)]. *)
Definition json_or_failure (prefix : pystr) (result : value) : M pystr :=
  success <- lift (get result (py "success") VNone) ;;
  match success with
  | VBool false =>
    error <- lift (get result (py "error") VNone) ;;
    ret (prefix ++ py ": " ++ str error)
  | _ => ret (dumps result)
  end.

(** [if result.get("success"): return done] then
    [return f"{prefix}: {result.get('error')}"]. *)
Definition done_or_failure (done prefix : pystr) (result : value) : M pystr :=
  success <- lift (get result (py "success") VNone) ;;
  if truthy success then ret done
  else
    error <- lift (get result (py "error") VNone) ;;
    ret (prefix ++ py ": " ++ str error).

(** [if result.get("success"): return result.get("message", default)] then
    [return f"{prefix}: {result.get('error')}"]; the message is returned as
    the reply has it, whatever its type. *)
Definition message_or_failure (default prefix : pystr) (result : value) : M value :=
  success <- lift (get result (py "success") VNone) ;;
  if truthy success then lift (get result (py "message") (VStr default))
  else
    error <- lift (get result (py "error") VNone) ;;
    ret (VStr (prefix ++ py ": " ++ str error)).

Definition check_moltbook_status : M pystr :=
  credentials <- load_credentials ;;
  registered <- (if truthy credentials
                 then k <- lift (get credentials (py "api_key") VNone) ;; ret (truthy k)
                 else ret false) ;;
  if registered : bool then
    result <- api_request (py "GET") (py "/agents/status") None None true ;;
    success <- lift (get result (py "success") VNone) ;;
    match success with
    | VBool false =>
      error <- lift (get result (py "error") VNone) ;;
      ret (py "Status check failed: " ++ str error)
    | _ =>
      status <- lift (get result (py "status") (VStr (py "unknown"))) ;;
      agent_name <- lift (get credentials (py "agent_name") VNone) ;;
      claim_url <- lift (get credentials (py "claim_url") VNone) ;;
      ret (py "Moltbook Status:" ++ [10] ++
           py "- Agent Name: " ++ str agent_name ++ [10] ++
           py "- Status: " ++ str status ++ [10] ++
           py "- Claim URL: " ++ str claim_url)
    end
  else ret (py "Not registered on Moltbook yet. Use register_on_moltbook to register.").

Definition get_my_profile : M pystr :=
  result <- api_request (py "GET") (py "/agents/me") None None true ;;
  json_or_failure (py "Failed to get profile") result.

(** [description] and [metadata] are optional; an empty string and an empty
    [dict] count as not given. *)
Definition update_my_profile (description : option pystr) (metadata : option dict)
  : M pystr :=
  let data := [] in
  let data :=
    match description with
    | Some (c :: d) => dict_set data (py "description") (VStr (c :: d))
    | _ => data
    end in
  let data :=
    match metadata with
    | Some (kv :: m) => dict_set data (py "metadata") (VDict (kv :: m))
    | _ => data
    end in
  match data with
  | [] => ret (py "No updates provided. Specify description and/or metadata.")
  | _ :: _ =>
    result <- api_request (py "PATCH") (py "/agents/me") (Some (VDict data)) None true ;;
    done_or_failure (py "Profile updated successfully!") (py "Profile update failed") result
  end.

Definition remove_avatar : M pystr :=
  result <- api_request (py "DELETE") (py "/agents/me/avatar") None None true ;;
  done_or_failure (py "Avatar removed successfully!") (py "Avatar removal failed") result.

Definition create_post (title content submolt : pystr) : M pystr :=
  result <- api_request (py "POST") (py "/posts")
              (Some (VDict [(py "submolt", VStr submolt); (py "title", VStr title);
                            (py "content", VStr content)]))
              None true ;;
  success <- lift (get result (py "success") VNone) ;;
  if truthy success then
    ret (py "Post created successfully!" ++ [10] ++ dumps result)
  else
    error <- lift (get result (py "error") VNone) ;;
    hint <- lift (get result (py "hint") (VStr (py "N/A"))) ;;
    ret (py "Post creation failed: " ++ str error ++ [10] ++ py "Hint: " ++ str hint).

Definition create_link_post (title url submolt : pystr) : M pystr :=
  result <- api_request (py "POST") (py "/posts")
              (Some (VDict [(py "submolt", VStr submolt); (py "title", VStr title);
                            (py "url", VStr url)]))
              None true ;;
  done_or_failure (py "Link post created successfully!" ++ [10] ++ dumps result)
                  (py "Post creation failed") result.

Definition get_my_feed (sort : pystr) (limit : Z) : M pystr :=
  result <- api_request (py "GET") (py "/feed") None
              (Some [(py "sort", VStr sort); (py "limit", VInt limit)]) true ;;
  json_or_failure (py "Failed to get feed") result.

Definition get_post (post_id : pystr) : M pystr :=
  result <- api_request (py "GET") (py "/posts/" ++ post_id) None None true ;;
  json_or_failure (py "Failed to get post") result.

Definition delete_post (post_id : pystr) : M pystr :=
  result <- api_request (py "DELETE") (py "/posts/" ++ post_id) None None true ;;
  done_or_failure (py "Post deleted successfully!") (py "Post deletion failed") result.

Definition add_comment (post_id content : pystr) : M pystr :=
  result <- api_request (py "POST") (py "/posts/" ++ post_id ++ py "/comments")
              (Some (VDict [(py "content", VStr content)])) None true ;;
  done_or_failure (py "Comment added successfully!" ++ [10] ++ dumps result)
                  (py "Comment failed") result.

Definition reply_to_comment (post_id parent_comment_id content : pystr) : M pystr :=
  result <- api_request (py "POST") (py "/posts/" ++ post_id ++ py "/comments")
              (Some (VDict [(py "content", VStr content);
                            (py "parent_id", VStr parent_comment_id)])) None true ;;
  done_or_failure (py "Reply added successfully!" ++ [10] ++ dumps result)
                  (py "Reply failed") result.

Definition get_comments (post_id sort : pystr) : M pystr :=
  result <- api_request (py "GET") (py "/posts/" ++ post_id ++ py "/comments") None
              (Some [(py "sort", VStr sort)]) true ;;
  json_or_failure (py "Failed to get comments") result.

(** [msg += text] for a message of any type and a [str] on the right: a
    [str] is extended, a [list] takes the characters one by one, anything
    else raises [TypeError]. *)
Definition iadd_str (msg : value) (text : pystr) : option value :=
  match msg with
  | VStr m => Some (VStr (m ++ text))
  | VList l => Some (VList (l ++ map (fun c => VStr [c]) text))
  | _ => None
  end.

(** How [upvote_post] ends: with the message, with an exception of the
    store or the wrapper, or with the [TypeError] of [+=]. *)
Inductive upvote_outcome : Type :=
| Says (msg : value)
| Escapes (e : exn)
| TypeError.

(** The success branch of [upvote_post], on the reply object. *)
Definition upvote_message (result : dict) : upvote_outcome :=
  let field k default :=
    match dict_get result k with Some x => x | None => default end in
  let msg := field (py "message") (VStr (py "Upvoted!")) in
  let with_author :=
    if truthy (field (py "author") VNone) then
      match get (field (py "author") VNone) (py "name") VNone with
      | Raise e => inr (Escapes e)
      | Return name =>
        match iadd_str msg ([10] ++ py "Author: " ++ str name) with
        | Some m => inl m
        | None => inr TypeError
        end
      end
    else inl msg in
  match with_author with
  | inr stop => stop
  | inl msg =>
    if truthy (field (py "suggestion") VNone) then
      match iadd_str msg ([10] ++ str (field (py "suggestion") VNone)) with
      | Some m => Says m
      | None => TypeError
      end
    else Says msg
  end.

Definition upvote_post (post_id : pystr) : World -> upvote_outcome * World :=
  fun w =>
    match api_request (py "POST") (py "/posts/" ++ post_id ++ py "/upvote")
                      None None true w with
    | (Raise e, w') => (Escapes e, w')
    | (Return result, w') =>
      match result with
      | VDict d =>
        if truthy (match dict_get d (py "success") with Some x => x | None => VNone end)
        then (upvote_message d, w')
        else
          (Says (VStr (py "Upvote failed: " ++
                       str (match dict_get d (py "error") with
                            | Some x => x
                            | None => VNone
                            end))), w')
      | _ => (Escapes AttributeError, w')
      end
    end.

Definition downvote_post (post_id : pystr) : M value :=
  result <- api_request (py "POST") (py "/posts/" ++ post_id ++ py "/downvote")
              None None true ;;
  message_or_failure (py "Downvoted!") (py "Downvote failed") result.

Definition upvote_comment (comment_id : pystr) : M value :=
  result <- api_request (py "POST") (py "/comments/" ++ comment_id ++ py "/upvote")
              None None true ;;
  message_or_failure (py "Comment upvoted!") (py "Upvote failed") result.

Definition downvote_comment (comment_id : pystr) : M value :=
  result <- api_request (py "POST") (py "/comments/" ++ comment_id ++ py "/downvote")
              None None true ;;
  message_or_failure (py "Comment downvoted!") (py "Downvote failed") result.

Definition list_submolts : M pystr :=
  result <- api_request (py "GET") (py "/submolts") None None true ;;
  json_or_failure (py "Failed to list submolts") result.

Definition get_submolt (name : pystr) : M pystr :=
  result <- api_request (py "GET") (py "/submolts/" ++ name) None None true ;;
  json_or_failure (py "Failed to get submolt") result.

Definition create_submolt (name display_name description : pystr) : M pystr :=
  result <- api_request (py "POST") (py "/submolts")
              (Some (VDict [(py "name", VStr name);
                            (py "display_name", VStr display_name);
                            (py "description", VStr description)])) None true ;;
  done_or_failure (py "Submolt created successfully!" ++ [10] ++ dumps result)
                  (py "Submolt creation failed") result.

Definition subscribe_to_submolt (name : pystr) : M pystr :=
  result <- api_request (py "POST") (py "/submolts/" ++ name ++ py "/subscribe")
              None None true ;;
  done_or_failure (py "Subscribed to m/" ++ name ++ py "!") (py "Subscription failed") result.

Definition unsubscribe_from_submolt (name : pystr) : M pystr :=
  result <- api_request (py "DELETE") (py "/submolts/" ++ name ++ py "/subscribe")
              None None true ;;
  done_or_failure (py "Unsubscribed from m/" ++ name ++ py "!")
                  (py "Unsubscription failed") result.

Definition get_submolt_feed (name sort : pystr) (limit : Z) : M pystr :=
  result <- api_request (py "GET") (py "/submolts/" ++ name ++ py "/feed") None
              (Some [(py "sort", VStr sort); (py "limit", VInt limit)]) true ;;
  json_or_failure (py "Failed to get submolt feed") result.

Definition follow_user (username : pystr) : M pystr :=
  result <- api_request (py "POST") (py "/agents/" ++ username ++ py "/follow")
              None None true ;;
  done_or_failure (py "Now following " ++ username ++ py "!") (py "Follow failed") result.

Definition unfollow_user (username : pystr) : M pystr :=
  result <- api_request (py "DELETE") (py "/agents/" ++ username ++ py "/follow")
              None None true ;;
  done_or_failure (py "Unfollowed " ++ username ++ py "!") (py "Unfollow failed") result.

Definition get_user_profile (username : pystr) : M pystr :=
  result <- api_request (py "GET") (py "/agents/profile") None
              (Some [(py "name", VStr username)]) true ;;
  json_or_failure (py "Failed to get profile") result.

Definition search_moltbook (query : pystr) (limit : Z) : M pystr :=
  result <- api_request (py "GET") (py "/search") None
              (Some [(py "q", VStr query); (py "limit", VInt limit)]) true ;;
  json_or_failure (py "Search failed") result.

(** ** Vocabulary for the properties of the tools *)

(** The credential store yields no token: no file, or a stored object
    without a truthy [api_key], or stored JSON that is itself falsy. *)
Definition no_token (w : World) : Prop :=
  cred_file w = None \/
  (exists content d,
     cred_file w = Some content /\ loads content = Some (VDict d) /\
     truthy (match dict_get d (py "api_key") with Some k => k | None => VNone end) = false) \/
  (exists content v,
     cred_file w = Some content /\ loads content = Some v /\ truthy v = false).

(** The credential store holds the non-empty string [k] as [api_key]. *)
Definition has_key (w : World) (k : pystr) : Prop :=
  exists content d,
    cred_file w = Some content /\ loads content = Some (VDict d) /\
    dict_get d (py "api_key") = Some (VStr k) /\ k <> [].

(** The headers of an authenticated request. *)
Definition bearer_headers (k : pystr) : dict :=
  [(py "Content-Type", VStr (py "application/json"));
   (py "Authorization", VStr (py "Bearer " ++ k))].

(** The ten tools that end with
    [if result.get("success") is False: return f"<prefix>: ..."] and
    [return json.dumps(result, indent=2)], at arbitrary arguments, each
    with the text that opens its own failure message. *)
Definition reading_tools (a b : pystr) (n : Z) : list (pystr * M pystr) :=
  [(py "Failed to get profile", get_my_profile);
   (py "Failed to get feed", get_feed a n);
   (py "Failed to get feed", get_my_feed a n);
   (py "Failed to get post", get_post a);
   (py "Failed to get comments", get_comments a b);
   (py "Failed to list submolts", list_submolts);
   (py "Failed to get submolt", get_submolt a);
   (py "Failed to get submolt feed", get_submolt_feed a b n);
   (py "Failed to get profile", get_user_profile a);
   (py "Search failed", search_moltbook a n)].

(** The ten tools that end with [if result.get("success"): return <done>]
    and [return f"<prefix>: {result.get('error')}"], at arbitrary
    arguments, each with its own confirmation (a function of the reply
    where the tool prints it) and the text that opens its own failure
    message.  [update_my_profile], [create_post] and [upvote_post] act too
    but end differently and are stated on their own; [upload_avatar], which
    reads the store itself and posts a file through [httpx.post], is not
    part of this development. *)
Definition confirming_tools (a b c : pystr)
  : list ((value -> pystr) * pystr * M pystr) :=
  [(fun _ => py "Avatar removed successfully!",
    py "Avatar removal failed", remove_avatar);
   (fun result => py "Link post created successfully!" ++ [10] ++ dumps result,
    py "Post creation failed", create_link_post a b c);
   (fun _ => py "Post deleted successfully!",
    py "Post deletion failed", delete_post a);
   (fun result => py "Comment added successfully!" ++ [10] ++ dumps result,
    py "Comment failed", add_comment a b);
   (fun result => py "Reply added successfully!" ++ [10] ++ dumps result,
    py "Reply failed", reply_to_comment a b c);
   (fun result => py "Submolt created successfully!" ++ [10] ++ dumps result,
    py "Submolt creation failed", create_submolt a b c);
   (fun _ => py "Subscribed to m/" ++ a ++ py "!",
    py "Subscription failed", subscribe_to_submolt a);
   (fun _ => py "Unsubscribed from m/" ++ a ++ py "!",
    py "Unsubscription failed", unsubscribe_from_submolt a);
   (fun _ => py "Now following " ++ a ++ py "!",
    py "Follow failed", follow_user a);
   (fun _ => py "Unfollowed " ++ a ++ py "!",
    py "Unfollow failed", unfollow_user a)].

(** The three voting tools that hand back the reply's [message], each with
    its own default message and the text that opens its own failure
    message. *)
Definition voting_tools (a : pystr) : list (pystr * pystr * M value) :=
  [(py "Downvoted!", py "Downvote failed", downvote_post a);
   (py "Comment upvoted!", py "Upvote failed", upvote_comment a);
   (py "Comment downvoted!", py "Downvote failed", downvote_comment a)].

(** The modelled tools that return text and call [api_request] with
    authentication: the reading and the confirming tools, [create_post],
    [update_my_profile] and [check_moltbook_status]. *)
Definition text_tools (a b c : pystr) (n : Z) (description : option pystr)
           (metadata : option dict) : list (M pystr) :=
  map snd (reading_tools a b n) ++ map snd (confirming_tools a b c) ++
  [create_post a b c; update_my_profile description metadata;
   check_moltbook_status].

(** Between [w] and [w'] the credential file was not written and at most
    one request went out. *)
Definition at_most_one_request (w w' : World) : Prop :=
  cred_file w' = cred_file w /\
  (calls w' = calls w \/ exists req, calls w' = calls w ++ [req]).

Definition NOT_REGISTERED : pystr :=
  py "Not registered on Moltbook. Use register_on_moltbook first.".

(** * Properties *)

(** ** Strings survive [encode_basestring_ascii] then [scanstring] *)

Lemma lor_disjoint (a b : N) : b < 1024 -> N.lor (a * 1024) b = a * 1024 + b.
Proof.
  intros Hb.
  assert (Hland : N.land (a * 1024) b = 0).
  { apply N.bits_inj. intros i. rewrite N.land_spec, N.bits_0.
    destruct (N.lt_ge_cases i 10) as [Hi | Hi].
    - change 1024 with (2 ^ 10). rewrite N.mul_pow2_bits_low by exact Hi. reflexivity.
    - replace b with (b mod 2 ^ 10) by (apply N.mod_small; exact Hb).
      rewrite N.mod_pow2_bits_high by exact Hi. apply andb_false_r. }
  rewrite (N.add_nocarry_lxor _ _ Hland).
  symmetry. apply N.lxor_lor. exact Hland.
Qed.

Lemma hexval_hexdigit (k : N) : k < 16 -> hexval (hexdigit k) = Some k.
Proof.
  intros Hk.
  assert (H : k = 0 \/ k = 1 \/ k = 2 \/ k = 3 \/ k = 4 \/ k = 5 \/ k = 6 \/ k = 7 \/
              k = 8 \/ k = 9 \/ k = 10 \/ k = 11 \/ k = 12 \/ k = 13 \/ k = 14 \/ k = 15) by lia.
  repeat (destruct H as [H | H]; [subst k; reflexivity|]). subst k; reflexivity.
Qed.

Lemma decode_hex4 (n : N) :
  n < 65536 ->
  decode_uXXXX (hexdigit (n / 4096 mod 16)) (hexdigit (n / 256 mod 16))
               (hexdigit (n / 16 mod 16)) (hexdigit (n mod 16)) = Some n.
Proof.
  intros Hn. unfold decode_uXXXX.
  rewrite !hexval_hexdigit by (apply N.mod_upper_bound; discriminate).
  f_equal.
  zify. Z.to_euclidean_division_equations. lia.
Qed.

Lemma scanstring_u (a b c d : N) (rest2 : pystr) :
  scanstring (BACKSLASH :: LOWER_U :: a :: b :: c :: d :: rest2) =
  match decode_uXXXX a b c d with
  | None => None
  | Some uni =>
    if is_high_surrogate uni && startswith rest2 [BACKSLASH; LOWER_U] then
      match rest2 with
      | _ :: _ :: e :: f :: g :: h :: rest3 =>
        match decode_uXXXX e f g h with
        | None => None
        | Some uni2 =>
          if is_low_surrogate uni2 then
            prepend (65536 + N.lor (N.shiftl (uni - 55296) 10) (uni2 - 56320))
                    (scanstring rest3)
          else prepend uni (scanstring rest2)
        end
      | _ => None
      end
    else prepend uni (scanstring rest2)
  end.
Proof. reflexivity. Qed.

Lemma scanstring_unicode_escape (c : N) (t : pystr) :
  c < 65536 ->
  (is_high_surrogate c = true -> no_low_escape t) ->
  scanstring (unicode_escape c ++ t) = prepend c (scanstring t).
Proof.
  intros Hc Hhigh. unfold unicode_escape, hex4. cbn [app].
  rewrite scanstring_u, decode_hex4 by exact Hc.
  destruct (is_high_surrogate c) eqn:Hh; cbn [andb]; [|reflexivity].
  destruct (startswith t [BACKSLASH; LOWER_U]) eqn:Hs; [|reflexivity].
  destruct (Hhigh eq_refl Hs) as (e & f & g & h & rest & u & -> & Hd & Hl).
  rewrite Hd, Hl. reflexivity.
Qed.

Lemma escape_char_supplementary (c : N) :
  65536 <= c -> c < 1114112 ->
  exists q r, q < 1024 /\ r < 1024 /\ c = 65536 + (q * 1024 + r) /\
    escape_char c = unicode_escape (55296 + q) ++ unicode_escape (56320 + r).
Proof.
  intros Hlo Hhi.
  remember (c - 65536) as m eqn:Hm.
  assert (Hn : m < 1048576) by lia.
  pose proof (N.div_mod m 1024 ltac:(discriminate)) as Hdm.
  assert (Hq : m / 1024 < 1024) by (apply N.Div0.div_lt_upper_bound; lia).
  assert (Hr : m mod 1024 < 1024) by (apply N.mod_upper_bound; discriminate).
  exists (m / 1024), (m mod 1024). repeat split; [exact Hq | exact Hr | lia |].
  unfold escape_char.
  repeat match goal with
  | |- context [c =? ?k] => destruct (N.eqb_spec c k); [lia|]
  end.
  replace ((32 <=? c) && (c <=? 126)) with false
    by (symmetry; apply andb_false_iff; right; apply N.leb_gt; lia).
  replace (c <? 65536) with false by (symmetry; apply N.ltb_ge; lia).
  cbv zeta. rewrite <- Hm.
  change 1023 with (N.ones 10). rewrite !N.land_ones, N.shiftr_div_pow2.
  change (2 ^ 10) with 1024.
  rewrite (N.mod_small (m / 1024)) by exact Hq.
  change 55296 with (54 * 1024). change 56320 with (55 * 1024).
  rewrite !lor_disjoint by assumption. reflexivity.
Qed.

Lemma is_high_surrogate_lead (q : N) : q < 1024 -> is_high_surrogate (55296 + q) = true.
Proof.
  intros Hq. unfold is_high_surrogate. apply andb_true_iff; split; apply N.leb_le; lia.
Qed.

Lemma is_low_surrogate_lead (q : N) : q < 1024 -> is_low_surrogate (55296 + q) = false.
Proof.
  intros Hq. unfold is_low_surrogate. apply andb_false_iff; left; apply N.leb_gt; lia.
Qed.

Lemma is_low_surrogate_trail (r : N) : r < 1024 -> is_low_surrogate (56320 + r) = true.
Proof.
  intros Hr. unfold is_low_surrogate. apply andb_true_iff; split; apply N.leb_le; lia.
Qed.

Lemma scanstring_surrogate_escape (c : N) (t : pystr) :
  65536 <= c -> c < 1114112 ->
  scanstring (escape_char c ++ t) = prepend c (scanstring t).
Proof.
  intros Hlo Hhi.
  destruct (escape_char_supplementary c Hlo Hhi) as (q & r & Hq & Hr & -> & ->).
  unfold unicode_escape at 1. unfold hex4 at 1. cbn [app].
  rewrite scanstring_u, decode_hex4 by lia.
  rewrite is_high_surrogate_lead by exact Hq.
  unfold unicode_escape, hex4. cbn [app startswith andb N.eqb BACKSLASH LOWER_U Pos.eqb].
  rewrite decode_hex4 by lia.
  rewrite is_low_surrogate_trail by exact Hr.
  f_equal.
  rewrite N.shiftl_mul_pow2. change (2 ^ 10) with 1024.
  replace (55296 + q - 55296) with q by lia.
  replace (56320 + r - 56320) with r by lia.
  rewrite lor_disjoint by exact Hr.
  reflexivity.
Qed.

Lemma scanstring_literal (c : N) (t : pystr) :
  c <> 34 -> c <> 92 -> 32 <= c ->
  scanstring (c :: t) = prepend c (scanstring t).
Proof.
  intros Hq Hb Hc. cbn [scanstring]. unfold QUOTE, BACKSLASH.
  destruct (N.eqb_spec c 34); [contradiction|].
  destruct (N.eqb_spec c 92); [contradiction|].
  replace (c <? 32) with false by (symmetry; apply N.ltb_ge; exact Hc).
  reflexivity.
Qed.

Lemma scanstring_escape_char (c : N) (t : pystr) :
  valid_code_point c ->
  (is_high_surrogate c = true -> no_low_escape t) ->
  scanstring (escape_char c ++ t) = prepend c (scanstring t).
Proof.
  intros Hv Hhigh.
  destruct (N.lt_ge_cases c 65536) as [Hlt | Hge].
  2: { apply scanstring_surrogate_escape; assumption. }
  unfold escape_char.
  repeat match goal with
  | |- context [c =? ?k] => destruct (N.eqb_spec c k); [subst c; reflexivity|]
  end.
  destruct ((32 <=? c) && (c <=? 126)) eqn:Hp.
  - apply andb_true_iff in Hp. destruct Hp as [Hp _]. apply N.leb_le in Hp.
    cbn [app]. apply scanstring_literal; assumption.
  - replace (c <? 65536) with true by (symmetry; apply N.ltb_lt; exact Hlt).
    apply scanstring_unicode_escape; assumption.
Qed.

Lemma no_low_escape_encoded (s rest : pystr) :
  valid_str s ->
  match s with c :: _ => is_low_surrogate c = false | [] => True end ->
  no_low_escape (flat_map escape_char s ++ QUOTE :: rest).
Proof.
  intros Hv Hhead Hstart.
  destruct s as [|c s']; [discriminate Hstart|].
  cbn [flat_map] in *. rewrite <- app_assoc in *.
  set (t := flat_map escape_char s' ++ QUOTE :: rest) in *.
  inversion Hv as [|? ? Hc _]; subst.
  destruct (N.lt_ge_cases c 65536) as [Hlt | Hge].
  - revert Hstart. unfold escape_char.
    repeat match goal with
    | |- context [c =? ?k] => destruct (N.eqb_spec c k); [subst c; discriminate|]
    end.
    destruct ((32 <=? c) && (c <=? 126)) eqn:Hp.
    + cbn [app startswith]. unfold BACKSLASH.
      destruct (N.eqb_spec c 92); [contradiction|]. discriminate.
    + replace (c <? 65536) with true by (symmetry; apply N.ltb_lt; exact Hlt).
      intros _. unfold unicode_escape, hex4. cbn [app].
      do 6 eexists. split; [reflexivity|]. split; [apply decode_hex4; exact Hlt | exact Hhead].
  - destruct (escape_char_supplementary c Hge Hc) as (q & r & Hq & Hr & Hcq & Hesc).
    rewrite Hesc. unfold unicode_escape at 1. unfold hex4 at 1. cbn [app].
    do 6 eexists. split; [reflexivity|].
    split; [apply decode_hex4; lia | apply is_low_surrogate_lead; exact Hq].
Qed.

Lemma has_surrogate_pair_cons (c : N) (s : pystr) :
  has_surrogate_pair (c :: s) = false ->
  has_surrogate_pair s = false /\
  (is_high_surrogate c = true ->
   match s with d :: _ => is_low_surrogate d = false | [] => True end).
Proof.
  destruct s as [|d s']; [intros _; split; [reflexivity | intros _; exact I]|].
  intros H. change (has_surrogate_pair (c :: d :: s'))
    with ((is_high_surrogate c && is_low_surrogate d) || has_surrogate_pair (d :: s')) in H.
  apply orb_false_iff in H. destruct H as [H1 H2]. split; [exact H2|].
  intros Hh. rewrite Hh in H1. exact H1.
Qed.

Lemma scanstring_escaped (s rest : pystr) :
  valid_str s -> has_surrogate_pair s = false ->
  scanstring (flat_map escape_char s ++ QUOTE :: rest) = Some (s, rest).
Proof.
  induction s as [|c s IH]; intros Hv Hp.
  - reflexivity.
  - inversion Hv as [|? ? Hc Hs]; subst.
    apply has_surrogate_pair_cons in Hp. destruct Hp as [Hp Hhead].
    cbn [flat_map]. rewrite <- app_assoc.
    rewrite scanstring_escape_char.
    + rewrite IH by assumption. reflexivity.
    + exact Hc.
    + intros Hh. apply no_low_escape_encoded; [exact Hs | exact (Hhead Hh)].
Qed.

(** ** The decoder never fails for lack of fuel *)

Lemma skip_ws_length (s : pystr) : (length (skip_ws s) <= length s)%nat.
Proof.
  induction s as [|c s IH]; [apply Nat.le_refl|].
  cbn [skip_ws]. destruct (is_ws c); cbn [length]; lia.
Qed.

Lemma prepend_some (c : N) (o : option (pystr * pystr)) (x r : pystr) :
  prepend c o = Some (x, r) -> exists x', o = Some (x', r).
Proof.
  destruct o as [[x' r']|]; [|discriminate].
  cbn [prepend]. intros H. inversion H; subst. exists x'. reflexivity.
Qed.

Lemma scanstring_length (n : nat) :
  forall s x r, (length s <= n)%nat -> scanstring s = Some (x, r) ->
  (length r < length s)%nat.
Proof.
  induction n as [|n IH]; intros s x r Hlen H.
  - destruct s; [discriminate H | cbn [length] in Hlen; lia].
  - assert (Hrec : forall c t, (length t < length s)%nat ->
              prepend c (scanstring t) = Some (x, r) -> (length r < length s)%nat).
    { intros c t Ht Hp. apply prepend_some in Hp. destruct Hp as [x' Hp].
      apply IH in Hp; lia. }
    destruct s as [|c rest]; [discriminate H|].
    cbn [scanstring] in H. cbn [length] in Hrec |- *. clear IH Hlen.
    destruct (c =? QUOTE); [inversion H; subst; lia|].
    destruct (c =? BACKSLASH).
    2: { destruct (c <? 32); [discriminate H|]. eapply Hrec; [|exact H]. lia. }
    destruct rest as [|esc rest1]; [discriminate H|].
    destruct (esc =? LOWER_U).
    2: { destruct (unescape esc); [|discriminate H].
         eapply Hrec; [|exact H]. cbn [length]. lia. }
    destruct rest1 as [|a [|b [|c' [|d rest2]]]]; try discriminate H.
    destruct (decode_uXXXX a b c' d) as [uni|]; [|discriminate H].
    destruct (is_high_surrogate uni && startswith rest2 [BACKSLASH; LOWER_U]).
    2: { eapply Hrec; [|exact H]. cbn [length]. lia. }
    destruct rest2 as [|x1 [|x2 [|e [|f [|g [|h rest3]]]]]]; try discriminate H.
    destruct (decode_uXXXX e f g h) as [uni2|]; [|discriminate H].
    destruct (is_low_surrogate uni2); (eapply Hrec; [|exact H]); cbn [length]; lia.
Qed.

Lemma span_digits_length (s ds r : pystr) :
  span_digits s = (ds, r) -> length s = (length ds + length r)%nat.
Proof.
  revert ds r. induction s as [|c s IH]; intros ds r H; cbn [span_digits] in H.
  - inversion H. reflexivity.
  - destruct (is_digit c).
    + destruct (span_digits s) as [ds' r'] eqn:E. inversion H; subst.
      cbn [length]. rewrite (IH ds' r eq_refl). reflexivity.
    + inversion H; subst. reflexivity.
Qed.

Lemma match_sign_length (s sign r : pystr) :
  match_sign s = (sign, r) -> (length r <= length s)%nat.
Proof.
  unfold match_sign. intros H. destruct s as [|c s']; [inversion H; subst; apply Nat.le_refl|].
  destruct (c =? 45); inversion H; subst; cbn [length]; lia.
Qed.

Lemma match_integer_length (s ds r : pystr) :
  match_integer s = Some (ds, r) -> (length r < length s)%nat.
Proof.
  unfold match_integer. intros H. destruct s as [|c s']; [discriminate H|].
  destruct (c =? 48); [inversion H; subst; cbn [length]; lia|].
  destruct (is_digit c) eqn:Hd; [|discriminate H].
  inversion H as [E]. cbn [span_digits] in E. rewrite Hd in E.
  destruct (span_digits s') as [ds' r'] eqn:E'. inversion E; subst.
  apply span_digits_length in E'. cbn [length]. lia.
Qed.

Lemma match_fraction_length (s frac r : pystr) :
  match_fraction s = (frac, r) -> (length r <= length s)%nat.
Proof.
  unfold match_fraction. intros H.
  destruct s as [|c s']; [inversion H; subst; apply Nat.le_refl|].
  destruct (c =? 46); [|inversion H; subst; apply Nat.le_refl].
  destruct (span_digits s') as [[|f fs] r'] eqn:E; inversion H; subst;
    [apply Nat.le_refl|].
  apply span_digits_length in E. cbn [length] in *. lia.
Qed.

Lemma match_exponent_length (s exp r : pystr) :
  match_exponent s = (exp, r) -> (length r <= length s)%nat.
Proof.
  unfold match_exponent. intros H.
  destruct s as [|c s']; [inversion H; subst; apply Nat.le_refl|].
  destruct ((c =? 101) || (c =? 69)); [|inversion H; subst; apply Nat.le_refl].
  destruct (match s' with
            | [] => ([], s')
            | x :: t => if (x =? 45) || (x =? 43) then ([x], t) else ([], s')
            end) as [esign s''] eqn:Es.
  assert (Hs : (length s'' <= length s')%nat).
  { destruct s' as [|x t]; [inversion Es; subst; apply Nat.le_refl|].
    destruct ((x =? 45) || (x =? 43)); inversion Es; subst; cbn [length]; lia. }
  destruct (span_digits s'') as [[|e es] r'] eqn:E; inversion H; subst;
    [apply Nat.le_refl|].
  apply span_digits_length in E. cbn [length] in *. lia.
Qed.

Lemma match_number_length (s integer frac exp r : pystr) :
  match_number s = Some (integer, frac, exp, r) -> (length r < length s)%nat.
Proof.
  unfold match_number. intros H.
  destruct (match_sign s) as [sign s1] eqn:E1.
  destruct (match_integer s1) as [[ds s2]|] eqn:E2; [|discriminate H].
  destruct (match_fraction s2) as [fr s3] eqn:E3.
  destruct (match_exponent s3) as [ex s4] eqn:E4.
  inversion H; subst.
  apply match_sign_length in E1. apply match_integer_length in E2.
  apply match_fraction_length in E3. apply match_exponent_length in E4. lia.
Qed.

Lemma array_loop_length (scan : pystr -> scan_result) :
  (forall s v r, scan s = Some (v, r) -> (length r < length s)%nat) ->
  forall n s vs r, array_loop scan n s = Some (vs, r) -> (length r < length s)%nat.
Proof.
  intros Hscan. induction n as [|n IH]; intros s vs r H; [discriminate H|].
  cbn [array_loop] in H.
  destruct (scan s) as [[v s1]|] eqn:Es; [|discriminate H].
  apply Hscan in Es. pose proof (skip_ws_length s1) as Hw.
  destruct (skip_ws s1) as [|c t]; [discriminate H|]. cbn [length] in Hw.
  destruct (c =? 93); [inversion H; subst; lia|].
  destruct (c =? 44); [|discriminate H].
  destruct (array_loop scan n (skip_ws t)) as [[vs' r']|] eqn:El; [|discriminate H].
  inversion H; subst. apply IH in El. pose proof (skip_ws_length t). lia.
Qed.

Lemma object_loop_length (scan : pystr -> scan_result) :
  (forall s v r, scan s = Some (v, r) -> (length r < length s)%nat) ->
  forall n s kvs r, object_loop scan n s = Some (kvs, r) -> (length r < length s)%nat.
Proof.
  intros Hscan. induction n as [|n IH]; intros s kvs r H; [discriminate H|].
  cbn [object_loop] in H.
  destruct s as [|q s0]; [discriminate H|].
  destruct (q =? QUOTE); [|discriminate H].
  destruct (scanstring s0) as [[key s1]|] eqn:Ek; [|discriminate H].
  apply (scanstring_length (length s0)) in Ek; [|apply Nat.le_refl].
  pose proof (skip_ws_length s1) as Hw1.
  destruct (skip_ws s1) as [|colon s2]; [discriminate H|]. cbn [length] in Hw1.
  destruct (colon =? 58); [|discriminate H].
  pose proof (skip_ws_length s2) as Hw2.
  destruct (scan (skip_ws s2)) as [[v s3]|] eqn:Es; [|discriminate H].
  apply Hscan in Es. pose proof (skip_ws_length s3) as Hw3.
  destruct (skip_ws s3) as [|c t]; [discriminate H|]. cbn [length] in Hw3 |- *.
  destruct (c =? 125); [inversion H; subst; lia|].
  destruct (c =? 44); [|discriminate H].
  destruct (object_loop scan n (skip_ws t)) as [[kvs' r']|] eqn:El; [|discriminate H].
  inversion H; subst. apply IH in El. pose proof (skip_ws_length t). lia.
Qed.

Lemma skipn_length_lt (k : nat) (s : pystr) :
  s <> [] -> (0 < k)%nat -> (length (skipn k s) < length s)%nat.
Proof.
  intros Hs Hk. rewrite length_skipn. destruct s; [contradiction|]. cbn [length]. lia.
Qed.

Lemma scan_step_length (scan : pystr -> scan_result) (n : nat) :
  (forall s v r, scan s = Some (v, r) -> (length r < length s)%nat) ->
  forall s v r, scan_step scan n s = Some (v, r) -> (length r < length s)%nat.
Proof.
  intros Hscan s v r H. unfold scan_step in H.
  destruct s as [|c rest]; [discriminate H|].
  assert (Hskip : forall k, (0 < k)%nat ->
            (length (skipn k (c :: rest)) < length (c :: rest))%nat).
  { intros k Hk. apply skipn_length_lt; [discriminate | exact Hk]. }
  set (s := c :: rest) in *.
  destruct (c =? QUOTE).
  { destruct (scanstring rest) as [[x r0]|] eqn:E; [|discriminate H].
    inversion H; subst. apply (scanstring_length (length rest)) in E; [|apply Nat.le_refl].
    unfold s. cbn [length]. lia. }
  destruct (c =? 123).
  { pose proof (skip_ws_length rest) as Hw.
    destruct (skip_ws rest) as [|c' r0]; [discriminate H|].
    destruct (c' =? 125); [inversion H; subst; unfold s; cbn [length] in *; lia|].
    destruct (object_loop scan n (c' :: r0)) as [[kvs r']|] eqn:E; [|discriminate H].
    inversion H; subst. apply (object_loop_length scan Hscan) in E.
    unfold s. cbn [length] in *. lia. }
  destruct (c =? 91).
  { pose proof (skip_ws_length rest) as Hw.
    destruct (skip_ws rest) as [|c' r0]; [discriminate H|].
    destruct (c' =? 93); [inversion H; subst; unfold s; cbn [length] in *; lia|].
    destruct (array_loop scan n (c' :: r0)) as [[vs r']|] eqn:E; [|discriminate H].
    inversion H; subst. apply (array_loop_length scan Hscan) in E.
    unfold s. cbn [length] in *. lia. }
  destruct (startswith s (py "null"));
    [replace r with (skipn 4 s) by congruence; apply Hskip; lia|].
  destruct (startswith s (py "true"));
    [replace r with (skipn 4 s) by congruence; apply Hskip; lia|].
  destruct (startswith s (py "false"));
    [replace r with (skipn 5 s) by congruence; apply Hskip; lia|].
  destruct (match_number s) as [[[[integer frac] exp] r0]|] eqn:E.
  { apply match_number_length in E.
    destruct frac, exp; inversion H; subst; exact E. }
  destruct (startswith s (py "NaN"));
    [replace r with (skipn 3 s) by congruence; apply Hskip; lia|].
  destruct (startswith s (py "Infinity"));
    [replace r with (skipn 8 s) by congruence; apply Hskip; lia|].
  destruct (startswith s (py "-Infinity"));
    [replace r with (skipn 9 s) by congruence; apply Hskip; lia|].
  discriminate H.
Qed.

Lemma scan_once_length (n : nat) :
  forall s v r, scan_once n s = Some (v, r) -> (length r < length s)%nat.
Proof.
  induction n as [|n IH]; intros s v r H; [discriminate H|].
  cbn [scan_once] in H. exact (scan_step_length (scan_once n) n IH s v r H).
Qed.

Lemma array_loop_transfer (scan1 scan2 : pystr -> scan_result) :
  (forall s v r, scan1 s = Some (v, r) -> (length r < length s)%nat) ->
  forall n1 n2 s x,
    (forall s' y, (length s' <= length s)%nat -> scan1 s' = Some y -> scan2 s' = Some y) ->
    (length s <= n2)%nat ->
    array_loop scan1 n1 s = Some x -> array_loop scan2 n2 s = Some x.
Proof.
  intros Hlen. induction n1 as [|n1 IH]; intros n2 s x Hsub Hn2 H; [discriminate H|].
  cbn [array_loop] in H.
  destruct (scan1 s) as [[v s1]|] eqn:Es; [|discriminate H].
  pose proof (Hlen _ _ _ Es) as Hs1.
  apply Hsub in Es; [|apply Nat.le_refl].
  destruct n2 as [|n2]; [lia|]. cbn [array_loop]. rewrite Es.
  pose proof (skip_ws_length s1) as Hw.
  destruct (skip_ws s1) as [|c t]; [discriminate H|]. cbn [length] in Hw.
  destruct (c =? 93); [exact H|].
  destruct (c =? 44); [|discriminate H].
  pose proof (skip_ws_length t) as Hw'.
  destruct (array_loop scan1 n1 (skip_ws t)) as [[vs r']|] eqn:El; [|discriminate H].
  rewrite (IH n2 (skip_ws t) (vs, r')); [exact H | | lia | exact El].
  intros s' y Hs'. apply Hsub. lia.
Qed.

Lemma object_loop_transfer (scan1 scan2 : pystr -> scan_result) :
  (forall s v r, scan1 s = Some (v, r) -> (length r < length s)%nat) ->
  forall n1 n2 s x,
    (forall s' y, (length s' <= length s)%nat -> scan1 s' = Some y -> scan2 s' = Some y) ->
    (length s <= n2)%nat ->
    object_loop scan1 n1 s = Some x -> object_loop scan2 n2 s = Some x.
Proof.
  intros Hlen. induction n1 as [|n1 IH]; intros n2 s x Hsub Hn2 H; [discriminate H|].
  cbn [object_loop] in H.
  destruct s as [|q s0]; [discriminate H|].
  destruct n2 as [|n2]; [cbn [length] in Hn2; lia|]. cbn [object_loop].
  destruct (q =? QUOTE); [|discriminate H].
  destruct (scanstring s0) as [[key s1]|] eqn:Ek; [|discriminate H].
  apply (scanstring_length (length s0)) in Ek; [|apply Nat.le_refl].
  pose proof (skip_ws_length s1) as Hw1.
  destruct (skip_ws s1) as [|colon s2]; [discriminate H|]. cbn [length] in Hw1.
  destruct (colon =? 58); [|discriminate H].
  pose proof (skip_ws_length s2) as Hw2.
  destruct (scan1 (skip_ws s2)) as [[v s3]|] eqn:Es; [|discriminate H].
  pose proof (Hlen _ _ _ Es) as Hs3.
  apply Hsub in Es; [|cbn [length]; lia]. rewrite Es.
  pose proof (skip_ws_length s3) as Hw3.
  destruct (skip_ws s3) as [|c t]; [discriminate H|]. cbn [length] in Hw3, Hn2.
  destruct (c =? 125); [exact H|].
  destruct (c =? 44); [|discriminate H].
  pose proof (skip_ws_length t) as Hw'.
  destruct (object_loop scan1 n1 (skip_ws t)) as [[kvs r']|] eqn:El; [|discriminate H].
  rewrite (IH n2 (skip_ws t) (kvs, r')); [exact H | | lia | exact El].
  intros s' y Hs'. apply Hsub. cbn [length]. lia.
Qed.

Lemma scan_step_transfer (scan1 scan2 : pystr -> scan_result) (n1 n2 : nat) (s : pystr)
      (x : value * pystr) :
  (forall s v r, scan1 s = Some (v, r) -> (length r < length s)%nat) ->
  (forall s' y, (length s' < length s)%nat -> scan1 s' = Some y -> scan2 s' = Some y) ->
  (length s <= S n2)%nat ->
  scan_step scan1 n1 s = Some x -> scan_step scan2 n2 s = Some x.
Proof.
  intros Hlen Hsub Hn2 H. unfold scan_step in *.
  destruct s as [|c rest]; [discriminate H|]. cbn [length] in Hsub, Hn2.
  destruct (c =? QUOTE); [exact H|].
  pose proof (skip_ws_length rest) as Hw.
  destruct (c =? 123).
  { destruct (skip_ws rest) as [|c' r0]; [discriminate H|].
    destruct (c' =? 125); [exact H|].
    destruct (object_loop scan1 n1 (c' :: r0)) as [[kvs r']|] eqn:E; [|discriminate H].
    rewrite (object_loop_transfer scan1 scan2 Hlen n1 n2 (c' :: r0) (kvs, r'));
      [exact H | | lia | exact E].
    intros s' y Hs'. apply Hsub. lia. }
  destruct (c =? 91).
  { destruct (skip_ws rest) as [|c' r0]; [discriminate H|].
    destruct (c' =? 93); [exact H|].
    destruct (array_loop scan1 n1 (c' :: r0)) as [[vs r']|] eqn:E; [|discriminate H].
    rewrite (array_loop_transfer scan1 scan2 Hlen n1 n2 (c' :: r0) (vs, r'));
      [exact H | | lia | exact E].
    intros s' y Hs'. apply Hsub. lia. }
  exact H.
Qed.

(** Fuel is never what makes the decoder fail: a scan that succeeds with
    some fuel succeeds with any fuel that is at least the length of the
    text. *)
Lemma scan_once_adequate (n : nat) :
  forall s x, scan_once n s = Some x ->
  forall m, (length s <= m)%nat -> scan_once m s = Some x.
Proof.
  induction n as [|n IH]; intros s x H m Hm; [discriminate H|].
  cbn [scan_once] in H.
  destruct m as [|m].
  - destruct s; [discriminate H | cbn [length] in Hm; lia].
  - cbn [scan_once].
    apply (scan_step_transfer (scan_once n) (scan_once m) n m s x);
      [exact (scan_once_length n) | | exact Hm | exact H].
    intros s' y Hs' Hy. apply (IH s' y Hy). lia.
Qed.

(** A text that some amount of fuel parses in full is parsed by [loads]. *)
Lemma loads_adequate (n : nat) (s : pystr) (v : value) (rest : pystr) :
  scan_once n (skip_ws s) = Some (v, rest) -> skip_ws rest = [] -> loads s = Some v.
Proof.
  intros H Hrest. unfold loads.
  rewrite (scan_once_adequate n _ _ H (S (length s))).
  - rewrite Hrest. reflexivity.
  - pose proof (skip_ws_length s). lia.
Qed.

(** ** The credential store and the authorization header *)

Lemma load_credentials_world (w : World) : snd (load_credentials w) = w.
Proof.
  unfold load_credentials.
  destruct (cred_file w) as [content|]; [|reflexivity].
  destruct (loads content); reflexivity.
Qed.

Lemma get_auth_headers_world (w : World) : snd (get_auth_headers w) = w.
Proof.
  unfold get_auth_headers, bind.
  pose proof (load_credentials_world w) as Hw.
  destruct (load_credentials w) as [[credentials|e] w1]; cbn [snd] in Hw; subst w1;
    [|reflexivity].
  destruct (truthy credentials); cbn [negb]; [|reflexivity].
  unfold lift. destruct (get credentials (py "api_key") VNone) as [api_key|e]; [|reflexivity].
  destruct (truthy api_key); reflexivity.
Qed.

Lemma get_auth_headers_no_file (w : World) :
  cred_file w = None -> get_auth_headers w = (Return [], w).
Proof.
  intros H. unfold get_auth_headers, bind, load_credentials. rewrite H. reflexivity.
Qed.

Lemma get_auth_headers_no_key (w : World) (content : pystr) (d : dict) :
  cred_file w = Some content ->
  loads content = Some (VDict d) ->
  truthy (match dict_get d (py "api_key") with Some k => k | None => VNone end) = false ->
  get_auth_headers w = (Return [], w).
Proof.
  intros Hf Hl Hk. unfold get_auth_headers, bind, load_credentials. rewrite Hf, Hl.
  destruct (truthy (VDict d)); cbn [negb]; [|reflexivity].
  unfold lift, get. rewrite Hk. reflexivity.
Qed.

Lemma get_auth_headers_key (w : World) (content : pystr) (d : dict) (k : value) :
  cred_file w = Some content ->
  loads content = Some (VDict d) ->
  dict_get d (py "api_key") = Some k ->
  truthy k = true ->
  get_auth_headers w = (Return [(py "Authorization", VStr (py "Bearer " ++ str k))], w).
Proof.
  intros Hf Hl Hg Hk. unfold get_auth_headers, bind, load_credentials. rewrite Hf, Hl.
  assert (Hd : truthy (VDict d) = true).
  { destruct d; [discriminate Hg | reflexivity]. }
  rewrite Hd. cbn [negb]. unfold lift, get. rewrite Hg, Hk. reflexivity.
Qed.

(** ** The request wrapper *)

Lemma send_eq (method endpoint : pystr) (json_data : option value)
      (params : option dict) (hdrs : dict) (w : World) :
  let req := build_request method endpoint json_data params hdrs in
  send method endpoint json_data params hdrs w =
  (Return
     match remote w req with
     | Fails m => failure (VStr m)
     | Responds r =>
       if is_success r then
         match json r with
         | Decoded v => v
         | Undecodable m => failure (VStr m)
         end
       else
         match json r with
         | Decoded (VDict error_data) =>
           VDict [(py "success", VBool false);
                  (py "error", match dict_get error_data (py "error") with
                               | Some e => e
                               | None => VStr (status_error r)
                               end);
                  (py "hint", match dict_get error_data (py "hint") with
                              | Some h => h
                              | None => VNone
                              end)]
         | _ => failure (VStr (str_of_int (status_code r) ++ py " - " ++ text r))
         end
     end,
   issued w req).
Proof.
  intros req. unfold send, bind, httpx_request, ret. fold req.
  destruct (remote w req) as [r|m]; [|reflexivity].
  destruct (is_success r).
  - destruct (json r); reflexivity.
  - destruct (json r) as [[]|]; reflexivity.
Qed.

Lemma calls_not_extended (w : World) (req : Request) : calls w <> calls w ++ [req].
Proof.
  intros H. apply (f_equal (@length Request)) in H.
  rewrite length_app in H. cbn [length] in H. lia.
Qed.

(** A call that leaves one more request in the log went through [send]. *)
Lemma api_request_issued (method endpoint : pystr) (json_data : option value)
      (params : option dict) (require_auth : bool) (w w' : World)
      (res : outcome value) (req : Request) :
  api_request method endpoint json_data params require_auth w = (res, w') ->
  calls w' = calls w ++ [req] ->
  exists hdrs,
    req = build_request method endpoint json_data params hdrs /\
    send method endpoint json_data params hdrs w = (res, w').
Proof.
  intros Hrun Hcalls. unfold api_request in Hrun.
  assert (Hsend : forall hdrs, send method endpoint json_data params hdrs w = (res, w') ->
            exists hdrs0, req = build_request method endpoint json_data params hdrs0 /\
              send method endpoint json_data params hdrs0 w = (res, w')).
  { intros hdrs Hs. exists hdrs. split; [|exact Hs].
    rewrite send_eq in Hs. inversion Hs as [[Hres Hw]]. subst w'.
    cbn [issued calls] in Hcalls. apply app_inv_head in Hcalls.
    inversion Hcalls. reflexivity. }
  destruct require_auth; [|eapply Hsend; exact Hrun].
  unfold bind in Hrun. pose proof (get_auth_headers_world w) as Hw.
  destruct (get_auth_headers w) as [[auth|e] w1]; cbn [snd] in Hw; subst w1.
  - destruct (truthy (VDict auth)); cbn [negb] in Hrun.
    + eapply Hsend; exact Hrun.
    + inversion Hrun; subst. exfalso. eapply calls_not_extended; exact Hcalls.
  - inversion Hrun; subst. exfalso. eapply calls_not_extended; exact Hcalls.
Qed.

Lemma api_request_world (method endpoint : pystr) (json_data : option value)
      (params : option dict) (require_auth : bool) (w : World) :
  snd (api_request method endpoint json_data params require_auth w) = w \/
  exists hdrs,
    snd (api_request method endpoint json_data params require_auth w) =
    issued w (build_request method endpoint json_data params hdrs).
Proof.
  unfold api_request.
  destruct require_auth; [|right; eexists; rewrite send_eq; reflexivity].
  unfold bind. pose proof (get_auth_headers_world w) as Hw.
  destruct (get_auth_headers w) as [[auth|e] w1]; cbn [snd] in Hw; subst w1;
    [|left; reflexivity].
  destruct (truthy (VDict auth)); cbn [negb]; [|left; reflexivity].
  right; eexists; rewrite send_eq; reflexivity.
Qed.

Lemma api_request_authenticated (method endpoint : pystr) (json_data : option value)
      (params : option dict) (w : World) (auth : dict) :
  get_auth_headers w = (Return auth, w) -> auth <> [] ->
  api_request method endpoint json_data params true w =
  send method endpoint json_data params
       (dict_update [(py "Content-Type", VStr (py "application/json"))] auth) w.
Proof.
  intros Hauth Hne. unfold api_request, bind. rewrite Hauth.
  destruct auth; [contradiction|]. reflexivity.
Qed.

Lemma startswith_app (sub t : pystr) : startswith (sub ++ t) sub = true.
Proof.
  induction sub as [|c sub IH]; [reflexivity|].
  cbn [app startswith]. rewrite N.eqb_refl. exact IH.
Qed.

Lemma contains_startswith (s sub : pystr) : startswith s sub = true -> contains s sub = true.
Proof.
  intros H. destruct s; cbn [contains]; rewrite H; reflexivity.
Qed.

Lemma contains_app_r (p s sub : pystr) : contains s sub = true -> contains (p ++ s) sub = true.
Proof.
  intros H. induction p as [|c p IH]; [exact H|].
  cbn [app contains]. rewrite IH. apply orb_true_r.
Qed.

Lemma contains_infix (p sub t : pystr) : contains (p ++ sub ++ t) sub = true.
Proof. apply contains_app_r, contains_startswith, startswith_app. Qed.

(** ** [str] on an [int] prints the numeral that reads back as it *)

Lemma str_eqb_eq (a b : pystr) : str_eqb a b = true <-> a = b.
Proof.
  revert b. induction a as [|x a IH]; intros [|y b]; cbn [str_eqb]; split;
    try discriminate; try reflexivity.
  - intros H. apply andb_true_iff in H. destruct H as [Hx Ha].
    apply N.eqb_eq in Hx. apply IH in Ha. subst. reflexivity.
  - intros H. inversion H; subst. rewrite N.eqb_refl. apply IH. reflexivity.
Qed.

Lemma py_String (c : ascii) (s : string) : py (String c s) = N_of_ascii c :: py s.
Proof. reflexivity. Qed.

Lemma digits_uint_value (d : Decimal.uint) (acc : Z) :
  fold_left (fun acc c => (acc * 10 + Z.of_N (c - 48))%Z)
            (py (NilEmpty.string_of_uint d)) acc = uint_value d acc.
Proof.
  revert acc. induction d; intros acc; cbn [NilEmpty.string_of_uint uint_value];
    [reflexivity | ..]; rewrite py_String; cbn [fold_left]; rewrite IHd; f_equal;
    cbn; lia.
Qed.

Lemma of_uint_acc_value (d : Decimal.uint) (p : positive) :
  Zpos (Pos.of_uint_acc d p) = uint_value d (Zpos p).
Proof.
  revert p. induction d; intros p; cbn [Pos.of_uint_acc uint_value];
    [reflexivity | ..]; rewrite IHd; f_equal; change (Pos.mul _ p) with (10 * p)%positive; lia.
Qed.

Lemma of_uint_value (d : Decimal.uint) : Z.of_N (Pos.of_uint d) = uint_value d 0.
Proof.
  induction d; cbn [Pos.of_uint uint_value]; [reflexivity | exact IHd | ..];
    cbn [Z.of_N]; rewrite of_uint_acc_value; reflexivity.
Qed.

Lemma string_of_uint_head (p : positive) :
  exists c t, py (NilEmpty.string_of_uint (Pos.to_uint p)) = c :: t /\ (c =? 45) = false.
Proof.
  pose proof (Unsigned.to_uint_nonnil p) as H.
  destruct (Pos.to_uint p); [contradiction | ..];
    cbn [NilEmpty.string_of_uint]; rewrite py_String; eexists; eexists;
    (split; [reflexivity|]); reflexivity.
Qed.

Lemma int_of_digits_to_uint (p : positive) :
  int_of_digits (py (NilEmpty.string_of_uint (Pos.to_uint p))) = Zpos p.
Proof.
  unfold int_of_digits. rewrite digits_uint_value, <- of_uint_value, Unsigned.of_to.
  reflexivity.
Qed.

Lemma nilzero_pos (p : positive) :
  NilZero.string_of_uint (Pos.to_uint p) = NilEmpty.string_of_uint (Pos.to_uint p).
Proof.
  pose proof (Unsigned.to_uint_nonnil p) as H.
  unfold NilZero.string_of_uint. destruct (Pos.to_uint p); [contradiction | reflexivity ..].
Qed.

Lemma parse_int_str_of_int (z : Z) : parse_int (str_of_int z) = z.
Proof.
  unfold str_of_int. destruct z as [|p|p]; cbn [Z.to_int NilZero.string_of_int].
  - reflexivity.
  - rewrite nilzero_pos.
    destruct (string_of_uint_head p) as (c & t & Heq & Hc).
    unfold parse_int. pose proof (int_of_digits_to_uint p) as Hv.
    rewrite Heq in *. rewrite Hc. exact Hv.
  - rewrite nilzero_pos, py_String. unfold parse_int.
    change (N_of_ascii "-" =? 45) with true. cbv iota.
    rewrite int_of_digits_to_uint. reflexivity.
Qed.

(** A status code of three digits is printed as those digits. *)
Lemma str_of_int_three_digits (z : Z) :
  (100 <= z <= 999)%Z ->
  str_of_int z =
  [48 + Z.to_N (z / 100); 48 + Z.to_N (z / 10 mod 10); 48 + Z.to_N (z mod 10)].
Proof.
  intros Hz.
  assert (Hall : forallb
                   (fun k => let z := (100 + Z.of_nat k)%Z in
                             str_eqb (str_of_int z)
                                     [48 + Z.to_N (z / 100); 48 + Z.to_N (z / 10 mod 10);
                                      48 + Z.to_N (z mod 10)])
                   (seq 0 900) = true) by (vm_compute; reflexivity).
  rewrite forallb_forall in Hall.
  specialize (Hall (Z.to_nat (z - 100))).
  cbv zeta in Hall.
  replace (100 + Z.of_nat (Z.to_nat (z - 100)))%Z with z in Hall by lia.
  apply str_eqb_eq, Hall, in_seq. lia.
Qed.

(** ** Claims on the request wrapper *)

(** C1: a call to [api_request] with [require_auth = true] in a world where
    the credential store yields no token (no credential file, or a stored
    record without a truthy [api_key], or stored JSON that is itself falsy)
    returns exactly the failure record with the "Not registered" message
    and leaves the world, and so the log of network calls, as it was. *)
Theorem api_request_unregistered (method endpoint : pystr) (json_data : option value)
        (params : option dict) (w : World) :
  (cred_file w = None \/
   (exists content d,
      cred_file w = Some content /\ loads content = Some (VDict d) /\
      truthy (match dict_get d (py "api_key") with Some k => k | None => VNone end) = false) \/
   (exists content v,
      cred_file w = Some content /\ loads content = Some v /\ truthy v = false)) ->
  api_request method endpoint json_data params true w =
  (Return (VDict [(py "success", VBool false);
                  (py "error",
                   VStr (py "Not registered on Moltbook. Use register_on_moltbook first."))]),
   w).
Proof.
  intros Hno. unfold api_request, bind.
  assert (Hauth : get_auth_headers w = (Return [], w)).
  { destruct Hno as [Hf | [(content & d & Hf & Hl & Hk) | (content & v & Hf & Hl & Hv)]].
    - apply get_auth_headers_no_file; exact Hf.
    - eapply get_auth_headers_no_key; eassumption.
    - unfold get_auth_headers, bind, load_credentials. rewrite Hf, Hl, Hv. reflexivity. }
  rewrite Hauth. reflexivity.
Qed.

(** C2, as amended: [load_credentials] returns [None] without raising when
    the credential file is missing; when the file exists and its content is
    not valid JSON, the [JSONDecodeError] of [json.loads] propagates to the
    caller. *)
Theorem load_credentials_missing_or_malformed (w : World) :
  (cred_file w = None -> load_credentials w = (Return VNone, w)) /\
  (forall content,
     cred_file w = Some content -> loads content = None ->
     load_credentials w = (Raise JSONDecodeError, w)).
Proof.
  unfold load_credentials. split.
  - intros ->. reflexivity.
  - intros content -> ->. reflexivity.
Qed.

(** C3: when the request issued by [api_request] is answered with a non-2xx
    status and [e.response.json()] returns a JSON object with an [error]
    field, the result is the failure record carrying that field as [error]
    and the object's [hint] field (or [None] when there is none) as
    [hint]. *)
Theorem api_request_http_error_json (method endpoint : pystr) (json_data : option value)
        (params : option dict) (require_auth : bool) (w w' : World)
        (res : outcome value) (req : Request) (r : Response) (body : dict) (e : value) :
  api_request method endpoint json_data params require_auth w = (res, w') ->
  calls w' = calls w ++ [req] ->
  remote w req = Responds r ->
  is_success r = false ->
  json r = Decoded (VDict body) ->
  dict_get body (py "error") = Some e ->
  res = Return (VDict [(py "success", VBool false);
                       (py "error", e);
                       (py "hint", match dict_get body (py "hint") with
                                   | Some h => h
                                   | None => VNone
                                   end)]).
Proof.
  intros Hrun Hcalls Hreply Hstatus Hbody Herr.
  destruct (api_request_issued _ _ _ _ _ _ _ _ _ Hrun Hcalls) as (hdrs & -> & Hsend).
  rewrite send_eq in Hsend. cbv zeta in Hsend.
  rewrite Hreply, Hstatus, Hbody, Herr in Hsend.
  inversion Hsend. reflexivity.
Qed.

(** C4: when the request issued by [api_request] is answered with a non-2xx
    status and [e.response.json()] raises (the body is not JSON), the
    result is the failure record whose error is the status code in decimal,
    then [" - "], then [e.response.text].  The error string starts with the
    numeral of the status code (the numeral that reads back as that code;
    for a code of three digits, those three digits) and ends with the text
    of the body; so it contains both. *)
Theorem api_request_http_error_text (method endpoint : pystr) (json_data : option value)
        (params : option dict) (require_auth : bool) (w w' : World)
        (res : outcome value) (req : Request) (r : Response) (m : pystr) :
  api_request method endpoint json_data params require_auth w = (res, w') ->
  calls w' = calls w ++ [req] ->
  remote w req = Responds r ->
  is_success r = false ->
  json r = Undecodable m ->
  exists code error,
    res = Return (VDict [(py "success", VBool false); (py "error", VStr error)]) /\
    error = code ++ [32; 45; 32] ++ text r /\
    parse_int code = status_code r /\
    ((100 <= status_code r <= 999)%Z ->
     code = [48 + Z.to_N (status_code r / 100);
             48 + Z.to_N (status_code r / 10 mod 10);
             48 + Z.to_N (status_code r mod 10)]) /\
    contains error code = true /\
    contains error (text r) = true.
Proof.
  intros Hrun Hcalls Hreply Hstatus Hbody.
  destruct (api_request_issued _ _ _ _ _ _ _ _ _ Hrun Hcalls) as (hdrs & -> & Hsend).
  rewrite send_eq in Hsend. cbv zeta in Hsend.
  rewrite Hreply, Hstatus, Hbody in Hsend.
  inversion Hsend. exists (str_of_int (status_code r)). eexists.
  split; [reflexivity|]. split; [reflexivity|].
  split; [apply parse_int_str_of_int|].
  split; [apply str_of_int_three_digits|]. split.
  - apply (contains_infix []).
  - change (contains (str_of_int (status_code r) ++ [32; 45; 32] ++ text r) (text r) = true).
    replace (str_of_int (status_code r) ++ [32; 45; 32] ++ text r)
      with ((str_of_int (status_code r) ++ [32; 45; 32]) ++ text r ++ [])
      by (rewrite app_nil_r, app_assoc; reflexivity).
    apply contains_infix.
Qed.

(** C5: when [httpx.request] raises for the request issued by [api_request]
    (a transport failure [e] with [str(e) = m]), the call returns the
    failure record with [m] as its error; when a 2xx response has a body
    that [response.json()] cannot decode, raising with message [m], it
    returns the failure record with that [m].  In both cases the call
    returns: nothing is raised to the caller. *)
Theorem api_request_transport_failure (method endpoint : pystr) (json_data : option value)
        (params : option dict) (require_auth : bool) (w w' : World)
        (res : outcome value) (req : Request) :
  api_request method endpoint json_data params require_auth w = (res, w') ->
  calls w' = calls w ++ [req] ->
  (forall m, remote w req = Fails m ->
     res = Return (VDict [(py "success", VBool false); (py "error", VStr m)])) /\
  (forall r m, remote w req = Responds r -> is_success r = true ->
     json r = Undecodable m ->
     res = Return (VDict [(py "success", VBool false); (py "error", VStr m)])).
Proof.
  intros Hrun Hcalls.
  destruct (api_request_issued _ _ _ _ _ _ _ _ _ Hrun Hcalls) as (hdrs & -> & Hsend).
  rewrite send_eq in Hsend. cbv zeta in Hsend. split.
  - intros m Hreply. rewrite Hreply in Hsend. inversion Hsend. reflexivity.
  - intros r m Hreply Hstatus Hbody. rewrite Hreply, Hstatus, Hbody in Hsend.
    inversion Hsend. reflexivity.
Qed.

(** C10, as amended: when the request issued by [api_request] is answered
    with a non-2xx status and [e.response.json()] returns a JSON object,
    the result is a failure record that has the key [hint], bound to the
    object's [hint] field or to [None] when it has none; and when the
    object has no [error] field the record's error is [str(e)], the message
    of the [HTTPStatusError] that [raise_for_status] raised. *)
Theorem api_request_http_error_object (method endpoint : pystr) (json_data : option value)
        (params : option dict) (require_auth : bool) (w w' : World)
        (res : outcome value) (req : Request) (r : Response) (body : dict) :
  api_request method endpoint json_data params require_auth w = (res, w') ->
  calls w' = calls w ++ [req] ->
  remote w req = Responds r ->
  is_success r = false ->
  json r = Decoded (VDict body) ->
  exists record,
    res = Return (VDict record) /\
    dict_get record (py "success") = Some (VBool false) /\
    dict_get record (py "hint") =
      Some (match dict_get body (py "hint") with Some h => h | None => VNone end) /\
    (dict_get body (py "error") = None ->
     dict_get record (py "error") = Some (VStr (status_error r))).
Proof.
  intros Hrun Hcalls Hreply Hstatus Hbody.
  destruct (api_request_issued _ _ _ _ _ _ _ _ _ Hrun Hcalls) as (hdrs & -> & Hsend).
  rewrite send_eq in Hsend. cbv zeta in Hsend.
  rewrite Hreply, Hstatus, Hbody in Hsend.
  inversion Hsend. eexists. split; [reflexivity|].
  split; [reflexivity|]. split; [reflexivity|].
  intros ->. reflexivity.
Qed.

(** ** Claims on the tools *)

(** C9: when the stored credential record has a truthy [api_key],
    [register_on_moltbook] returns "Already registered as <agent_name>. API
    key exists." with the stored [agent_name] ([None] when the record has
    none), and the world is unchanged: no network call, same credential
    file. *)
Theorem register_already_registered (name description : pystr) (w : World)
        (content : pystr) (d : dict) (k : value) :
  cred_file w = Some content ->
  loads content = Some (VDict d) ->
  dict_get d (py "api_key") = Some k ->
  truthy k = true ->
  register_on_moltbook name description w =
  (Return (py "Already registered as " ++
           str (match dict_get d (py "agent_name") with Some n => n | None => VNone end) ++
           py ". API key exists."),
   w).
Proof.
  intros Hf Hl Hg Hk. unfold register_on_moltbook, bind, load_credentials.
  rewrite Hf, Hl.
  assert (Hd : truthy (VDict d) = true).
  { destruct d; [discriminate Hg | reflexivity]. }
  rewrite Hd. unfold lift, get, ret. rewrite Hg, Hk. reflexivity.
Qed.

(** C8: [get_feed(sort, 25)] issues at most one request; any request it
    issues is a [GET] of the [/posts] endpoint with no body whose query
    parameters are [sort], exactly as given, and [limit = 25]; and when the
    store yields an [Authorization] header the request is issued, with that
    header, whatever the value of [sort]. *)
Theorem get_feed_forwards_sort (sort : pystr) (w : World) :
  let w' := snd (get_feed sort 25 w) in
  (calls w' = calls w \/
   exists hdrs,
     calls w' =
     calls w ++
     [{| method := py "GET";
         url := py "https://www.moltbook.com/api/v1/posts";
         json_data := None;
         params := Some [(py "sort", VStr sort); (py "limit", VInt 25)];
         headers := hdrs;
         timeout := 30 |}]) /\
  (forall token,
     get_auth_headers w = (Return [(py "Authorization", token)], w) ->
     calls w' =
     calls w ++
     [{| method := py "GET";
         url := py "https://www.moltbook.com/api/v1/posts";
         json_data := None;
         params := Some [(py "sort", VStr sort); (py "limit", VInt 25)];
         headers := [(py "Content-Type", VStr (py "application/json"));
                     (py "Authorization", token)];
         timeout := 30 |}]).
Proof.
  intros w'.
  assert (Hw : w' = snd (api_request (py "GET") (py "/posts") None
                  (Some [(py "sort", VStr sort); (py "limit", VInt 25)]) true w)).
  { unfold w', get_feed, bind.
    destruct (api_request _ _ _ _ _ w) as [[result|e] w1]; [|reflexivity].
    unfold lift. destruct (get result (py "success") VNone) as [success|e]; [|reflexivity].
    destruct success as [| [] | | | | |]; try reflexivity.
    destruct (get result (py "error") VNone); reflexivity. }
  split.
  - destruct (api_request_world (py "GET") (py "/posts") None
                (Some [(py "sort", VStr sort); (py "limit", VInt 25)]) true w)
      as [H | [hdrs H]]; rewrite Hw, H.
    + left; reflexivity.
    + right; exists hdrs; reflexivity.
  - intros token Hauth. rewrite Hw.
    rewrite (api_request_authenticated _ _ _ _ _ _ Hauth), send_eq by discriminate.
    reflexivity.
Qed.

(** ** [json.loads] after [json.dumps] on a record of strings *)

Lemma dict_set_fresh (d : dict) (k : pystr) (v : value) :
  ~ In k (map fst d) -> dict_set d k v = d ++ [(k, v)].
Proof.
  induction d as [|[k' v'] d IH]; intros Hk; [reflexivity|].
  cbn [dict_set app]. destruct (str_eqb k' k) eqn:E.
  - apply str_eqb_eq in E. exfalso. apply Hk. left. exact E.
  - rewrite IH; [reflexivity|]. intros Hin. apply Hk. right. exact Hin.
Qed.

Lemma dict_update_fresh (kvs : list (pystr * value)) (d : dict) :
  NoDup (map fst (d ++ kvs)) -> dict_update d kvs = d ++ kvs.
Proof.
  revert d. induction kvs as [|[k v] kvs IH]; intros d Hnd.
  - cbn. rewrite app_nil_r. reflexivity.
  - unfold dict_update. cbn [fold_left fst snd].
    rewrite dict_set_fresh.
    + fold (dict_update (d ++ [(k, v)]) kvs). rewrite IH.
      * rewrite <- app_assoc. reflexivity.
      * rewrite <- app_assoc. exact Hnd.
    + rewrite map_app in Hnd. cbn [map fst] in Hnd.
      apply NoDup_remove_2 in Hnd. intros Hin. apply Hnd.
      apply in_or_app. left. exact Hin.
Qed.

Lemma dict_of_pairs_nodup (kvs : list (pystr * value)) :
  NoDup (map fst kvs) -> dict_of_pairs kvs = kvs.
Proof. intros H. apply (dict_update_fresh kvs []). exact H. Qed.

Lemma scan_once_string (fuel : nat) (s t : pystr) :
  plain_text s ->
  scan_once (S fuel) (encode_basestring_ascii s ++ t) = Some (VStr s, t).
Proof.
  intros [Hv Hp]. unfold encode_basestring_ascii.
  cbn [app scan_once scan_step]. unfold QUOTE at 1. cbn [N.eqb Pos.eqb].
  rewrite <- app_assoc. cbn [app].
  rewrite scanstring_escaped by assumption. reflexivity.
Qed.

Lemma skip_ws_item (k t : pystr) :
  skip_ws (10 :: 32 :: 32 :: encode_basestring_ascii k ++ t) = encode_basestring_ascii k ++ t.
Proof. reflexivity. Qed.

Lemma object_loop_string_items (scan : pystr -> scan_result) (pairs : list (pystr * pystr)) :
  (forall s t, plain_text s -> scan (encode_basestring_ascii s ++ t) = Some (VStr s, t)) ->
  forall (n : nat) (rest : pystr),
  pairs <> [] -> (length pairs <= n)%nat ->
  Forall (fun kv => plain_text (fst kv) /\ plain_text (snd kv)) pairs ->
  object_loop scan n
    (join (44 :: newline_indent 1)
          (map (fun kv => encode_basestring_ascii (fst kv) ++ py ": " ++
                          encode_basestring_ascii (snd kv)) pairs) ++
     10 :: 125 :: rest) =
  Some (string_dict pairs, rest).
Proof.
  intros Hscan.
  assert (Hscan' : forall s t, plain_text s ->
            scan (34 :: flat_map escape_char s ++ 34 :: t) = Some (VStr s, t)).
  { intros s t Hs. rewrite <- (Hscan s t Hs). unfold encode_basestring_ascii, QUOTE.
    cbn [app]. rewrite <- app_assoc. reflexivity. }
  induction pairs as [|[k v] ps IH]; intros n rest Hne Hlen Hok; [contradiction|].
  inversion Hok as [|? ? [[Hkv Hkp] Hv] Hps]; subst. cbn [fst snd] in *.
  destruct n as [|n]; [cbn [length] in Hlen; lia|].
  assert (Hstep : forall tail out,
            match skip_ws tail with
            | c :: r =>
              if c =? 125 then Some ([(k, VStr v)], r)
              else if c =? 44 then
                match object_loop scan n (skip_ws r) with
                | Some (kvs, r') => Some ((k, VStr v) :: kvs, r')
                | None => None
                end
              else None
            | [] => None
            end = out ->
            object_loop scan (S n)
              ((encode_basestring_ascii k ++ py ": " ++ encode_basestring_ascii v) ++ tail) = out).
  { intros tail out Hout. unfold encode_basestring_ascii at 1. unfold QUOTE at 1.
    repeat rewrite <- app_assoc. cbn [app object_loop].
    unfold QUOTE at 1. cbn [N.eqb Pos.eqb].
    rewrite <- app_assoc. cbn [app].
    rewrite scanstring_escaped by assumption.
    change (py ": ") with [58; 32]. cbn [app skip_ws is_ws N.eqb Pos.eqb orb].
    unfold encode_basestring_ascii, QUOTE. cbn [app]. rewrite <- app_assoc. cbn [app].
    cbn [skip_ws is_ws N.eqb Pos.eqb orb].
    rewrite Hscan' by exact Hv. exact Hout. }
  cbn [map join fst snd length] in *.
  destruct ps as [|p2 ps'].
  - cbn [map]. apply Hstep. reflexivity.
  - cbn [map]. rewrite <- app_assoc. apply Hstep.
    cbn [app skip_ws is_ws N.eqb Pos.eqb orb].
    change (newline_indent 1) with [10; 32; 32]. cbn [app].
    set (item := fun kv : pystr * pystr =>
                   encode_basestring_ascii (fst kv) ++ py ": " ++
                   encode_basestring_ascii (snd kv)) in *.
    assert (Hhead : forall R,
              skip_ws (10 :: 32 :: 32 :: join [44; 10; 32; 32] (item p2 :: map item ps') ++ R) =
              join [44; 10; 32; 32] (item p2 :: map item ps') ++ R).
    { intros R. cbn [join]. destruct (map item ps'); unfold item;
        repeat rewrite <- app_assoc; apply skip_ws_item. }
    rewrite Hhead.
    change [44; 10; 32; 32] with (44 :: newline_indent 1).
    change (item p2 :: map item ps') with (map item (p2 :: ps')).
    rewrite IH; [reflexivity | discriminate | cbn [length] in *; lia | exact Hps].
Qed.

Lemma encode_string_dict_items (level : nat) (pairs : list (pystr * pystr)) :
  map (fun kv : pystr * value =>
         let (k, x) := kv in encode_basestring_ascii k ++ py ": " ++ encode level x)
      (string_dict pairs) =
  map (fun kv => encode_basestring_ascii (fst kv) ++ py ": " ++
                 encode_basestring_ascii (snd kv)) pairs.
Proof.
  unfold string_dict. rewrite map_map. apply map_ext. intros [k v]. reflexivity.
Qed.

Lemma length_join_items (sep : pystr) (pairs : list (pystr * pystr)) :
  (length pairs <=
   length (join sep (map (fun kv => encode_basestring_ascii (fst kv) ++ py ": " ++
                                    encode_basestring_ascii (snd kv)) pairs)))%nat.
Proof.
  induction pairs as [|[k v] ps IH]; [apply Nat.le_0_l|].
  cbn [map join fst snd length] in *.
  destruct ps as [|p2 ps'].
  - cbn [map]. unfold encode_basestring_ascii at 1. cbn [app length]. lia.
  - cbn [map] in *. unfold encode_basestring_ascii at 1.
    cbn [app length]. rewrite !length_app. cbn [length] in IH. lia.
Qed.

Lemma string_dict_keys (pairs : list (pystr * pystr)) :
  map fst (string_dict pairs) = map fst pairs.
Proof. unfold string_dict. rewrite map_map. reflexivity. Qed.

Lemma scan_once_object (fuel : nat) (rest' rest : pystr) (c : N) (r : pystr)
      (kvs : list (pystr * value)) :
  skip_ws rest = c :: r ->
  (c =? 125) = false ->
  object_loop (scan_once fuel) fuel (c :: r) = Some (kvs, rest') ->
  scan_once (S fuel) (123 :: rest) = Some (VDict (dict_of_pairs kvs), rest').
Proof.
  intros Hws Hc Hloop. cbn [scan_once scan_step]. unfold QUOTE at 1. cbn [N.eqb Pos.eqb].
  rewrite Hws, Hc, Hloop. reflexivity.
Qed.

Lemma loads_dumps_string_dict (pairs : list (pystr * pystr)) :
  NoDup (map fst pairs) ->
  Forall (fun kv => plain_text (fst kv) /\ plain_text (snd kv)) pairs ->
  loads (dumps (VDict (string_dict pairs))) = Some (VDict (string_dict pairs)).
Proof.
  intros Hnd Hok.
  destruct pairs as [|p ps]; [reflexivity|].
  unfold dumps. cbn [encode]. change (string_dict (p :: ps)) with
    ((fst p, VStr (snd p)) :: string_dict ps) at 1.
  cbv iota. change ((fst p, VStr (snd p)) :: string_dict ps) with (string_dict (p :: ps)).
  rewrite encode_string_dict_items.
  set (item := fun kv : pystr * pystr =>
                 encode_basestring_ascii (fst kv) ++ py ": " ++
                 encode_basestring_ascii (snd kv)).
  change (newline_indent 1) with [10; 32; 32].
  change (newline_indent 0) with [10]. change (py "{") with [123]. change (py "}") with [125].
  cbn [app].
  set (body := join [44; 10; 32; 32] (map item (p :: ps)) ++ [10; 125]).
  assert (Hbody : exists T, body = 34 :: T).
  { unfold body. cbn [map join]. destruct (map item ps); unfold item, encode_basestring_ascii, QUOTE;
      cbn [app]; eexists; reflexivity. }
  assert (Hlen : (length (p :: ps) <= length body)%nat).
  { unfold body. rewrite length_app.
    pose proof (length_join_items [44; 10; 32; 32] (p :: ps)) as H. fold item in H. lia. }
  assert (Hloop : forall fuel, (length (p :: ps) <= fuel)%nat ->
            object_loop (scan_once fuel) fuel body = Some (string_dict (p :: ps), [])).
  { intros fuel Hfuel. unfold body.
    change [44; 10; 32; 32] with (44 :: newline_indent 1).
    apply (object_loop_string_items (scan_once fuel) (p :: ps)).
    - intros s t Hs. destruct fuel as [|fuel]; [cbn [length] in Hfuel; lia|].
      apply scan_once_string. exact Hs.
    - discriminate.
    - exact Hfuel.
    - exact Hok. }
  unfold loads. cbn [length skip_ws is_ws N.eqb Pos.eqb orb].
  specialize (Hloop (S (S (S (S (length body))))) ltac:(lia)).
  remember (S (S (S (S (length body))))) as fuel eqn:Hfuel.
  destruct Hbody as [T HT].
  rewrite (scan_once_object fuel [] (10 :: 32 :: 32 :: body) 34 T (string_dict (p :: ps))).
  - rewrite dict_of_pairs_nodup; [reflexivity|].
    rewrite string_dict_keys. exact Hnd.
  - rewrite HT. reflexivity.
  - reflexivity.
  - rewrite <- HT. exact Hloop.
Qed.

Lemma plain_text_ascii (s : string) :
  forallb (fun c => c <? 128) (py s) = true -> plain_text (py s).
Proof.
  intros H. rewrite forallb_forall in H. split.
  - apply Forall_forall. intros c Hc. apply H, N.ltb_lt in Hc.
    unfold valid_code_point. lia.
  - induction (py s) as [|c l IH]; [reflexivity|].
    destruct l as [|d l']; [reflexivity|].
    change (has_surrogate_pair (c :: d :: l'))
      with ((is_high_surrogate c && is_low_surrogate d) || has_surrogate_pair (d :: l')).
    rewrite IH by (intros x Hx; apply H; right; exact Hx).
    assert (Hc : c < 128) by (apply N.ltb_lt, H; left; reflexivity).
    unfold is_high_surrogate.
    replace (55296 <=? c) with false by (symmetry; apply N.leb_gt; lia).
    reflexivity.
Qed.

Lemma save_then_load_string_dict (pairs : list (pystr * pystr)) (w : World) :
  NoDup (map fst pairs) ->
  Forall (fun kv => plain_text (fst kv) /\ plain_text (snd kv)) pairs ->
  (_ <- save_credentials (VDict (string_dict pairs)) ;; load_credentials) w =
  (Return (VDict (string_dict pairs)),
   {| cred_file := Some (dumps (VDict (string_dict pairs)));
      remote := remote w; calls := calls w |}).
Proof.
  intros Hnd Hok. unfold bind, save_credentials, load_credentials. cbn [cred_file].
  rewrite loads_dumps_string_dict by assumption. reflexivity.
Qed.

Lemma credential_keys_nodup (a b c d : pystr) :
  NoDup (map fst [(py "api_key", a); (py "agent_name", b);
                  (py "claim_url", c); (py "verification_code", d)]).
Proof.
  cbn [map fst].
  repeat (constructor; [cbn [In]; intros H; repeat destruct H as [H | H]; try discriminate H; exact H|]).
  constructor.
Qed.

(** C6, as amended: for every credential record whose four fields are valid
    strings in which no high surrogate is directly followed by a low
    surrogate, [save_credentials] followed by [load_credentials] returns a
    record equal to the one saved, field for field. *)
Theorem credentials_round_trip (r : Credentials) (w : World) :
  plain_text (api_key r) ->
  plain_text (agent_name r) ->
  plain_text (claim_url r) ->
  plain_text (verification_code r) ->
  (_ <- save_credentials (credentials_dict r) ;; load_credentials) w =
  (Return (credentials_dict r),
   {| cred_file := Some (dumps (credentials_dict r));
      remote := remote w; calls := calls w |}).
Proof.
  intros Hk Hn Hu Hc.
  apply (save_then_load_string_dict
           [(py "api_key", api_key r); (py "agent_name", agent_name r);
            (py "claim_url", claim_url r); (py "verification_code", verification_code r)]).
  - apply credential_keys_nodup.
  - repeat (constructor; [split; [apply plain_text_ascii; reflexivity | assumption]|]).
    constructor.
Qed.

(** C7: with no credential stored, registering as "Fido" / "a good boy"
    against a service that answers the registration request with a 2xx
    response whose body is the object
    [{"agent": {"api_key": "k1", "claim_url": u, "verification_code": "123"}}]
    writes a credential record whose [api_key] is "k1" (and which
    [load_credentials] reads back when [u] is plain text), and returns a
    display string that contains "Fido" and the claim URL [u]. *)
Theorem register_fido (w : World) (r : Response) (u : pystr) :
  cred_file w = None ->
  remote w (build_request (py "POST") (py "/agents/register")
              (Some (VDict [(py "name", VStr (py "Fido"));
                            (py "description", VStr (py "a good boy"))]))
              None [(py "Content-Type", VStr (py "application/json"))]) = Responds r ->
  is_success r = true ->
  json r =
    Decoded (VDict [(py "agent",
                  VDict [(py "api_key", VStr (py "k1"));
                         (py "claim_url", VStr u);
                         (py "verification_code", VStr (py "123"))])]) ->
  let record := [(py "api_key", VStr (py "k1"));
                 (py "agent_name", VStr (py "Fido"));
                 (py "claim_url", VStr u);
                 (py "verification_code", VStr (py "123"))] in
  exists display w',
    register_on_moltbook (py "Fido") (py "a good boy") w = (Return display, w') /\
    cred_file w' = Some (dumps (VDict record)) /\
    dict_get record (py "api_key") = Some (VStr (py "k1")) /\
    (plain_text u -> load_credentials w' = (Return (VDict record), w')) /\
    contains display (py "Fido") = true /\
    contains display u = true.
Proof.
  intros Hfile Hreply Hstatus Hbody record.
  unfold register_on_moltbook, bind, load_credentials. rewrite Hfile.
  cbn [truthy ret]. unfold api_request. rewrite send_eq. cbv zeta.
  rewrite Hreply, Hstatus, Hbody.
  unfold lift, ret, save_credentials.
  change (get (VDict [(py "agent",
                  VDict [(py "api_key", VStr (py "k1"));
                         (py "claim_url", VStr u);
                         (py "verification_code", VStr (py "123"))])]) (py "agent") VNone)
    with (Return (VDict [(py "api_key", VStr (py "k1"));
                         (py "claim_url", VStr u);
                         (py "verification_code", VStr (py "123"))])).
  cbv iota beta. cbn [truthy].
  change (get (VDict [(py "api_key", VStr (py "k1")); (py "claim_url", VStr u);
                      (py "verification_code", VStr (py "123"))]) (py "api_key") VNone)
    with (Return (VStr (py "k1"))).
  change (get (VDict [(py "api_key", VStr (py "k1")); (py "claim_url", VStr u);
                      (py "verification_code", VStr (py "123"))]) (py "claim_url") VNone)
    with (Return (VStr u)).
  change (get (VDict [(py "api_key", VStr (py "k1")); (py "claim_url", VStr u);
                      (py "verification_code", VStr (py "123"))])
              (py "verification_code") VNone)
    with (Return (VStr (py "123"))).
  cbv iota beta. cbn [str].
  eexists. eexists. split; [reflexivity|].
  split; [reflexivity|]. split; [reflexivity|]. split; [|split].
  - intros Hu. unfold load_credentials. cbn [cred_file].
    match goal with
    | |- context [loads ?x] =>
      change x with
        (dumps (VDict (string_dict [(py "api_key", py "k1"); (py "agent_name", py "Fido");
                                    (py "claim_url", u); (py "verification_code", py "123")])))
    end.
    rewrite loads_dumps_string_dict; [reflexivity | apply credential_keys_nodup |].
    repeat (constructor;
            [split; first [assumption | apply plain_text_ascii; reflexivity]|]).
    constructor.
  - do 3 apply contains_app_r. apply contains_startswith, startswith_app.
  - do 6 apply contains_app_r. apply contains_startswith, startswith_app.
Qed.

(** * Further properties of the store, the wrapper and the tools *)

(** ** The store and the wrapper *)

Lemma no_token_headers (w : World) : no_token w -> get_auth_headers w = (Return [], w).
Proof.
  intros [Hf | [(content & d & Hf & Hl & Hk) | (content & v & Hf & Hl & Hv)]].
  - apply get_auth_headers_no_file; exact Hf.
  - eapply get_auth_headers_no_key; eassumption.
  - unfold get_auth_headers, bind, load_credentials. rewrite Hf, Hl, Hv. reflexivity.
Qed.

Lemma has_key_headers (w : World) (k : pystr) :
  has_key w k ->
  get_auth_headers w = (Return [(py "Authorization", VStr (py "Bearer " ++ k))], w).
Proof.
  intros (content & d & Hf & Hl & Hg & Hk).
  rewrite (get_auth_headers_key w content d (VStr k) Hf Hl Hg); [reflexivity|].
  destruct k; [contradiction | reflexivity].
Qed.

Lemma api_request_no_token (method endpoint : pystr) (json_data : option value)
      (params : option dict) (w : World) :
  no_token w ->
  api_request method endpoint json_data params true w = (Return not_registered, w).
Proof.
  intros H. unfold api_request, bind. rewrite (no_token_headers w H). reflexivity.
Qed.

Lemma api_request_has_key (method endpoint : pystr) (json_data : option value)
      (params : option dict) (w : World) (k : pystr) :
  has_key w k ->
  api_request method endpoint json_data params true w =
  send method endpoint json_data params (bearer_headers k) w.
Proof.
  intros H. unfold api_request, bind. rewrite (has_key_headers w k H). reflexivity.
Qed.

Lemma get_auth_headers_shape (w : World) (auth : dict) :
  fst (get_auth_headers w) = Return auth ->
  auth = [] \/ exists k, auth = [(py "Authorization", VStr (py "Bearer " ++ str k))].
Proof.
  unfold get_auth_headers, bind.
  destruct (load_credentials w) as [[credentials|e] w1]; [|discriminate].
  destruct (truthy credentials); cbn [negb]; [|intros H; inversion H; left; reflexivity].
  unfold lift. destruct (get credentials (py "api_key") VNone) as [api_key|e]; [|discriminate].
  destruct (truthy api_key); cbn [negb ret fst]; intros H; inversion H.
  - right. exists api_key. reflexivity.
  - left. reflexivity.
Qed.

(** X1: when the request issued by [api_request] is answered with a 2xx
    status and [response.json()] returns a value, the call returns that
    value as it is, whatever its shape. *)
Theorem api_request_success_passthrough (method endpoint : pystr)
        (json_data : option value) (params : option dict) (require_auth : bool)
        (w w' : World) (res : outcome value) (req : Request) (r : Response) (v : value) :
  api_request method endpoint json_data params require_auth w = (res, w') ->
  calls w' = calls w ++ [req] ->
  remote w req = Responds r ->
  is_success r = true ->
  json r = Decoded v ->
  res = Return v.
Proof.
  intros Hrun Hcalls Hreply Hstatus Hbody.
  destruct (api_request_issued _ _ _ _ _ _ _ _ _ Hrun Hcalls) as (hdrs & -> & Hsend).
  rewrite send_eq in Hsend. cbv zeta in Hsend.
  rewrite Hreply, Hstatus, Hbody in Hsend. inversion Hsend. reflexivity.
Qed.

(** X2: [api_request] makes a single attempt and never writes the
    credential file: after any call the file is as before, and the call log
    is either unchanged or longer by exactly one request, which has the
    given method, the base URL followed by the endpoint, the given body and
    parameters, a timeout of 30 and the JSON content type. *)
Theorem api_request_single_attempt (method endpoint : pystr) (json_data : option value)
        (params : option dict) (require_auth : bool) (w : World) :
  let w' := snd (api_request method endpoint json_data params require_auth w) in
  cred_file w' = cred_file w /\
  (calls w' = calls w \/
   exists hdrs,
     calls w' = calls w ++
       [{| method := method; url := py "https://www.moltbook.com/api/v1" ++ endpoint;
           json_data := json_data; params := params; headers := hdrs; timeout := 30 |}] /\
     dict_get hdrs (py "Content-Type") = Some (VStr (py "application/json"))).
Proof.
  intros w'. unfold w', api_request.
  destruct require_auth.
  - unfold bind. pose proof (get_auth_headers_world w) as Hw.
    pose proof (get_auth_headers_shape w) as Hshape.
    destruct (get_auth_headers w) as [[auth|e] w1]; cbn [snd fst] in Hw, Hshape; subst w1.
    + destruct (Hshape auth eq_refl) as [-> | [k ->]].
      * cbn. repeat split; left; reflexivity.
      * cbn [truthy negb]. rewrite send_eq. cbn [snd issued cred_file remote calls].
        repeat split. right. eexists. split; reflexivity.
    + cbn. repeat split; left; reflexivity.
  - rewrite send_eq. cbn [snd issued cred_file remote calls].
    repeat split. right. eexists. split; reflexivity.
Qed.

(** X3: with a non-empty string [k] stored as [api_key], an authenticated
    call issues exactly one request, and its headers are the JSON content
    type and [Authorization: Bearer k]. *)
Theorem api_request_bearer_header (method endpoint : pystr) (json_data : option value)
        (params : option dict) (w : World) (k : pystr) :
  has_key w k ->
  snd (api_request method endpoint json_data params true w) =
  issued w {| method := method; url := MOLTBOOK_API_BASE ++ endpoint;
              json_data := json_data; params := params;
              headers := [(py "Content-Type", VStr (py "application/json"));
                          (py "Authorization", VStr (py "Bearer " ++ k))];
              timeout := 30 |}.
Proof.
  intros H. rewrite (api_request_has_key _ _ _ _ _ _ H), send_eq. reflexivity.
Qed.

(** X4: [api_request] with [require_auth = true] does raise when the
    credential file is unusable: a file that is not JSON raises
    [JSONDecodeError], and a file holding truthy JSON that is not an object
    raises [AttributeError]; in both cases no request is issued. *)
Theorem api_request_bad_store_raises (method endpoint : pystr) (json_data : option value)
        (params : option dict) (w : World) (content : pystr) :
  cred_file w = Some content ->
  (loads content = None ->
   api_request method endpoint json_data params true w = (Raise JSONDecodeError, w)) /\
  (forall v, loads content = Some v -> truthy v = true -> (forall d, v <> VDict d) ->
   api_request method endpoint json_data params true w = (Raise AttributeError, w)).
Proof.
  intros Hf. unfold api_request, bind, get_auth_headers, bind, load_credentials.
  rewrite Hf. split.
  - intros ->. reflexivity.
  - intros v -> Hv Hnd. rewrite Hv. cbn [negb]. unfold lift.
    destruct v; try reflexivity. exfalso. eapply Hnd. reflexivity.
Qed.

(** X5: [api_request] returns a value, raising nothing, whenever
    authentication is not required or the credential file is missing: the
    only exceptions that escape it come from reading a credential file. *)
Theorem api_request_returns (method endpoint : pystr) (json_data : option value)
        (params : option dict) (require_auth : bool) (w : World) :
  (require_auth = false \/ cred_file w = None) ->
  exists v, fst (api_request method endpoint json_data params require_auth w) = Return v.
Proof.
  intros H. unfold api_request.
  destruct require_auth.
  - destruct H as [H | Hf]; [discriminate H|].
    unfold bind. rewrite (get_auth_headers_no_file w Hf). eexists. reflexivity.
  - rewrite send_eq. eexists. reflexivity.
Qed.

(** X6: [save_credentials] replaces the stored record, it does not merge:
    whatever was saved before, after saving a record of strings (distinct
    keys, plain text) [load_credentials] returns exactly that record; no
    request is issued on the way. *)
Theorem save_credentials_overwrites (previous : value) (pairs : list (pystr * pystr))
        (w : World) :
  NoDup (map fst pairs) ->
  Forall (fun kv => plain_text (fst kv) /\ plain_text (snd kv)) pairs ->
  (_ <- save_credentials previous ;;
   _ <- save_credentials (VDict (string_dict pairs)) ;;
   load_credentials) w =
  (Return (VDict (string_dict pairs)),
   {| cred_file := Some (dumps (VDict (string_dict pairs)));
      remote := remote w; calls := calls w |}).
Proof.
  intros Hnd Hok. unfold bind, save_credentials, load_credentials.
  cbn [cred_file remote calls].
  rewrite loads_dumps_string_dict by assumption. reflexivity.
Qed.

(** X7: saving a credential record and then asking for the authorization
    headers gives [Authorization: Bearer <api_key>] for the key just saved,
    and no header at all when the saved key is the empty string. *)
Theorem saved_key_authorizes (r : Credentials) (w : World) :
  plain_text (api_key r) ->
  plain_text (agent_name r) ->
  plain_text (claim_url r) ->
  plain_text (verification_code r) ->
  (_ <- save_credentials (credentials_dict r) ;; get_auth_headers) w =
  (Return match api_key r with
          | [] => []
          | _ :: _ => [(py "Authorization", VStr (py "Bearer " ++ api_key r))]
          end,
   {| cred_file := Some (dumps (credentials_dict r));
      remote := remote w; calls := calls w |}).
Proof.
  intros Hk Hn Hu Hc.
  unfold bind at 1. unfold save_credentials.
  set (w1 := {| cred_file := Some (dumps (credentials_dict r));
                remote := remote w; calls := calls w |}).
  assert (Hl : loads (dumps (credentials_dict r)) = Some (credentials_dict r)).
  { apply (loads_dumps_string_dict
             [(py "api_key", api_key r); (py "agent_name", agent_name r);
              (py "claim_url", claim_url r); (py "verification_code", verification_code r)]).
    - apply credential_keys_nodup.
    - repeat (constructor; [split; [apply plain_text_ascii; reflexivity | assumption]|]).
      constructor. }
  destruct (api_key r) as [|c k] eqn:Ek.
  - apply (get_auth_headers_no_key w1 (dumps (credentials_dict r))
             [(py "api_key", VStr (api_key r)); (py "agent_name", VStr (agent_name r));
              (py "claim_url", VStr (claim_url r));
              (py "verification_code", VStr (verification_code r))]);
      [reflexivity | exact Hl | rewrite Ek; reflexivity].
  - rewrite <- Ek.
    apply (get_auth_headers_key w1 (dumps (credentials_dict r))
             [(py "api_key", VStr (api_key r)); (py "agent_name", VStr (agent_name r));
              (py "claim_url", VStr (claim_url r));
              (py "verification_code", VStr (verification_code r))]
             (VStr (api_key r)));
      [reflexivity | exact Hl | reflexivity | rewrite Ek; reflexivity].
Qed.

(** ** Registration *)

Lemma no_token_load (w : World) :
  no_token w ->
  exists existing,
    load_credentials w = (Return existing, w) /\
    (truthy existing = false \/
     exists d, existing = VDict d /\
       truthy (match dict_get d (py "api_key") with Some k => k | None => VNone end) = false).
Proof.
  unfold load_credentials.
  intros [Hf | [(content & d & Hf & Hl & Hk) | (content & v & Hf & Hl & Hv)]].
  - exists VNone. rewrite Hf. split; [reflexivity | left; reflexivity].
  - exists (VDict d). rewrite Hf, Hl. split; [reflexivity|]. right. exists d. split; auto.
  - exists v. rewrite Hf, Hl. split; [reflexivity | left; exact Hv].
Qed.

(** Without a stored key, [register_on_moltbook] is what follows its
    check. *)
Lemma register_fresh (name description : pystr) (w : World) :
  no_token w ->
  register_on_moltbook name description w =
  (result <- api_request (py "POST") (py "/agents/register")
               (Some (VDict [(py "name", VStr name); (py "description", VStr description)]))
               None false ;;
   agent_data <- lift (get result (py "agent") VNone) ;;
   if truthy agent_data then
     api_key <- lift (get agent_data (py "api_key") VNone) ;;
     claim_url <- lift (get agent_data (py "claim_url") VNone) ;;
     verification_code <- lift (get agent_data (py "verification_code") VNone) ;;
     _ <- save_credentials (VDict [(py "api_key", api_key);
                                   (py "agent_name", VStr name);
                                   (py "claim_url", claim_url);
                                   (py "verification_code", verification_code)]) ;;
     ret (py "Successfully registered on Moltbook!" ++ [10; 10] ++
          py "Agent Name: " ++ name ++ [10] ++
          py "Claim URL: " ++ str claim_url ++ [10] ++
          py "Verification Code: " ++ str verification_code ++ [10; 10] ++
          py "IMPORTANT: Send the claim URL to your human owner. " ++
          py "They need to verify ownership via Twitter/X to activate the account." ++
          [10; 10] ++
          py "Credentials saved to: " ++ CREDENTIALS_FILE)
   else ret (py "Registration failed: " ++ str result)) w.
Proof.
  intros H. destruct (no_token_load w H) as (existing & Hload & Hex).
  unfold register_on_moltbook. unfold bind at 1. rewrite Hload.
  unfold bind at 1.
  destruct Hex as [Hf | (d & -> & Hk)].
  - rewrite Hf. reflexivity.
  - destruct (truthy (VDict d)); [|reflexivity].
    unfold bind at 1. unfold lift at 1. unfold get at 1. cbn [ret]. rewrite Hk. reflexivity.
Qed.

(** X8: a registration that does not get a 2xx reply carrying a truthy
    [agent] saves nothing.  From a store without a key
    [register_on_moltbook] issues the one registration request and, on a
    transport failure, on a non-2xx reply (whether its JSON is an object or
    not), on a 2xx reply that cannot be decoded and on a 2xx object without
    a truthy [agent], returns "Registration failed: " followed by the
    result of [api_request]; the credential file is as it was. *)
Theorem register_failure_keeps_store (name description : pystr) (w : World) :
  no_token w ->
  let req := {| method := py "POST";
                url := py "https://www.moltbook.com/api/v1/agents/register";
                json_data := Some (VDict [(py "name", VStr name);
                                          (py "description", VStr description)]);
                params := None;
                headers := [(py "Content-Type", VStr (py "application/json"))];
                timeout := 30 |} in
  let failed (result : value) : outcome pystr * World :=
    (Return (py "Registration failed: " ++ str result),
     {| cred_file := cred_file w; remote := remote w; calls := calls w ++ [req] |}) in
  (forall m, remote w req = Fails m ->
     register_on_moltbook name description w =
     failed (VDict [(py "success", VBool false); (py "error", VStr m)])) /\
  (forall r body, remote w req = Responds r -> is_success r = false ->
     json r = Decoded (VDict body) ->
     register_on_moltbook name description w =
     failed (VDict [(py "success", VBool false);
                    (py "error", match dict_get body (py "error") with
                                 | Some e => e
                                 | None => VStr (status_error r)
                                 end);
                    (py "hint", match dict_get body (py "hint") with
                                | Some h => h
                                | None => VNone
                                end)])) /\
  (forall r, remote w req = Responds r -> is_success r = false ->
     (forall body, json r <> Decoded (VDict body)) ->
     register_on_moltbook name description w =
     failed (VDict [(py "success", VBool false);
                    (py "error",
                     VStr (str_of_int (status_code r) ++ py " - " ++ text r))])) /\
  (forall r m, remote w req = Responds r -> is_success r = true ->
     json r = Undecodable m ->
     register_on_moltbook name description w =
     failed (VDict [(py "success", VBool false); (py "error", VStr m)])) /\
  (forall r d, remote w req = Responds r -> is_success r = true ->
     json r = Decoded (VDict d) ->
     truthy (match dict_get d (py "agent") with Some a => a | None => VNone end) = false ->
     register_on_moltbook name description w = failed (VDict d)).
Proof.
  intros Hno req failed.
  repeat split.
  - intros m Hm. rewrite (register_fresh name description w Hno).
    unfold bind at 1. unfold api_request. rewrite send_eq. cbv zeta.
    change (build_request _ _ _ _ _) with req. rewrite Hm. reflexivity.
  - intros r body Hr Hs Hl. rewrite (register_fresh name description w Hno).
    unfold bind at 1. unfold api_request. rewrite send_eq. cbv zeta.
    change (build_request _ _ _ _ _) with req. rewrite Hr, Hs, Hl. reflexivity.
  - intros r Hr Hs Hl. rewrite (register_fresh name description w Hno).
    unfold bind at 1. unfold api_request. rewrite send_eq. cbv zeta.
    change (build_request _ _ _ _ _) with req. rewrite Hr, Hs.
    destruct (json r) as [[]|]; try reflexivity.
    exfalso. eapply Hl. reflexivity.
  - intros r m Hr Hs Hl. rewrite (register_fresh name description w Hno).
    unfold bind at 1. unfold api_request. rewrite send_eq. cbv zeta.
    change (build_request _ _ _ _ _) with req. rewrite Hr, Hs, Hl. reflexivity.
  - intros r d Hr Hs Hl Hagent. rewrite (register_fresh name description w Hno).
    unfold bind at 1. unfold api_request. rewrite send_eq. cbv zeta.
    change (build_request _ _ _ _ _) with req. rewrite Hr, Hs, Hl.
    unfold bind, lift, get. rewrite Hagent. reflexivity.
Qed.

(** X9: registering is done once.  After a registration that was answered
    with a 2xx object whose [agent] carries a non-empty string [api_key]
    (and string [claim_url] and [verification_code], all plain text), the
    store holds that key, and a further call to [register_on_moltbook],
    with any name, returns "Already registered as <first name>. API key
    exists." and changes nothing. *)
Theorem register_twice (name description name' description' : pystr) (w : World)
        (r : Response) (d agent : dict) (k u c : pystr) :
  no_token w ->
  remote w (build_request (py "POST") (py "/agents/register")
              (Some (VDict [(py "name", VStr name); (py "description", VStr description)]))
              None [(py "Content-Type", VStr (py "application/json"))]) = Responds r ->
  is_success r = true ->
  json r = Decoded (VDict d) ->
  dict_get d (py "agent") = Some (VDict agent) ->
  dict_get agent (py "api_key") = Some (VStr k) ->
  k <> [] ->
  dict_get agent (py "claim_url") = Some (VStr u) ->
  dict_get agent (py "verification_code") = Some (VStr c) ->
  plain_text name -> plain_text k -> plain_text u -> plain_text c ->
  let w1 := snd (register_on_moltbook name description w) in
  has_key w1 k /\
  register_on_moltbook name' description' w1 =
  (Return (py "Already registered as " ++ name ++ py ". API key exists."), w1).
Proof.
  intros Hno Hreply Hstatus Hbody Hagent Hkey Hk Hurl Hcode Pn Pk Pu Pc w1.
  assert (Hrecord :
            loads (dumps (VDict [(py "api_key", VStr k); (py "agent_name", VStr name);
                                 (py "claim_url", VStr u);
                                 (py "verification_code", VStr c)])) =
            Some (VDict [(py "api_key", VStr k); (py "agent_name", VStr name);
                         (py "claim_url", VStr u); (py "verification_code", VStr c)])).
  { apply (loads_dumps_string_dict
             [(py "api_key", k); (py "agent_name", name);
              (py "claim_url", u); (py "verification_code", c)]).
    - apply credential_keys_nodup.
    - repeat (constructor; [split; [apply plain_text_ascii; reflexivity | assumption]|]).
      constructor. }
  assert (Hw1 : cred_file w1 =
                Some (dumps (VDict [(py "api_key", VStr k); (py "agent_name", VStr name);
                                    (py "claim_url", VStr u);
                                    (py "verification_code", VStr c)]))).
  { unfold w1. rewrite (register_fresh name description w Hno).
    unfold bind at 1. unfold api_request. rewrite send_eq. cbv zeta.
    rewrite Hreply, Hstatus, Hbody.
    unfold bind, lift, get, ret, save_credentials. rewrite Hagent.
    assert (Ht : truthy (VDict agent) = true)
      by (destruct agent; [discriminate Hkey | reflexivity]).
    rewrite Ht, Hkey, Hurl, Hcode. reflexivity. }
  split.
  - eexists. eexists. split; [exact Hw1|]. split; [exact Hrecord|].
    split; [reflexivity | exact Hk].
  - unfold register_on_moltbook, bind, load_credentials. rewrite Hw1, Hrecord.
    cbn [truthy]. unfold lift, get, ret.
    change (dict_get [(py "api_key", VStr k); (py "agent_name", VStr name);
                      (py "claim_url", VStr u); (py "verification_code", VStr c)]
                     (py "api_key")) with (Some (VStr k)).
    change (dict_get [(py "api_key", VStr k); (py "agent_name", VStr name);
                      (py "claim_url", VStr u); (py "verification_code", VStr c)]
                     (py "agent_name")) with (Some (VStr name)).
    destruct k; [contradiction | reflexivity].
Qed.

(** X10: [register_on_moltbook] raises [AttributeError], after the request
    has gone out and without saving anything, when the 2xx reply is JSON
    but not an object, and when its [agent] is truthy but not an object. *)
Theorem register_non_object_reply_raises (name description : pystr) (w : World)
        (r : Response) :
  no_token w ->
  let req := build_request (py "POST") (py "/agents/register")
               (Some (VDict [(py "name", VStr name); (py "description", VStr description)]))
               None [(py "Content-Type", VStr (py "application/json"))] in
  remote w req = Responds r ->
  is_success r = true ->
  (forall v, json r = Decoded v -> (forall d, v <> VDict d) ->
     register_on_moltbook name description w = (Raise AttributeError, issued w req)) /\
  (forall d a, json r = Decoded (VDict d) ->
     dict_get d (py "agent") = Some a -> truthy a = true -> (forall x, a <> VDict x) ->
     register_on_moltbook name description w = (Raise AttributeError, issued w req)).
Proof.
  intros Hno req Hreply Hstatus. unfold req in *. split.
  - intros v Hl Hv. rewrite (register_fresh name description w Hno).
    unfold bind at 1. unfold api_request. rewrite send_eq. cbv zeta.
    rewrite Hreply, Hstatus, Hl.
    destruct v; try reflexivity. exfalso. eapply Hv. reflexivity.
  - intros d a Hl Ha Ht Hnd. rewrite (register_fresh name description w Hno).
    unfold bind at 1. unfold api_request. rewrite send_eq. cbv zeta.
    rewrite Hreply, Hstatus, Hl. unfold bind, lift, get. rewrite Ha, Ht.
    destruct a; try reflexivity. exfalso. eapply Hnd. reflexivity.
Qed.

(** ** The tools built on [api_request] *)

Lemma json_or_failure_world (prefix : pystr) (result : value) (w : World) :
  snd (json_or_failure prefix result w) = w.
Proof.
  unfold json_or_failure, bind, lift.
  destruct (get result (py "success") VNone) as [success|e]; [|reflexivity].
  destruct success as [| [] | | | | |]; try reflexivity.
  destruct (get result (py "error") VNone); reflexivity.
Qed.

Lemma done_or_failure_world (done prefix : pystr) (result : value) (w : World) :
  snd (done_or_failure done prefix result w) = w.
Proof.
  unfold done_or_failure, bind, lift.
  destruct (get result (py "success") VNone) as [success|e]; [|reflexivity].
  destruct (truthy success); [reflexivity|].
  destruct (get result (py "error") VNone); reflexivity.
Qed.

Lemma message_or_failure_world (default prefix : pystr) (result : value) (w : World) :
  snd (message_or_failure default prefix result w) = w.
Proof.
  unfold message_or_failure, bind, lift.
  destruct (get result (py "success") VNone) as [success|e]; [|reflexivity].
  destruct (truthy success); [destruct (get result (py "message") _); reflexivity|].
  destruct (get result (py "error") VNone); reflexivity.
Qed.

Lemma reading_tools_shape (a b : pystr) (n : Z) (prefix : pystr) (tool : M pystr) :
  In (prefix, tool) (reading_tools a b n) ->
  exists method endpoint params,
    tool = (result <- api_request method endpoint None params true ;;
            json_or_failure prefix result).
Proof.
  unfold reading_tools. cbn [In].
  intros H; repeat destruct H as [H | H]; try contradiction; inversion H; subst;
    first [ do 3 eexists; reflexivity
          | exists (py "GET"), (py "/posts"),
              (Some [(py "sort", VStr a); (py "limit", VInt n)]); reflexivity ].
Qed.

Lemma confirming_tools_shape (a b c : pystr) (done : value -> pystr) (prefix : pystr)
      (tool : M pystr) :
  In (done, prefix, tool) (confirming_tools a b c) ->
  exists method endpoint json_data,
    tool = (result <- api_request method endpoint json_data None true ;;
            done_or_failure (done result) prefix result).
Proof.
  unfold confirming_tools. cbn [In].
  intros H; repeat destruct H as [H | H]; try contradiction; inversion H; subst;
    do 3 eexists; reflexivity.
Qed.

Lemma voting_tools_shape (a : pystr) (default prefix : pystr) (tool : M value) :
  In (default, prefix, tool) (voting_tools a) ->
  exists endpoint,
    tool = (result <- api_request (py "POST") endpoint None None true ;;
            message_or_failure default prefix result).
Proof.
  unfold voting_tools. cbn [In].
  intros H; repeat destruct H as [H | H]; try contradiction; inversion H; subst;
    eexists; reflexivity.
Qed.

(** A tool that leaves one more request in the log got its result from
    [send], and then ran its own formatting on it. *)
Lemma tool_issued (A : Type) (k : value -> M A) (method endpoint : pystr)
      (json_data : option value) (params : option dict) (require_auth : bool)
      (w w' : World) (res : outcome A) (req : Request) :
  (forall v w0, snd (k v w0) = w0) ->
  (result <- api_request method endpoint json_data params require_auth ;; k result) w =
    (res, w') ->
  calls w' = calls w ++ [req] ->
  exists hdrs v,
    req = build_request method endpoint json_data params hdrs /\
    send method endpoint json_data params hdrs w = (Return v, w') /\
    k v w' = (res, w').
Proof.
  intros Hk Hrun Hcalls. unfold bind in Hrun.
  destruct (api_request method endpoint json_data params require_auth w)
    as [[v|e] w1] eqn:Hreq.
  - assert (Hw : w1 = w').
    { pose proof (Hk v w1) as H. rewrite Hrun in H. symmetry. exact H. }
    subst w1.
    destruct (api_request_issued _ _ _ _ _ _ _ _ _ Hreq Hcalls) as (hdrs & Hr & Hsend).
    exists hdrs, v. repeat split; assumption.
  - inversion Hrun; subst.
    destruct (api_request_issued _ _ _ _ _ _ _ _ _ Hreq Hcalls) as (hdrs & Hr & Hsend).
    rewrite send_eq in Hsend. discriminate Hsend.
Qed.

(** The result of [send] when the service answers 2xx with parsable JSON. *)
Lemma send_success (method endpoint : pystr) (json_data : option value)
      (params : option dict) (hdrs : dict) (w w' : World) (v result : value)
      (r : Response) :
  send method endpoint json_data params hdrs w = (Return v, w') ->
  remote w (build_request method endpoint json_data params hdrs) = Responds r ->
  is_success r = true ->
  json r = Decoded result ->
  v = result.
Proof.
  intros Hsend Hreply Hstatus Hbody. rewrite send_eq in Hsend. cbv zeta in Hsend.
  rewrite Hreply, Hstatus, Hbody in Hsend. inversion Hsend. reflexivity.
Qed.

(** X11: without a token, each of the ten reading tools returns its own
    failure prefix, as listed in [reading_tools], followed by the "Not
    registered" message, and leaves the world as it was: no request is
    issued. *)
Theorem reading_tools_unregistered (a b : pystr) (n : Z) (prefix : pystr)
        (tool : M pystr) (w : World) :
  In (prefix, tool) (reading_tools a b n) ->
  no_token w ->
  tool w =
  (Return (prefix ++
           py ": Not registered on Moltbook. Use register_on_moltbook first."), w).
Proof.
  intros Hin Hno.
  destruct (reading_tools_shape a b n prefix tool Hin) as (m & e & p & ->).
  unfold bind. rewrite (api_request_no_token _ _ _ _ w Hno). reflexivity.
Qed.

(** X12: without a token, each of the ten tools of [confirming_tools] and
    each of the three of [voting_tools] returns its own failure prefix, as
    listed there, followed by the "Not registered" message;
    [update_my_profile] with something to update returns "Profile update
    failed: ..."; [upvote_post] returns "Upvote failed: ..." and
    [create_post] adds the line "Hint: N/A".  None of them issues a
    request. *)
Theorem confirming_tools_unregistered (a b c : pystr) (description : option pystr)
        (metadata : option dict) (w : World) :
  no_token w ->
  (forall done prefix tool, In (done, prefix, tool) (confirming_tools a b c) ->
     tool w = (Return (prefix ++ py ": " ++ NOT_REGISTERED), w)) /\
  (forall default prefix tool, In (default, prefix, tool) (voting_tools a) ->
     tool w = (Return (VStr (prefix ++ py ": " ++ NOT_REGISTERED)), w)) /\
  (forall x d, update_my_profile (Some (x :: d)) metadata w =
     (Return (py "Profile update failed: " ++ NOT_REGISTERED), w)) /\
  (forall kv m, update_my_profile description (Some (kv :: m)) w =
     (Return (py "Profile update failed: " ++ NOT_REGISTERED), w)) /\
  upvote_post a w = (Says (VStr (py "Upvote failed: " ++ NOT_REGISTERED)), w) /\
  create_post a b c w =
  (Return (py "Post creation failed: " ++ NOT_REGISTERED ++ [10] ++ py "Hint: N/A"), w).
Proof.
  intros Hno. split; [|split; [|split; [|split; [|split]]]].
  - intros done prefix tool Hin.
    destruct (confirming_tools_shape a b c done prefix tool Hin) as (m & e & j & ->).
    unfold bind. rewrite (api_request_no_token _ _ _ _ w Hno). reflexivity.
  - intros default prefix tool Hin.
    destruct (voting_tools_shape a default prefix tool Hin) as (e & ->).
    unfold bind. rewrite (api_request_no_token _ _ _ _ w Hno). reflexivity.
  - intros x d. unfold update_my_profile.
    destruct metadata as [[|kv m]|]; cbn [dict_set]; try destruct (str_eqb _ _);
      unfold bind; rewrite (api_request_no_token _ _ _ _ w Hno); reflexivity.
  - intros kv m. unfold update_my_profile.
    destruct description as [[|x d]|]; cbn [dict_set]; try destruct (str_eqb _ _);
      unfold bind; rewrite (api_request_no_token _ _ _ _ w Hno); reflexivity.
  - unfold upvote_post. rewrite (api_request_no_token _ _ _ _ w Hno). reflexivity.
  - unfold create_post, bind. rewrite (api_request_no_token _ _ _ _ w Hno). reflexivity.
Qed.

(** X13: when the request of one of the ten reading tools is answered 2xx
    and [response.json()] returns an object, the tool returns that object
    printed by [json.dumps(..., indent=2)], unless the object's [success]
    is exactly [false], in which case it returns its own failure prefix, as
    listed in [reading_tools], and the object's [error] ([None] when there
    is none). *)
Theorem reading_tools_print_json (a b : pystr) (n : Z) (prefix : pystr) (tool : M pystr)
        (w w' : World) (res : outcome pystr) (req : Request) (r : Response) (d : dict) :
  In (prefix, tool) (reading_tools a b n) ->
  tool w = (res, w') ->
  calls w' = calls w ++ [req] ->
  remote w req = Responds r ->
  is_success r = true ->
  json r = Decoded (VDict d) ->
  (dict_get d (py "success") <> Some (VBool false) -> res = Return (dumps (VDict d))) /\
  (dict_get d (py "success") = Some (VBool false) ->
   res = Return (prefix ++ py ": " ++
                 str (match dict_get d (py "error") with Some e => e | None => VNone end))).
Proof.
  intros Hin Hrun Hcalls Hreply Hstatus Hbody.
  destruct (reading_tools_shape a b n prefix tool Hin) as (m & e & p & ->).
  destruct (tool_issued _ _ _ _ _ _ _ _ _ _ _ (json_or_failure_world prefix) Hrun Hcalls)
    as (hdrs & v & -> & Hsend & Hk).
  rewrite (send_success _ _ _ _ _ _ _ _ _ _ Hsend Hreply Hstatus Hbody) in Hk.
  unfold json_or_failure, bind, lift, get, ret in Hk. split.
  - intros Hs. destruct (dict_get d (py "success")) as [[| [] | | | | |]|];
      try (inversion Hk; reflexivity). exfalso. apply Hs. reflexivity.
  - intros Hs. rewrite Hs in Hk. inversion Hk. reflexivity.
Qed.

(** X15: each of the ten tools of [confirming_tools] reports success
    exactly when the reply's [success] is truthy.  When its request is
    answered 2xx and [response.json()] returns an object, the tool returns
    its own confirmation, as listed there, if the object's [success] is
    truthy, and otherwise (missing or falsy) its own failure prefix and the
    object's [error], which reads "None" when the object has none. *)
Theorem confirming_tools_need_truthy_success (a b c : pystr) (done : value -> pystr)
        (prefix : pystr) (tool : M pystr) (w w' : World) (res : outcome pystr)
        (req : Request) (r : Response) (d : dict) :
  In (done, prefix, tool) (confirming_tools a b c) ->
  tool w = (res, w') ->
  calls w' = calls w ++ [req] ->
  remote w req = Responds r ->
  is_success r = true ->
  json r = Decoded (VDict d) ->
  res =
  Return (if truthy (match dict_get d (py "success") with Some s => s | None => VNone end)
          then done (VDict d)
          else prefix ++ py ": " ++
               str (match dict_get d (py "error") with Some e => e | None => VNone end)).
Proof.
  intros Hin Hrun Hcalls Hreply Hstatus Hbody.
  destruct (confirming_tools_shape a b c done prefix tool Hin) as (m & e & j & ->).
  destruct (tool_issued _ (fun result => done_or_failure (done result) prefix result)
              _ _ _ _ _ _ _ _ _
              (fun v0 w0 => done_or_failure_world (done v0) prefix v0 w0) Hrun Hcalls)
    as (hdrs & v0 & -> & Hsend & Hk).
  rewrite (send_success _ _ _ _ _ _ _ _ _ _ Hsend Hreply Hstatus Hbody) in Hk.
  unfold done_or_failure, bind, lift, get, ret in Hk.
  destruct (truthy _); inversion Hk; reflexivity.
Qed.

Lemma bind_world (A B : Type) (m : M A) (k : A -> M B) (w : World) :
  snd (m w) = w -> (forall a, snd (k a w) = w) -> snd (bind m k w) = w.
Proof.
  intros Hm Hk. unfold bind. destruct (m w) as [[a|e] w1]; cbn [snd] in *; subst w1.
  - apply Hk.
  - reflexivity.
Qed.

Ltac pure_world :=
  intros; cbv beta;
  repeat match goal with
  | |- snd (bind _ _ _) = _ => apply bind_world; [|intros]
  | |- snd (lift _ _) = _ => reflexivity
  | |- snd (ret _ _) = _ => reflexivity
  | |- snd ((if ?b then _ else _) _) = _ => destruct b
  | |- snd (match ?x with _ => _ end _) = _ => destruct x
  end.

(** X16: the "Hint:" line of [create_post].  When its request is answered
    non-2xx with a JSON object, the line shows the object's [hint], and
    reads "Hint: None" when the object has none; the fallback "N/A" appears
    only when the failure record has no [hint] key, as after a transport
    failure. *)
Theorem create_post_hint (title content submolt : pystr) (w w' : World)
        (res : outcome pystr) (req : Request) :
  create_post title content submolt w = (res, w') ->
  calls w' = calls w ++ [req] ->
  (forall r body, remote w req = Responds r -> is_success r = false ->
     json r = Decoded (VDict body) ->
     res = Return (py "Post creation failed: " ++
                   str (match dict_get body (py "error") with
                        | Some e => e
                        | None => VStr (status_error r)
                        end) ++ [10] ++
                   py "Hint: " ++
                   str (match dict_get body (py "hint") with
                        | Some h => h
                        | None => VNone
                        end))) /\
  (forall m, remote w req = Fails m ->
     res = Return (py "Post creation failed: " ++ m ++ [10] ++ py "Hint: N/A")).
Proof.
  intros Hrun Hcalls. unfold create_post in Hrun.
  eapply tool_issued in Hrun; [|pure_world|exact Hcalls].
  destruct Hrun as (hdrs & v & -> & Hsend & Hk).
  rewrite send_eq in Hsend. cbv zeta in Hsend. split.
  - intros r body Hreply Hstatus Hbody. rewrite Hreply, Hstatus, Hbody in Hsend.
    inversion Hsend as [[Hv Hw]]. rewrite <- Hv in Hk.
    inversion Hk. reflexivity.
  - intros m Hreply. rewrite Hreply in Hsend.
    inversion Hsend as [[Hv Hw]]. rewrite <- Hv in Hk.
    inversion Hk. reflexivity.
Qed.

(** X17: [update_my_profile] with nothing to update (each argument absent
    or empty) returns "No updates provided..." in every world, without
    reading the credentials or issuing a request; otherwise any request it
    issues is [PATCH /agents/me] whose body holds exactly the arguments
    that were given non-empty. *)
Theorem update_my_profile_fields (description : option pystr) (metadata : option dict)
        (w : World) :
  ((description = None \/ description = Some []) ->
   (metadata = None \/ metadata = Some []) ->
   update_my_profile description metadata w =
   (Return (py "No updates provided. Specify description and/or metadata."), w)) /\
  (forall res w' req,
     update_my_profile description metadata w = (res, w') ->
     calls w' = calls w ++ [req] ->
     method req = py "PATCH" /\
     url req = MOLTBOOK_API_BASE ++ py "/agents/me" /\
     params req = None /\
     json_data req =
     Some (VDict (match description with
                  | Some (c :: d) => [(py "description", VStr (c :: d))]
                  | _ => []
                  end ++
                  match metadata with
                  | Some (kv :: m) => [(py "metadata", VDict (kv :: m))]
                  | _ => []
                  end))).
Proof.
  split.
  - intros [-> | ->] [-> | ->]; reflexivity.
  - intros res w' req Hrun Hcalls.
    destruct description as [[|c d]|]; destruct metadata as [[|kv m]|];
      unfold update_my_profile in Hrun; cbn [dict_set str_eqb] in Hrun;
      try (inversion Hrun; subst; exfalso; eapply calls_not_extended; exact Hcalls);
      (eapply tool_issued in Hrun;
       [|intros; apply done_or_failure_world|exact Hcalls]);
      destruct Hrun as (hdrs & v & -> & _ & _); repeat split.
Qed.

(** X18: [check_moltbook_status] answers locally, without a request, when
    the store yields no token; with a stored key and a 2xx JSON object
    whose [success] is not [false], it reports the stored [agent_name] and
    [claim_url] and the reply's [status], "unknown" when the reply has
    none. *)
Theorem check_moltbook_status_report (w : World) :
  (no_token w ->
   check_moltbook_status w =
   (Return (py "Not registered on Moltbook yet. Use register_on_moltbook to register."),
    w)) /\
  (forall content creds k res w' req r d,
     cred_file w = Some content ->
     loads content = Some (VDict creds) ->
     dict_get creds (py "api_key") = Some k ->
     truthy k = true ->
     check_moltbook_status w = (res, w') ->
     calls w' = calls w ++ [req] ->
     remote w req = Responds r ->
     is_success r = true ->
     json r = Decoded (VDict d) ->
     dict_get d (py "success") <> Some (VBool false) ->
     res =
     Return (py "Moltbook Status:" ++ [10] ++
             py "- Agent Name: " ++
             str (match dict_get creds (py "agent_name") with
                  | Some x => x
                  | None => VNone
                  end) ++ [10] ++
             py "- Status: " ++
             str (match dict_get d (py "status") with
                  | Some x => x
                  | None => VStr (py "unknown")
                  end) ++ [10] ++
             py "- Claim URL: " ++
             str (match dict_get creds (py "claim_url") with
                  | Some x => x
                  | None => VNone
                  end))).
Proof.
  split.
  - intros Hno. destruct (no_token_load w Hno) as (existing & Hload & Hex).
    unfold check_moltbook_status. unfold bind at 1. rewrite Hload.
    unfold bind at 1.
    destruct Hex as [Hf | (d & -> & Hk)].
    + rewrite Hf. reflexivity.
    + destruct (truthy (VDict d)); [|reflexivity].
      unfold bind at 1. unfold lift at 1. unfold get at 1. cbn [ret]. rewrite Hk.
      reflexivity.
  - intros content creds k res w' req r d Hf Hl Hg Hk Hrun Hcalls Hreply Hstatus Hbody Hs.
    unfold check_moltbook_status in Hrun. unfold bind at 1 in Hrun.
    unfold load_credentials in Hrun. rewrite Hf, Hl in Hrun.
    unfold bind at 1 in Hrun.
    assert (Hd : truthy (VDict creds) = true)
      by (destruct creds; [discriminate Hg | reflexivity]).
    rewrite Hd in Hrun. unfold bind at 1 in Hrun. unfold lift at 1 in Hrun.
    unfold get at 1 in Hrun. rewrite Hg in Hrun. cbn [ret] in Hrun. rewrite Hk in Hrun.
    eapply tool_issued in Hrun; [|pure_world|exact Hcalls].
    destruct Hrun as (hdrs & v & -> & Hsend & Hrun).
    rewrite (send_success _ _ _ _ _ _ _ _ _ _ Hsend Hreply Hstatus Hbody) in Hrun.
    unfold bind, lift, get, ret in Hrun.
    destruct (dict_get d (py "success")) as [[| [] | | | | |]|];
      try (inversion Hrun; reflexivity).
    exfalso. apply Hs. reflexivity.
Qed.

Lemma api_request_success_result (method endpoint : pystr) (json_data : option value)
      (params : option dict) (require_auth : bool) (w w' : World) (res : outcome value)
      (req : Request) (r : Response) (v : value) :
  api_request method endpoint json_data params require_auth w = (res, w') ->
  calls w' = calls w ++ [req] ->
  remote w req = Responds r ->
  is_success r = true ->
  json r = Decoded v ->
  res = Return v.
Proof.
  intros Hrun Hcalls Hreply Hstatus Hbody.
  destruct (api_request_issued _ _ _ _ _ _ _ _ _ Hrun Hcalls) as (hdrs & -> & Hsend).
  rewrite send_eq in Hsend. cbv zeta in Hsend.
  rewrite Hreply, Hstatus, Hbody in Hsend. inversion Hsend. reflexivity.
Qed.

Lemma upvote_post_unfold (post_id : pystr) (w : World) :
  upvote_post post_id w =
  (match fst (api_request (py "POST") (py "/posts/" ++ post_id ++ py "/upvote")
                          None None true w) with
   | Raise e => Escapes e
   | Return (VDict d) =>
     if truthy (match dict_get d (py "success") with Some x => x | None => VNone end)
     then upvote_message d
     else Says (VStr (py "Upvote failed: " ++
                      str (match dict_get d (py "error") with
                           | Some x => x
                           | None => VNone
                           end)))
   | Return _ => Escapes AttributeError
   end,
   snd (api_request (py "POST") (py "/posts/" ++ post_id ++ py "/upvote")
                    None None true w)).
Proof.
  unfold upvote_post.
  destruct (api_request _ _ _ _ _ w) as [[result|e] w1]; [|reflexivity].
  destruct result; try reflexivity.
  cbn [fst snd]. destruct (truthy _); reflexivity.
Qed.

(** X19: with a non-empty string [k] stored as [api_key],
    [upvote_post(post_id)] issues exactly one request: [POST] to
    [/posts/<post_id>/upvote] under the base URL, without body or query
    parameters, with header [Authorization: Bearer k]; the post id goes
    into the path as given. *)
Theorem upvote_post_request (post_id : pystr) (w : World) (k : pystr) :
  has_key w k ->
  calls (snd (upvote_post post_id w)) =
  calls w ++
  [{| method := py "POST";
      url := MOLTBOOK_API_BASE ++ py "/posts/" ++ post_id ++ py "/upvote";
      json_data := None; params := None;
      headers := [(py "Content-Type", VStr (py "application/json"));
                  (py "Authorization", VStr (py "Bearer " ++ k))];
      timeout := 30 |}].
Proof.
  intros H. rewrite upvote_post_unfold. cbn [snd].
  rewrite (api_request_has_key _ _ _ _ _ _ H), send_eq. reflexivity.
Qed.

(** X20: the message of a successful upvote.  When the request of
    [upvote_post] is answered 2xx with an object whose [success] is truthy,
    whose [message] is a string (or absent, then "Upvoted!"), whose
    [author] is a non-empty object and whose [suggestion] is a non-empty
    string, the tool returns the message, a line "Author: <name>" and the
    suggestion on a third line.  When [message] is present but neither a
    string nor a list, adding the author line raises [TypeError]. *)
Theorem upvote_post_message (post_id : pystr) (w w' : World) (out : upvote_outcome)
        (req : Request) (r : Response) (d au : dict) :
  upvote_post post_id w = (out, w') ->
  calls w' = calls w ++ [req] ->
  remote w req = Responds r ->
  is_success r = true ->
  json r = Decoded (VDict d) ->
  truthy (match dict_get d (py "success") with Some x => x | None => VNone end) = true ->
  dict_get d (py "author") = Some (VDict au) ->
  au <> [] ->
  (forall m s,
     (dict_get d (py "message") = Some (VStr m) \/
      (dict_get d (py "message") = None /\ m = py "Upvoted!")) ->
     dict_get d (py "suggestion") = Some (VStr s) -> s <> [] ->
     out = Says (VStr (m ++ [10] ++ py "Author: " ++
                       str (match dict_get au (py "name") with
                            | Some x => x
                            | None => VNone
                            end) ++ [10] ++ s))) /\
  (forall x,
     dict_get d (py "message") = Some x ->
     (forall m, x <> VStr m) -> (forall l, x <> VList l) ->
     out = TypeError).
Proof.
  intros Hrun Hcalls Hreply Hstatus Hbody Hs Hau Hne.
  rewrite upvote_post_unfold in Hrun.
  destruct (api_request (py "POST") (py "/posts/" ++ post_id ++ py "/upvote")
                        None None true w) as [res w1] eqn:Hreq.
  cbn [fst snd] in Hrun. inversion Hrun as [[Hout Hw]]. subst w1. clear Hrun.
  rewrite (api_request_success_result _ _ _ _ _ _ _ _ _ _ _ Hreq Hcalls Hreply Hstatus Hbody).
  rewrite Hs. unfold upvote_message. cbv zeta. rewrite Hau.
  assert (Ht : truthy (VDict au) = true) by (destruct au; [contradiction | reflexivity]).
  rewrite Ht. cbn [get]. split.
  - intros m s Hm Hsug Hsne. rewrite Hsug.
    assert (Hts : truthy (VStr s) = true) by (destruct s; [contradiction | reflexivity]).
    rewrite Hts.
    destruct Hm as [Hm | [Hm ->]]; rewrite Hm; cbn [iadd_str str];
      rewrite <- !app_assoc; reflexivity.
  - intros x Hm Hnot_str Hnot_list. rewrite Hm.
    destruct x; try reflexivity.
    + exfalso. eapply Hnot_str. reflexivity.
    + exfalso. eapply Hnot_list. reflexivity.
Qed.

(** X21: the reading tools with arguments pass them on as given.  Any
    request issued by [get_comments], [search_moltbook], [get_user_profile],
    [get_submolt_feed] or [get_my_feed] is a [GET] without body, to the
    path built from the identifier as given, whose query parameters are
    exactly the tool's arguments under the names [sort], [q], [name] and
    [limit]. *)
Theorem reading_tools_forward_parameters (w w' : World) (req : Request) :
  calls w' = calls w ++ [req] ->
  (forall post_id sort res, get_comments post_id sort w = (res, w') ->
     method req = py "GET" /\
     url req = MOLTBOOK_API_BASE ++ py "/posts/" ++ post_id ++ py "/comments" /\
     json_data req = None /\
     params req = Some [(py "sort", VStr sort)]) /\
  (forall query limit res, search_moltbook query limit w = (res, w') ->
     method req = py "GET" /\
     url req = MOLTBOOK_API_BASE ++ py "/search" /\
     json_data req = None /\
     params req = Some [(py "q", VStr query); (py "limit", VInt limit)]) /\
  (forall username res, get_user_profile username w = (res, w') ->
     method req = py "GET" /\
     url req = MOLTBOOK_API_BASE ++ py "/agents/profile" /\
     json_data req = None /\
     params req = Some [(py "name", VStr username)]) /\
  (forall name sort limit res, get_submolt_feed name sort limit w = (res, w') ->
     method req = py "GET" /\
     url req = MOLTBOOK_API_BASE ++ py "/submolts/" ++ name ++ py "/feed" /\
     json_data req = None /\
     params req = Some [(py "sort", VStr sort); (py "limit", VInt limit)]) /\
  (forall sort limit res, get_my_feed sort limit w = (res, w') ->
     method req = py "GET" /\
     url req = MOLTBOOK_API_BASE ++ py "/feed" /\
     json_data req = None /\
     params req = Some [(py "sort", VStr sort); (py "limit", VInt limit)]).
Proof.
  intros Hcalls. repeat split; intros.
  all: match goal with
       | H : _ = (_, _) |- _ =>
         first [ unfold get_comments in H | unfold search_moltbook in H
               | unfold get_user_profile in H | unfold get_submolt_feed in H
               | unfold get_my_feed in H ];
         eapply tool_issued in H; [|intros; apply json_or_failure_world|exact Hcalls];
         destruct H as (hdrs & v & -> & _ & _); reflexivity
       end.
Qed.

(** X22: the writing tools send their arguments as the JSON body, as given.
    Any request issued by [create_post], [create_link_post], [add_comment],
    [reply_to_comment] or [create_submolt] is a [POST] without query
    parameters whose body holds exactly the tool's arguments; a reply goes
    to the post's comments path and names its parent only in the body. *)
Theorem writing_tools_forward_body (w w' : World) (req : Request) :
  calls w' = calls w ++ [req] ->
  (forall title content submolt res, create_post title content submolt w = (res, w') ->
     method req = py "POST" /\ url req = MOLTBOOK_API_BASE ++ py "/posts" /\
     params req = None /\
     json_data req = Some (VDict [(py "submolt", VStr submolt); (py "title", VStr title);
                                  (py "content", VStr content)])) /\
  (forall title link submolt res, create_link_post title link submolt w = (res, w') ->
     method req = py "POST" /\ url req = MOLTBOOK_API_BASE ++ py "/posts" /\
     params req = None /\
     json_data req = Some (VDict [(py "submolt", VStr submolt); (py "title", VStr title);
                                  (py "url", VStr link)])) /\
  (forall post_id content res, add_comment post_id content w = (res, w') ->
     method req = py "POST" /\
     url req = MOLTBOOK_API_BASE ++ py "/posts/" ++ post_id ++ py "/comments" /\
     params req = None /\
     json_data req = Some (VDict [(py "content", VStr content)])) /\
  (forall post_id parent content res,
     reply_to_comment post_id parent content w = (res, w') ->
     method req = py "POST" /\
     url req = MOLTBOOK_API_BASE ++ py "/posts/" ++ post_id ++ py "/comments" /\
     params req = None /\
     json_data req = Some (VDict [(py "content", VStr content);
                                  (py "parent_id", VStr parent)])) /\
  (forall name display_name description res,
     create_submolt name display_name description w = (res, w') ->
     method req = py "POST" /\ url req = MOLTBOOK_API_BASE ++ py "/submolts" /\
     params req = None /\
     json_data req = Some (VDict [(py "name", VStr name);
                                  (py "display_name", VStr display_name);
                                  (py "description", VStr description)])).
Proof.
  intros Hcalls. repeat split; intros.
  all: match goal with
       | H : _ = (_, _) |- _ =>
         first [ unfold create_post in H | unfold create_link_post in H
               | unfold add_comment in H | unfold reply_to_comment in H
               | unfold create_submolt in H ];
         eapply tool_issued in H; [|pure_world; apply done_or_failure_world|exact Hcalls];
         destruct H as (hdrs & v & -> & _ & _); reflexivity
       end.
Qed.

(** ** What the tools that return text have in common *)

Lemma get_non_object (v : value) (key : pystr) (default : value) :
  (forall d, v <> VDict d) -> get v key default = Raise AttributeError.
Proof.
  intros Hv. destruct v; try reflexivity. exfalso. eapply Hv. reflexivity.
Qed.

Ltac raises_on_non_object :=
  let v := fresh "v" in
  let w0 := fresh "w0" in
  let Hv := fresh "Hv" in
  intros v w0 Hv; unfold json_or_failure, done_or_failure, bind, lift;
  rewrite (get_non_object v _ _ Hv); reflexivity.

(** A tool of [text_tools] either answers without a request, or calls
    [api_request] once, with authentication, and then formats the result
    without touching the world, starting with [result.get("success")]. *)
Lemma text_tools_shape (a b c : pystr) (n : Z) (description : option pystr)
      (metadata : option dict) (tool : M pystr) (w : World) :
  In tool (text_tools a b c n description metadata) ->
  (exists o, tool w = (o, w)) \/
  exists method endpoint json_data params (k : value -> M pystr),
    (forall v w0, snd (k v w0) = w0) /\
    (forall v w0, (forall d, v <> VDict d) -> fst (k v w0) = Raise AttributeError) /\
    tool w = (result <- api_request method endpoint json_data params true ;; k result) w.
Proof.
  intros Hin. unfold text_tools in Hin.
  apply in_app_or in Hin. destruct Hin as [Hin | Hin];
    [|apply in_app_or in Hin; destruct Hin as [Hin | Hin]].
  - apply in_map_iff in Hin. destruct Hin as ([prefix t] & Heq & Hin).
    cbn [snd] in Heq. subst t.
    destruct (reading_tools_shape a b n prefix tool Hin) as (m & e & p & ->).
    right. exists m, e, None, p, (json_or_failure prefix).
    split; [apply json_or_failure_world|]. split; [raises_on_non_object | reflexivity].
  - apply in_map_iff in Hin. destruct Hin as ([[done prefix] t] & Heq & Hin).
    cbn [snd] in Heq. subst t.
    destruct (confirming_tools_shape a b c done prefix tool Hin) as (m & e & j & ->).
    right. exists m, e, j, None, (fun result => done_or_failure (done result) prefix result).
    split; [intros; apply done_or_failure_world|].
    split; [raises_on_non_object | reflexivity].
  - cbn [In] in Hin. destruct Hin as [<- | [<- | [<- | []]]].
    + right. unfold create_post. do 5 eexists.
      (split; [|split]); [ | | reflexivity]; [pure_world | raises_on_non_object].
    + unfold update_my_profile.
      destruct description as [[|x d]|]; destruct metadata as [[|kv m]|];
        cbn [dict_set]; try destruct (str_eqb _ _);
        first [ left; eexists; reflexivity
              | right; do 5 eexists;
                (split; [|split]); [ | | reflexivity];
                [intros; apply done_or_failure_world | raises_on_non_object] ].
    + remember (check_moltbook_status w) as run eqn:Hrun.
      unfold check_moltbook_status in Hrun. unfold bind at 1 in Hrun.
      pose proof (load_credentials_world w) as Hw.
      destruct (load_credentials w) as [[credentials|e] w1]; cbn [snd] in Hw; subst w1;
        [|left; eexists; exact Hrun].
      unfold bind at 1 in Hrun. destruct (truthy credentials).
      * unfold bind at 1 in Hrun. unfold lift at 1 in Hrun.
        destruct (get credentials (py "api_key") VNone) as [key|e];
          [|left; eexists; exact Hrun].
        cbn [ret] in Hrun. destruct (truthy key); [|left; eexists; exact Hrun].
        right. rewrite Hrun. do 5 eexists.
        (split; [|split]); [ | | reflexivity]; [pure_world | raises_on_non_object].
      * left. eexists. exact Hrun.
Qed.

Lemma api_request_one_attempt (method endpoint : pystr) (json_data : option value)
      (params : option dict) (require_auth : bool) (w : World) :
  at_most_one_request w (snd (api_request method endpoint json_data params require_auth w)).
Proof.
  unfold at_most_one_request.
  destruct (api_request_world method endpoint json_data params require_auth w)
    as [H | [hdrs H]]; rewrite H.
  - split; [reflexivity | left; reflexivity].
  - split; [reflexivity | right; eexists; reflexivity].
Qed.

Lemma bind_api_request_world (A : Type) (k : value -> M A) (method endpoint : pystr)
      (json_data : option value) (params : option dict) (require_auth : bool) (w : World) :
  (forall v w0, snd (k v w0) = w0) ->
  snd ((result <- api_request method endpoint json_data params require_auth ;; k result) w) =
  snd (api_request method endpoint json_data params require_auth w).
Proof.
  intros Hk. unfold bind.
  destruct (api_request method endpoint json_data params require_auth w) as [[v|e] w1];
    [apply Hk | reflexivity].
Qed.

(** X14: a 2xx reply that is JSON but not an object makes the tools raise.
    When the request of a tool of [text_tools] (the ten reading tools, the
    ten confirming tools, [create_post], [update_my_profile],
    [check_moltbook_status]), of one of the three tools of [voting_tools],
    or of [upvote_post] is answered 2xx and [response.json()] returns
    something that is not an object (an array, a string, a number,
    [null]), the tool raises [AttributeError]. *)
Theorem tools_non_object_reply_raise (a b c : pystr) (n : Z)
        (description : option pystr) (metadata : option dict) (w w' : World)
        (req : Request) (r : Response) (v : value) :
  calls w' = calls w ++ [req] ->
  remote w req = Responds r ->
  is_success r = true ->
  json r = Decoded v ->
  (forall d, v <> VDict d) ->
  (forall tool res, In tool (text_tools a b c n description metadata) ->
     tool w = (res, w') -> res = Raise AttributeError) /\
  (forall default prefix tool res, In (default, prefix, tool) (voting_tools a) ->
     tool w = (res, w') -> res = Raise AttributeError) /\
  (forall out, upvote_post a w = (out, w') -> out = Escapes AttributeError).
Proof.
  intros Hcalls Hreply Hstatus Hbody Hv.
  split; [|split].
  - intros tool res Hin Hrun.
    destruct (text_tools_shape a b c n description metadata tool w Hin)
      as [[o Ho] | (m & e & j & p & k & Hpure & Hraise & Htool)].
    + rewrite Ho in Hrun. inversion Hrun; subst.
      exfalso. eapply calls_not_extended. exact Hcalls.
    + rewrite Htool in Hrun.
      destruct (tool_issued _ k _ _ _ _ _ _ _ _ _ Hpure Hrun Hcalls)
        as (hdrs & v0 & -> & Hsend & Hk).
      rewrite (send_success _ _ _ _ _ _ _ _ _ _ Hsend Hreply Hstatus Hbody) in Hk.
      pose proof (Hraise v w' Hv) as Hres. rewrite Hk in Hres. exact Hres.
  - intros default prefix tool res Hin Hrun.
    destruct (voting_tools_shape a default prefix tool Hin) as (e & ->).
    destruct (tool_issued _ _ _ _ _ _ _ _ _ _ _
                (message_or_failure_world default prefix) Hrun Hcalls)
      as (hdrs & v0 & -> & Hsend & Hk).
    rewrite (send_success _ _ _ _ _ _ _ _ _ _ Hsend Hreply Hstatus Hbody) in Hk.
    unfold message_or_failure, bind, lift in Hk.
    rewrite (get_non_object v _ _ Hv) in Hk. inversion Hk. reflexivity.
  - intros out Hrun. rewrite upvote_post_unfold in Hrun.
    destruct (api_request (py "POST") (py "/posts/" ++ a ++ py "/upvote") None None true w)
      as [res1 w1] eqn:Hreq.
    cbn [fst snd] in Hrun. injection Hrun as Hout Hw. subst w1.
    rewrite (api_request_success_result _ _ _ _ _ _ _ _ _ _ _ Hreq Hcalls Hreply Hstatus Hbody)
      in Hout.
    rewrite <- Hout. destruct v; try reflexivity. exfalso. eapply Hv. reflexivity.
Qed.

(** X23: each tool of [text_tools] (the ten reading tools, the ten
    confirming tools, [create_post], [update_my_profile],
    [check_moltbook_status]), each of the three tools of [voting_tools] and
    [upvote_post] makes at most one request and never writes the
    credential file: after a run the file is as before and the call log is
    unchanged or longer by one request. *)
Theorem tools_single_request (a b c : pystr) (n : Z) (description : option pystr)
        (metadata : option dict) (w : World) :
  (forall tool, In tool (text_tools a b c n description metadata) ->
     at_most_one_request w (snd (tool w))) /\
  (forall default prefix tool, In (default, prefix, tool) (voting_tools a) ->
     at_most_one_request w (snd (tool w))) /\
  at_most_one_request w (snd (upvote_post a w)).
Proof.
  split; [|split].
  - intros tool Hin.
    destruct (text_tools_shape a b c n description metadata tool w Hin)
      as [[o Ho] | (m & e & j & p & k & Hpure & _ & Htool)].
    + rewrite Ho. split; [reflexivity | left; reflexivity].
    + rewrite Htool, (bind_api_request_world _ k _ _ _ _ _ _ Hpure).
      apply api_request_one_attempt.
  - intros default prefix tool Hin.
    destruct (voting_tools_shape a default prefix tool Hin) as (e & ->).
    rewrite (bind_api_request_world _ _ _ _ _ _ _ _
               (message_or_failure_world default prefix)).
    apply api_request_one_attempt.
  - rewrite upvote_post_unfold. cbn [snd]. apply api_request_one_attempt.
Qed.

(** X24: a voting tool hands back the reply's [message] as it is.  When
    its request is answered 2xx and [response.json()] returns an object
    whose [success] is truthy, [downvote_post], [upvote_comment] and
    [downvote_comment] return the object's [message], of whatever JSON
    type, and, only when the object has no [message], their own default
    text as listed in [voting_tools]: "Downvoted!", "Comment upvoted!",
    "Comment downvoted!". *)
Theorem voting_tools_message (a : pystr) (default prefix : pystr) (tool : M value)
        (w w' : World) (res : outcome value) (req : Request) (r : Response) (d : dict) :
  In (default, prefix, tool) (voting_tools a) ->
  tool w = (res, w') ->
  calls w' = calls w ++ [req] ->
  remote w req = Responds r ->
  is_success r = true ->
  json r = Decoded (VDict d) ->
  truthy (match dict_get d (py "success") with Some s => s | None => VNone end) = true ->
  (forall m, dict_get d (py "message") = Some m -> res = Return m) /\
  (dict_get d (py "message") = None -> res = Return (VStr default)).
Proof.
  intros Hin Hrun Hcalls Hreply Hstatus Hbody Hs.
  destruct (voting_tools_shape a default prefix tool Hin) as (e & ->).
  destruct (tool_issued _ _ _ _ _ _ _ _ _ _ _
              (message_or_failure_world default prefix) Hrun Hcalls)
    as (hdrs & v0 & -> & Hsend & Hk).
  rewrite (send_success _ _ _ _ _ _ _ _ _ _ Hsend Hreply Hstatus Hbody) in Hk.
  unfold message_or_failure, bind, lift, get, ret in Hk. rewrite Hs in Hk. split.
  - intros m Hm. rewrite Hm in Hk. inversion Hk. reflexivity.
  - intros Hm. rewrite Hm in Hk. inversion Hk. reflexivity.
Qed.

End Moltbook.

(** * Instances

    The properties above at concrete worlds, with floats kept as literals. *)

Arguments VNone {float}.
Arguments VBool {float} b.
Arguments VInt {float} z.
Arguments VFloat {float} f.
Arguments VStr {float} s.
Arguments VList {float} l.
Arguments VDict {float} d.
Arguments dict_get {float} d k.
Arguments build_request {float} method endpoint json_data params headers.
Arguments fixed_world {float} file answer.
Arguments issued {float} w req.
Arguments cred_file {float} w.
Arguments remote {float} w _.
Arguments calls {float} w.
Arguments credentials_dict {float} r.
Arguments bind {float A B} m k _.
Arguments Responds {float} r.
Arguments Fails {float} m.
Arguments Decoded {float} v.
Arguments Undecodable {float} m.
Arguments status_code {float} r.
Arguments text {float} r.
Arguments json {float} r.
Arguments status_error {float} r.
Arguments is_success {float} r.

Abbreviation ex_loads := (loads literal_float literal_float_of_literal).
Abbreviation ex_dumps := (dumps literal_float literal_floatstr).
Abbreviation ex_load_credentials := (load_credentials literal_float literal_float_of_literal).
Abbreviation ex_save_credentials := (save_credentials literal_float literal_floatstr).
Abbreviation ex_get_auth_headers :=
  (get_auth_headers literal_float literal_float_of_literal literal_floatstr
                    literal_float_bool literal_str_repr).
Abbreviation ex_api_request :=
  (api_request literal_float literal_float_of_literal literal_floatstr
               literal_float_bool literal_str_repr).
Abbreviation ex_register_on_moltbook :=
  (register_on_moltbook literal_float literal_float_of_literal literal_floatstr
                        literal_floatstr literal_float_bool literal_str_repr
                        literal_home).
Abbreviation ex_get_feed :=
  (get_feed literal_float literal_float_of_literal literal_floatstr
            literal_floatstr literal_float_bool literal_str_repr).

(** Responses with an ASCII body, for which [response.json()] is
    [json.loads] of the text; the decoder's message is the one for a body
    that does not start a JSON value. *)
Abbreviation ok_response status body :=
  (text_response literal_float literal_float_of_literal status body
     (py "Expecting value: line 1 column 1 (char 0)") []).
Abbreviation error_response status body message :=
  (text_response literal_float literal_float_of_literal status body
     (py "Expecting value: line 1 column 1 (char 0)") message).
Abbreviation more_information code :=
  ([10] ++
   py "For more information check: https://developer.mozilla.org/en-US/docs/Web/HTTP/Status/" ++
   py code).

Abbreviation content_type := [(py "Content-Type", VStr (py "application/json"))].

(** No credential file; the service is unreachable. *)
Abbreviation unregistered_world :=
  (fixed_world (float := literal_float) None (Fails (py "[Errno 111] Connection refused"))).

(** A credential file that is not JSON. *)
Abbreviation corrupt_world :=
  (fixed_world (float := literal_float) (Some (py "not json")) (Fails (py "unreachable"))).

Lemma api_request_unregistered_witness :
  cred_file unregistered_world = None /\
  ex_api_request (py "GET") (py "/agents/me") None None true unregistered_world =
  (Return (VDict [(py "success", VBool false);
                  (py "error",
                   VStr (py "Not registered on Moltbook. Use register_on_moltbook first."))]),
   unregistered_world).
Proof.
  split; [reflexivity|].
  apply api_request_unregistered. left. reflexivity.
Defined.

Lemma load_credentials_missing_or_malformed_witness :
  ex_load_credentials unregistered_world = (Return VNone, unregistered_world) /\
  ex_loads (py "not json") = None /\
  ex_load_credentials corrupt_world = (Raise JSONDecodeError, corrupt_world).
Proof.
  split; [|split].
  - apply (proj1 (load_credentials_missing_or_malformed
                    literal_float literal_float_of_literal unregistered_world)).
    reflexivity.
  - reflexivity.
  - apply (proj2 (load_credentials_missing_or_malformed
                    literal_float literal_float_of_literal corrupt_world)
                 (py "not json")); reflexivity.
Defined.

(** C2, counterexample: a credential file that exists and holds text that
    is not JSON makes [load_credentials] raise; it does not return [None]. *)
Lemma load_credentials_malformed_raises :
  cred_file corrupt_world = Some (py "not json") /\
  ex_loads (py "not json") = None /\
  fst (ex_load_credentials corrupt_world) = Raise JSONDecodeError /\
  fst (ex_load_credentials corrupt_world) <> Return VNone.
Proof.
  split; [reflexivity|]. split; [reflexivity|]. split; [reflexivity|].
  discriminate.
Qed.

(** The service rejects every request with 404 and a JSON error object. *)
Abbreviation not_found_body :=
  [(py "error", VStr (float := literal_float) (py "Post not found"));
   (py "hint", VStr (py "Check the post id"))].

Abbreviation not_found_response :=
  (error_response 404 (ex_dumps (VDict not_found_body))
     (py "Client error '404 Not Found' for url 'https://www.moltbook.com/api/v1/posts/p1'" ++
      more_information "404")).

Abbreviation not_found_world :=
  (fixed_world (float := literal_float) None (Responds not_found_response)).

Lemma api_request_http_error_json_witness :
  json not_found_response = Decoded (VDict not_found_body) /\
  fst (ex_api_request (py "GET") (py "/posts/p1") None None false not_found_world) =
  Return (VDict [(py "success", VBool false);
                 (py "error", VStr (py "Post not found"));
                 (py "hint", VStr (py "Check the post id"))]).
Proof.
  split; [reflexivity|].
  apply (api_request_http_error_json
           literal_float literal_float_of_literal literal_floatstr literal_float_bool
           literal_str_repr
           (py "GET") (py "/posts/p1") None None false not_found_world
           (issued not_found_world
                   (build_request (py "GET") (py "/posts/p1") None None content_type))
           _
           (build_request (py "GET") (py "/posts/p1") None None content_type)
           not_found_response
           not_found_body (VStr (py "Post not found")));
    reflexivity.
Defined.

(** The service answers 502 with a body that is not JSON. *)
Abbreviation bad_gateway_response :=
  (error_response 502 (py "Bad Gateway")
     (py "Server error '502 Bad Gateway' for url 'https://www.moltbook.com/api/v1/posts/p1'" ++
      more_information "502")).

Abbreviation bad_gateway_world :=
  (fixed_world (float := literal_float) None (Responds bad_gateway_response)).

Lemma api_request_http_error_text_witness :
  json bad_gateway_response =
    Undecodable (py "Expecting value: line 1 column 1 (char 0)") /\
  (exists code error,
     fst (ex_api_request (py "GET") (py "/posts/p1") None None false bad_gateway_world) =
     Return (VDict [(py "success", VBool false); (py "error", VStr error)]) /\
     error = code ++ [32; 45; 32] ++ py "Bad Gateway" /\
     parse_int code = 502%Z /\
     ((100 <= 502 <= 999)%Z -> code = py "502") /\
     contains error code = true /\
     contains error (py "Bad Gateway") = true) /\
  fst (ex_api_request (py "GET") (py "/posts/p1") None None false bad_gateway_world) =
  Return (VDict [(py "success", VBool false);
                 (py "error", VStr (py "502 - Bad Gateway"))]).
Proof.
  split; [reflexivity|]. split; [|reflexivity].
  apply (api_request_http_error_text
           literal_float literal_float_of_literal literal_floatstr literal_float_bool
           literal_str_repr
           (py "GET") (py "/posts/p1") None None false bad_gateway_world
           (issued bad_gateway_world
                   (build_request (py "GET") (py "/posts/p1") None None content_type))
           _
           (build_request (py "GET") (py "/posts/p1") None None content_type)
           bad_gateway_response
           (py "Expecting value: line 1 column 1 (char 0)"));
    reflexivity.
Defined.

(** A 2xx answer whose body is not JSON. *)
Abbreviation garbled_world :=
  (fixed_world (float := literal_float) None
     (Responds (ok_response 200 (py "<html>")))).

Lemma api_request_transport_failure_witness :
  fst (ex_api_request (py "POST") (py "/posts") None None false unregistered_world) =
  Return (VDict [(py "success", VBool false);
                 (py "error", VStr (py "[Errno 111] Connection refused"))]) /\
  fst (ex_api_request (py "POST") (py "/posts") None None false garbled_world) =
  Return (VDict [(py "success", VBool false);
                 (py "error", VStr (py "Expecting value: line 1 column 1 (char 0)"))]).
Proof.
  split.
  - apply (proj1 (api_request_transport_failure
           literal_float literal_float_of_literal literal_floatstr literal_float_bool
           literal_str_repr
           (py "POST") (py "/posts") None None false unregistered_world
           (issued unregistered_world
                   (build_request (py "POST") (py "/posts") None None content_type))
           _
           (build_request (py "POST") (py "/posts") None None content_type)
           eq_refl eq_refl)).
    reflexivity.
  - apply (proj2 (api_request_transport_failure
           literal_float literal_float_of_literal literal_floatstr literal_float_bool
           literal_str_repr
           (py "POST") (py "/posts") None None false garbled_world
           (issued garbled_world
                   (build_request (py "POST") (py "/posts") None None content_type))
           _
           (build_request (py "POST") (py "/posts") None None content_type)
           eq_refl eq_refl)
           (ok_response 200 (py "<html>"))); reflexivity.
Defined.

(** The service answers 500 with a JSON object that has neither [error] nor
    [hint]; the error shown is the message [raise_for_status] gives its
    exception. *)
Abbreviation server_error_response :=
  (error_response 500 (ex_dumps (VDict [(py "message", VStr (py "boom"))]))
     (py "Server error '500 Internal Server Error' for url 'https://www.moltbook.com/api/v1/feed'" ++
      more_information "500")).

Abbreviation server_error_world :=
  (fixed_world (float := literal_float) None (Responds server_error_response)).

Lemma api_request_http_error_object_witness :
  exists record,
    fst (ex_api_request (py "GET") (py "/feed") None None false server_error_world) =
    Return (VDict record) /\
    dict_get record (py "success") = Some (VBool false) /\
    dict_get record (py "hint") = Some VNone /\
    dict_get record (py "error") =
    Some (VStr (py "Server error '500 Internal Server Error' for url 'https://www.moltbook.com/api/v1/feed'" ++
                more_information "500")).
Proof.
  destruct (api_request_http_error_object
           literal_float literal_float_of_literal literal_floatstr literal_float_bool
           literal_str_repr
           (py "GET") (py "/feed") None None false server_error_world
           (issued server_error_world
                   (build_request (py "GET") (py "/feed") None None content_type))
           (fst (ex_api_request (py "GET") (py "/feed") None None false server_error_world))
           (build_request (py "GET") (py "/feed") None None content_type)
           server_error_response
           [(py "message", VStr (py "boom"))]
           eq_refl eq_refl eq_refl eq_refl eq_refl)
    as (record & Hres & Hsuccess & Hhint & Herror).
  exists record. split; [exact Hres|]. split; [exact Hsuccess|].
  split; [exact Hhint | exact (Herror eq_refl)].
Defined.

(** C10, counterexample: for a non-2xx response whose body is the JSON
    array [[]], [e.response.json()] returns the empty list, so the body
    parses as JSON; yet the failure record is the one built from the status
    and the text, and it has no [hint] key. *)
Abbreviation array_error_response :=
  (error_response 500 (py "[]")
     (py "Server error '500 Internal Server Error' for url 'https://www.moltbook.com/api/v1/feed'" ++
      more_information "500")).

Lemma api_request_http_error_array_no_hint :
  json array_error_response = Decoded (VList []) /\
  is_success array_error_response = false /\
  fst (ex_api_request (py "GET") (py "/feed") None None false
         (fixed_world None (Responds array_error_response))) =
  Return (VDict [(py "success", VBool false); (py "error", VStr (py "500 - []"))]) /\
  dict_get [(py "success", VBool (float := literal_float) false);
            (py "error", VStr (py "500 - []"))] (py "hint") = None.
Proof. repeat split; reflexivity. Qed.

Abbreviation fido_credentials :=
  {| api_key := py "k1"; agent_name := py "Fido";
     claim_url := py "https://www.moltbook.com/claim/abc";
     verification_code := py "123" |}.

Lemma credentials_round_trip_witness :
  ex_loads (ex_dumps (credentials_dict fido_credentials)) =
    Some (credentials_dict fido_credentials) /\
  bind (ex_save_credentials (credentials_dict fido_credentials))
       (fun _ => ex_load_credentials) unregistered_world =
  (Return (credentials_dict fido_credentials),
   {| cred_file := Some (ex_dumps (credentials_dict fido_credentials));
      remote := remote unregistered_world; calls := calls unregistered_world |}).
Proof.
  split; [reflexivity|].
  apply (credentials_round_trip
           literal_float literal_float_of_literal literal_floatstr literal_floatstr
           literal_float_bool literal_str_repr literal_home
           fido_credentials unregistered_world);
    apply plain_text_ascii; reflexivity.
Defined.

(** C6, counterexample: a record whose [api_key] is the two code points
    U+D83D U+DE00 (a valid [str]) is saved as the escapes of a surrogate
    pair, and loaded back as the single code point U+1F600: the record read
    differs from the record saved. *)
Lemma credentials_round_trip_surrogate_pair :
  valid_str [55357; 56832] /\
  fst (bind (ex_save_credentials
               (credentials_dict
                  {| api_key := [55357; 56832]; agent_name := py "Fido";
                     claim_url := py "https://www.moltbook.com/claim/abc";
                     verification_code := py "123" |}))
            (fun _ => ex_load_credentials) unregistered_world) =
  Return (credentials_dict
            {| api_key := [128512]; agent_name := py "Fido";
               claim_url := py "https://www.moltbook.com/claim/abc";
               verification_code := py "123" |}) /\
  fst (bind (ex_save_credentials
               (credentials_dict
                  {| api_key := [55357; 56832]; agent_name := py "Fido";
                     claim_url := py "https://www.moltbook.com/claim/abc";
                     verification_code := py "123" |}))
            (fun _ => ex_load_credentials) unregistered_world) <>
  Return (credentials_dict
            {| api_key := [55357; 56832]; agent_name := py "Fido";
               claim_url := py "https://www.moltbook.com/claim/abc";
               verification_code := py "123" |}).
Proof.
  split; [|split].
  - repeat constructor.
  - reflexivity.
  - discriminate.
Qed.

(** The registration endpoint of the scenario. *)
Abbreviation fido_claim_url := (py "https://www.moltbook.com/claim/abc").

Abbreviation fido_response :=
  (ok_response 200
     (ex_dumps (VDict [(py "agent",
                       VDict [(py "api_key", VStr (py "k1"));
                              (py "claim_url", VStr fido_claim_url);
                              (py "verification_code", VStr (py "123"))])]))).

Abbreviation registration_world :=
  (fixed_world (float := literal_float) None (Responds fido_response)).

Lemma register_fido_witness :
  exists display w',
    ex_register_on_moltbook (py "Fido") (py "a good boy") registration_world =
    (Return display, w') /\
    cred_file w' = Some (ex_dumps (credentials_dict fido_credentials)) /\
    ex_load_credentials w' = (Return (credentials_dict fido_credentials), w') /\
    contains display (py "Fido") = true /\
    contains display fido_claim_url = true.
Proof.
  destruct (register_fido
              literal_float literal_float_of_literal literal_floatstr literal_floatstr
              literal_float_bool literal_str_repr literal_home
              registration_world fido_response fido_claim_url
              eq_refl eq_refl eq_refl eq_refl)
    as (display & w' & Hrun & Hfile & _ & Hload & Hname & Hurl).
  exists display, w'. split; [exact Hrun|]. split; [exact Hfile|].
  split; [|split; [exact Hname | exact Hurl]].
  apply Hload. apply plain_text_ascii. reflexivity.
Defined.

(** A stored record with an API key. *)
Abbreviation registered_world :=
  (fixed_world (float := literal_float)
     (Some (ex_dumps (credentials_dict fido_credentials)))
     (Responds (ok_response 200 (py "{}")))).

Lemma register_already_registered_witness :
  ex_register_on_moltbook (py "Rex") (py "another dog") registered_world =
  (Return (py "Already registered as Fido. API key exists."), registered_world).
Proof.
  apply (register_already_registered
           literal_float literal_float_of_literal literal_floatstr literal_floatstr
           literal_float_bool literal_str_repr literal_home
           (py "Rex") (py "another dog") registered_world
           (ex_dumps (credentials_dict fido_credentials))
           [(py "api_key", VStr (py "k1")); (py "agent_name", VStr (py "Fido"));
            (py "claim_url", VStr fido_claim_url);
            (py "verification_code", VStr (py "123"))]
           (VStr (py "k1")));
    reflexivity.
Defined.

Lemma get_feed_forwards_sort_witness :
  ex_get_auth_headers registered_world =
    (Return [(py "Authorization", VStr (py "Bearer k1"))], registered_world) /\
  calls (snd (ex_get_feed (py "bogus") 25 registered_world)) =
  [{| method := py "GET";
      url := py "https://www.moltbook.com/api/v1/posts";
      json_data := None;
      params := Some [(py "sort", VStr (py "bogus")); (py "limit", VInt 25)];
      headers := [(py "Content-Type", VStr (py "application/json"));
                  (py "Authorization", VStr (py "Bearer k1"))];
      timeout := 30 |}].
Proof.
  split; [reflexivity|].
  apply (proj2 (get_feed_forwards_sort
                  literal_float literal_float_of_literal literal_floatstr literal_floatstr
                  literal_float_bool literal_str_repr
                  (py "bogus") registered_world)
               (VStr (py "Bearer k1"))).
  reflexivity.
Defined.

(** * Instances of the further properties *)

Arguments Says {float} msg.
Arguments Escapes {float} e.
Arguments TypeError {float}.
Arguments method {float} r.
Arguments url {float} r.
Arguments json_data {float} r.
Arguments params {float} r.

Abbreviation inst_a f :=
  (f literal_float literal_float_of_literal literal_floatstr literal_floatstr
     literal_float_bool literal_str_repr).
Abbreviation inst_b f :=
  (f literal_float literal_float_of_literal literal_floatstr
     literal_float_bool literal_str_repr).
Abbreviation inst_c f :=
  (f literal_float literal_float_of_literal literal_floatstr literal_floatstr
     literal_float_bool literal_str_repr literal_home).

(** The record of [fido_credentials] is stored; the service gives one fixed
    reply. *)
Abbreviation keyed_world answer :=
  (fixed_world (float := literal_float)
     (Some (ex_dumps (credentials_dict fido_credentials))) answer).

Abbreviation fido_headers :=
  [(py "Content-Type", VStr (float := literal_float) (py "application/json"));
   (py "Authorization", VStr (py "Bearer k1"))].

Lemma keyed_world_has_key (answer : reply literal_float) :
  has_key literal_float literal_float_of_literal (keyed_world answer) (py "k1").
Proof.
  exists (ex_dumps (credentials_dict fido_credentials)).
  exists [(py "api_key", VStr (py "k1")); (py "agent_name", VStr (py "Fido"));
          (py "claim_url", VStr fido_claim_url); (py "verification_code", VStr (py "123"))].
  repeat split; try reflexivity. discriminate.
Defined.

Lemma api_request_success_passthrough_witness :
  fst (ex_api_request (py "GET") (py "/submolts") None None false
         (fixed_world None (Responds (ok_response 200 (py "[1, 2]"))))) =
  Return (VList [VInt 1; VInt 2]).
Proof.
  apply (inst_b api_request_success_passthrough
           (py "GET") (py "/submolts") None None false
           (fixed_world None (Responds (ok_response 200 (py "[1, 2]"))))
           (issued (fixed_world None (Responds (ok_response 200 (py "[1, 2]"))))
                   (build_request (py "GET") (py "/submolts") None None content_type))
           _
           (build_request (py "GET") (py "/submolts") None None content_type)
           (ok_response 200 (py "[1, 2]")));
    reflexivity.
Defined.

Lemma api_request_bearer_header_witness :
  snd (ex_api_request (py "GET") (py "/agents/me") None None true registered_world) =
  issued registered_world
         (build_request (py "GET") (py "/agents/me") None None fido_headers).
Proof.
  apply (inst_b api_request_bearer_header (py "GET") (py "/agents/me") None None
           registered_world (py "k1")).
  apply keyed_world_has_key.
Defined.

Lemma api_request_bad_store_raises_witness :
  ex_api_request (py "GET") (py "/agents/me") None None true corrupt_world =
    (Raise JSONDecodeError, corrupt_world) /\
  ex_api_request (py "GET") (py "/agents/me") None None true
    (fixed_world (Some (py "[1]")) (Fails (py "unreachable"))) =
    (Raise AttributeError, fixed_world (Some (py "[1]")) (Fails (py "unreachable"))).
Proof.
  split.
  - apply (proj1 (inst_b api_request_bad_store_raises (py "GET") (py "/agents/me")
                    None None corrupt_world (py "not json") eq_refl)).
    reflexivity.
  - apply (proj2 (inst_b api_request_bad_store_raises (py "GET") (py "/agents/me")
                    None None (fixed_world (Some (py "[1]")) (Fails (py "unreachable")))
                    (py "[1]") eq_refl) (VList [VInt 1])).
    + reflexivity.
    + reflexivity.
    + discriminate.
Defined.

Lemma api_request_returns_witness :
  exists v,
    fst (ex_api_request (py "GET") (py "/agents/me") None None true unregistered_world) =
    Return v.
Proof.
  apply (inst_b api_request_returns (py "GET") (py "/agents/me") None None true
           unregistered_world).
  right. reflexivity.
Defined.

Lemma save_credentials_overwrites_witness :
  bind (ex_save_credentials (credentials_dict fido_credentials))
       (fun _ => bind (ex_save_credentials
                         (VDict (string_dict literal_float [(py "api_key", py "k2")])))
                      (fun _ => ex_load_credentials)) unregistered_world =
  (Return (VDict (string_dict literal_float [(py "api_key", py "k2")])),
   {| cred_file := Some (ex_dumps (VDict (string_dict literal_float
                                            [(py "api_key", py "k2")])));
      remote := remote unregistered_world; calls := calls unregistered_world |}).
Proof.
  apply (inst_c save_credentials_overwrites (credentials_dict fido_credentials)
           [(py "api_key", py "k2")] unregistered_world).
  - repeat constructor. intros [].
  - repeat constructor; apply plain_text_ascii; reflexivity.
Defined.

Lemma saved_key_authorizes_witness :
  bind (ex_save_credentials (credentials_dict fido_credentials))
       (fun _ => ex_get_auth_headers) unregistered_world =
  (Return [(py "Authorization", VStr (py "Bearer k1"))],
   {| cred_file := Some (ex_dumps (credentials_dict fido_credentials));
      remote := remote unregistered_world; calls := calls unregistered_world |}).
Proof.
  apply (inst_c saved_key_authorizes fido_credentials unregistered_world);
    apply plain_text_ascii; reflexivity.
Defined.

Abbreviation register_request name description :=
  (build_request (float := literal_float) (py "POST") (py "/agents/register")
     (Some (VDict [(py "name", VStr name); (py "description", VStr description)]))
     None content_type).

Lemma register_failure_keeps_store_witness :
  ex_register_on_moltbook (py "Fido") (py "a good boy") unregistered_world =
  (Return (py "Registration failed: {'success': False, 'error': '[Errno 111] Connection refused'}"),
   {| cred_file := None;
      remote := remote unregistered_world;
      calls := [register_request (py "Fido") (py "a good boy")] |}).
Proof.
  destruct (inst_c register_failure_keeps_store (py "Fido") (py "a good boy")
              unregistered_world (or_introl eq_refl))
    as (Hfails & _).
  apply (Hfails (py "[Errno 111] Connection refused")). reflexivity.
Defined.

Lemma register_twice_witness :
  ex_register_on_moltbook (py "Rex") (py "another dog")
    (snd (ex_register_on_moltbook (py "Fido") (py "a good boy") registration_world)) =
  (Return (py "Already registered as Fido. API key exists."),
   snd (ex_register_on_moltbook (py "Fido") (py "a good boy") registration_world)).
Proof.
  apply (proj2 (inst_c register_twice (py "Fido") (py "a good boy")
                  (py "Rex") (py "another dog") registration_world fido_response
                  [(py "agent",
                    VDict [(py "api_key", VStr (py "k1"));
                           (py "claim_url", VStr fido_claim_url);
                           (py "verification_code", VStr (py "123"))])]
                  [(py "api_key", VStr (py "k1"));
                   (py "claim_url", VStr fido_claim_url);
                   (py "verification_code", VStr (py "123"))]
                  (py "k1") fido_claim_url (py "123")
                  (or_introl eq_refl) eq_refl eq_refl eq_refl eq_refl eq_refl
                  ltac:(discriminate) eq_refl eq_refl
                  (plain_text_ascii "Fido" eq_refl) (plain_text_ascii "k1" eq_refl)
                  (plain_text_ascii "https://www.moltbook.com/claim/abc" eq_refl)
                  (plain_text_ascii "123" eq_refl))).
Defined.

Abbreviation array_reply := (Responds (ok_response 200 (py "[]"))).

Lemma register_non_object_reply_raises_witness :
  ex_register_on_moltbook (py "Fido") (py "a good boy") (fixed_world None array_reply) =
  (Raise AttributeError,
   issued (fixed_world None array_reply) (register_request (py "Fido") (py "a good boy"))).
Proof.
  apply (proj1 (inst_c register_non_object_reply_raises (py "Fido") (py "a good boy")
                  (fixed_world None array_reply) (ok_response 200 (py "[]"))
                  (or_introl eq_refl) eq_refl eq_refl)
               (VList [])).
  - reflexivity.
  - discriminate.
Defined.

Lemma reading_tools_unregistered_witness :
  inst_a list_submolts unregistered_world =
  (Return (py "Failed to list submolts: Not registered on Moltbook. Use register_on_moltbook first."),
   unregistered_world).
Proof.
  apply (inst_a reading_tools_unregistered (py "p1") (py "new") 25%Z
           (py "Failed to list submolts")).
  - cbn [reading_tools In]. tauto.
  - left. reflexivity.
Defined.

Lemma confirming_tools_unregistered_witness :
  inst_b follow_user (py "p1") unregistered_world =
    (Return (py "Follow failed: Not registered on Moltbook. Use register_on_moltbook first."),
     unregistered_world) /\
  inst_b upvote_post (py "p1") unregistered_world =
    (Says (VStr (py "Upvote failed: Not registered on Moltbook. Use register_on_moltbook first.")),
     unregistered_world) /\
  inst_a create_post (py "p1") (py "Hello") (py "Woof") unregistered_world =
    (Return (py "Post creation failed: " ++ NOT_REGISTERED ++ [10] ++ py "Hint: N/A"),
     unregistered_world).
Proof.
  destruct (inst_a confirming_tools_unregistered
              (py "p1") (py "Hello") (py "Woof") None None unregistered_world
              (or_introl eq_refl))
    as (Hconfirming & _ & _ & _ & Hupvote & Hcreate).
  split; [|split; [exact Hupvote | exact Hcreate]].
  apply (Hconfirming (fun _ => py "Now following " ++ py "p1" ++ py "!")
                     (py "Follow failed")).
  cbn [confirming_tools In]. tauto.
Defined.

(** Replies used below. *)
Abbreviation posts_body :=
  (VDict (float := literal_float) [(py "posts", VList []); (py "count", VInt 0)]).
Abbreviation posts_reply :=
  (Responds (ok_response 200 (ex_dumps posts_body))).
Abbreviation empty_object_reply := (Responds (ok_response 200 (py "{}"))).

Lemma reading_tools_print_json_witness :
  fst (inst_a get_post (py "p1") (keyed_world posts_reply)) = Return (ex_dumps posts_body).
Proof.
  apply (proj1 (inst_a reading_tools_print_json (py "p1") (py "new") 25%Z
                  (py "Failed to get post")
                  (inst_a get_post (py "p1")) (keyed_world posts_reply)
                  (issued (keyed_world posts_reply)
                          (build_request (py "GET") (py "/posts/p1") None None fido_headers))
                  _
                  (build_request (py "GET") (py "/posts/p1") None None fido_headers)
                  (ok_response 200 (ex_dumps posts_body))
                  [(py "posts", VList []); (py "count", VInt 0)]
                  ltac:(cbn [reading_tools In]; tauto)
                  eq_refl eq_refl eq_refl eq_refl eq_refl)).
  discriminate.
Defined.

Lemma tools_non_object_reply_raise_witness :
  fst (inst_a list_submolts (keyed_world array_reply)) = Raise AttributeError.
Proof.
  apply (proj1 (inst_a tools_non_object_reply_raise (py "p1") (py "x") (py "y") 25%Z
                  None None
                  (keyed_world array_reply)
                  (issued (keyed_world array_reply)
                          (build_request (py "GET") (py "/submolts") None None fido_headers))
                  (build_request (py "GET") (py "/submolts") None None fido_headers)
                  (ok_response 200 (py "[]")) (VList [])
                  eq_refl eq_refl eq_refl eq_refl ltac:(discriminate))
               (inst_a list_submolts)).
  - apply in_or_app. left. cbn [reading_tools map snd In]. tauto.
  - reflexivity.
Defined.

Lemma confirming_tools_need_truthy_success_witness :
  fst (inst_b delete_post (py "p1") (keyed_world empty_object_reply)) =
  Return (py "Post deletion failed: None").
Proof.
  apply (inst_a confirming_tools_need_truthy_success (py "p1") (py "x") (py "y")
           (fun _ => py "Post deleted successfully!") (py "Post deletion failed")
           (inst_b delete_post (py "p1")) (keyed_world empty_object_reply)
           (issued (keyed_world empty_object_reply)
                   (build_request (py "DELETE") (py "/posts/p1") None None fido_headers))
           _
           (build_request (py "DELETE") (py "/posts/p1") None None fido_headers)
           (ok_response 200 (py "{}")) []).
  - cbn [confirming_tools In]. tauto.
  - reflexivity.
  - reflexivity.
  - reflexivity.
  - reflexivity.
  - reflexivity.
Defined.

Abbreviation no_submolt_body :=
  [(py "error", VStr (float := literal_float) (py "Submolt not found"))].
Abbreviation no_submolt_response :=
  (error_response 404 (ex_dumps (VDict no_submolt_body))
     (py "Client error '404 Not Found' for url 'https://www.moltbook.com/api/v1/posts'" ++
      more_information "404")).
Abbreviation no_submolt_reply := (Responds no_submolt_response).
Abbreviation hello_request :=
  (build_request (float := literal_float) (py "POST") (py "/posts")
     (Some (VDict [(py "submolt", VStr (py "nowhere")); (py "title", VStr (py "Hello"));
                   (py "content", VStr (py "Woof"))]))
     None fido_headers).

Lemma create_post_hint_witness :
  fst (inst_a create_post (py "Hello") (py "Woof") (py "nowhere")
         (keyed_world no_submolt_reply)) =
  Return (py "Post creation failed: Submolt not found" ++ [10] ++ py "Hint: None").
Proof.
  apply (proj1 (inst_a create_post_hint (py "Hello") (py "Woof") (py "nowhere")
                  (keyed_world no_submolt_reply)
                  (issued (keyed_world no_submolt_reply) hello_request)
                  _ hello_request eq_refl eq_refl)
               no_submolt_response
               no_submolt_body);
    reflexivity.
Defined.

Lemma update_my_profile_fields_witness :
  inst_b update_my_profile (Some []) (Some []) corrupt_world =
    (Return (py "No updates provided. Specify description and/or metadata."),
     corrupt_world) /\
  json_data (build_request (float := literal_float) (py "PATCH") (py "/agents/me")
               (Some (VDict [(py "description", VStr (py "woof"))])) None fido_headers) =
    Some (VDict [(py "description", VStr (py "woof"))]).
Proof.
  split.
  - apply (proj1 (inst_b update_my_profile_fields (Some []) (Some []) corrupt_world));
      right; reflexivity.
  - destruct (proj2 (inst_b update_my_profile_fields (Some (py "woof")) (Some [])
                       (keyed_world empty_object_reply))
                    _
                    (issued (keyed_world empty_object_reply)
                       (build_request (py "PATCH") (py "/agents/me")
                          (Some (VDict [(py "description", VStr (py "woof"))]))
                          None fido_headers))
                    (build_request (py "PATCH") (py "/agents/me")
                       (Some (VDict [(py "description", VStr (py "woof"))]))
                       None fido_headers)
                    eq_refl eq_refl) as (_ & _ & _ & Hbody).
    exact Hbody.
Defined.

Lemma check_moltbook_status_report_witness :
  inst_b check_moltbook_status unregistered_world =
    (Return (py "Not registered on Moltbook yet. Use register_on_moltbook to register."),
     unregistered_world) /\
  fst (inst_b check_moltbook_status (keyed_world empty_object_reply)) =
    Return (py "Moltbook Status:" ++ [10] ++
            py "- Agent Name: Fido" ++ [10] ++
            py "- Status: unknown" ++ [10] ++
            py "- Claim URL: https://www.moltbook.com/claim/abc").
Proof.
  split.
  - apply (proj1 (inst_b check_moltbook_status_report unregistered_world)).
    left. reflexivity.
  - apply (proj2 (inst_b check_moltbook_status_report (keyed_world empty_object_reply))
                 (ex_dumps (credentials_dict fido_credentials))
                 [(py "api_key", VStr (py "k1")); (py "agent_name", VStr (py "Fido"));
                  (py "claim_url", VStr fido_claim_url);
                  (py "verification_code", VStr (py "123"))]
                 (VStr (py "k1")) _
                 (issued (keyed_world empty_object_reply)
                    (build_request (py "GET") (py "/agents/status") None None fido_headers))
                 (build_request (py "GET") (py "/agents/status") None None fido_headers)
                 (ok_response 200 (py "{}")) []);
      try reflexivity.
    discriminate.
Defined.

Lemma upvote_post_request_witness :
  calls (snd (inst_b upvote_post (py "p1") registered_world)) =
  [build_request (py "POST") (py "/posts/p1/upvote") None None fido_headers].
Proof.
  apply (inst_b upvote_post_request (py "p1") registered_world (py "k1")).
  apply keyed_world_has_key.
Defined.

Abbreviation upvoted_body :=
  [(py "success", VBool (float := literal_float) true);
   (py "message", VStr (py "Upvoted! +1"));
   (py "author", VDict [(py "name", VStr (py "Rex"))]);
   (py "suggestion", VStr (py "Follow Rex for more"))].
Abbreviation upvoted_reply :=
  (Responds (ok_response 200 (ex_dumps (VDict upvoted_body)))).
Abbreviation upvote_request :=
  (build_request (float := literal_float) (py "POST") (py "/posts/p1/upvote")
     None None fido_headers).

Lemma upvote_post_message_witness :
  fst (inst_b upvote_post (py "p1") (keyed_world upvoted_reply)) =
  Says (VStr (py "Upvoted! +1" ++ [10] ++ py "Author: Rex" ++ [10] ++
              py "Follow Rex for more")).
Proof.
  apply (proj1 (inst_b upvote_post_message (py "p1") (keyed_world upvoted_reply)
                  (issued (keyed_world upvoted_reply) upvote_request)
                  _ upvote_request
                  (ok_response 200 (ex_dumps (VDict upvoted_body)))
                  upvoted_body [(py "name", VStr (py "Rex"))]
                  eq_refl eq_refl eq_refl eq_refl eq_refl eq_refl eq_refl
                  ltac:(discriminate))
               (py "Upvoted! +1") (py "Follow Rex for more")).
  - left. reflexivity.
  - reflexivity.
  - discriminate.
Defined.

Abbreviation search_request :=
  (build_request (float := literal_float) (py "GET") (py "/search") None
     (Some [(py "q", VStr (py "good dogs")); (py "limit", VInt 10)]) fido_headers).

Lemma reading_tools_forward_parameters_witness :
  calls (snd (inst_a search_moltbook (py "good dogs") 10%Z (keyed_world posts_reply))) =
    [search_request] /\
  params search_request = Some [(py "q", VStr (py "good dogs")); (py "limit", VInt 10)].
Proof.
  split; [reflexivity|].
  destruct (inst_a reading_tools_forward_parameters (keyed_world posts_reply)
              (issued (keyed_world posts_reply) search_request) search_request eq_refl)
    as (_ & Hsearch & _).
  destruct (Hsearch (py "good dogs") 10%Z _ eq_refl) as (_ & _ & _ & Hparams).
  exact Hparams.
Defined.

Abbreviation reply_request :=
  (build_request (float := literal_float) (py "POST") (py "/posts/p1/comments")
     (Some (VDict [(py "content", VStr (py "Woof!")); (py "parent_id", VStr (py "c7"))]))
     None fido_headers).

Lemma writing_tools_forward_body_witness :
  calls (snd (inst_a reply_to_comment (py "p1") (py "c7") (py "Woof!")
                (keyed_world empty_object_reply))) = [reply_request] /\
  json_data reply_request =
    Some (VDict [(py "content", VStr (py "Woof!")); (py "parent_id", VStr (py "c7"))]).
Proof.
  split; [reflexivity|].
  destruct (inst_a writing_tools_forward_body (keyed_world empty_object_reply)
              (issued (keyed_world empty_object_reply) reply_request) reply_request eq_refl)
    as (_ & _ & _ & Hreply & _).
  destruct (Hreply (py "p1") (py "c7") (py "Woof!") _ eq_refl) as (_ & _ & _ & Hbody).
  exact Hbody.
Defined.

Lemma tools_single_request_witness :
  cred_file (snd (inst_b delete_post (py "p1") registered_world)) =
    cred_file registered_world /\
  (calls (snd (inst_b delete_post (py "p1") registered_world)) = calls registered_world \/
   exists req,
     calls (snd (inst_b delete_post (py "p1") registered_world)) =
     calls registered_world ++ [req]).
Proof.
  apply (proj1 (inst_a tools_single_request (py "p1") (py "x") (py "y") 25%Z None None
                  registered_world)
               (inst_b delete_post (py "p1"))).
  apply in_or_app. right. apply in_or_app. left.
  cbn [confirming_tools map snd In]. tauto.
Defined.

Abbreviation counted_body :=
  [(py "success", VBool (float := literal_float) true); (py "message", VInt 41)].
Abbreviation counted_reply :=
  (Responds (ok_response 200 (ex_dumps (VDict counted_body)))).
Abbreviation plain_success_body := [(py "success", VBool (float := literal_float) true)].
Abbreviation plain_success_reply :=
  (Responds (ok_response 200 (ex_dumps (VDict plain_success_body)))).
Abbreviation downvote_request :=
  (build_request (float := literal_float) (py "POST") (py "/posts/p1/downvote")
     None None fido_headers).

Lemma voting_tools_message_witness :
  fst (inst_b downvote_post (py "p1") (keyed_world counted_reply)) = Return (VInt 41) /\
  fst (inst_b downvote_post (py "p1") (keyed_world plain_success_reply)) =
  Return (VStr (py "Downvoted!")).
Proof.
  split.
  - apply (proj1 (inst_b voting_tools_message (py "p1")
                    (py "Downvoted!") (py "Downvote failed")
                    (inst_b downvote_post (py "p1"))
                    (keyed_world counted_reply)
                    (issued (keyed_world counted_reply) downvote_request)
                    _ downvote_request
                    (ok_response 200 (ex_dumps (VDict counted_body)))
                    counted_body
                    ltac:(cbn [voting_tools In]; tauto)
                    eq_refl eq_refl eq_refl eq_refl eq_refl eq_refl)).
    reflexivity.
  - apply (proj2 (inst_b voting_tools_message (py "p1")
                    (py "Downvoted!") (py "Downvote failed")
                    (inst_b downvote_post (py "p1"))
                    (keyed_world plain_success_reply)
                    (issued (keyed_world plain_success_reply) downvote_request)
                    _ downvote_request
                    (ok_response 200 (ex_dumps (VDict plain_success_body)))
                    plain_success_body
                    ltac:(cbn [voting_tools In]; tauto)
                    eq_refl eq_refl eq_refl eq_refl eq_refl eq_refl)).
    reflexivity.
Defined.
